(** * TCP/IP packet drills: the answer matcher, the hex-dump renderer and
      the question selection of [packet_quiz.py] and [tcp_flags_quiz.py]

    The two scripts are embedded shallowly.  Python [str] values are
    modelled as [string] over ASCII characters, Python [int] values as [Z]
    (or [nat] where the code only ever produces an index or a length), a
    raised exception as the [Raise] constructor of [result], and the
    outcome of [random.shuffle] as an arbitrary permutation.

    The built-ins [str.strip], [str.split], [str.lower], [str.upper] and
    [int] are modelled on ASCII text, where they are these functions; on
    other text Python also strips further blanks, folds further letters
    and reads further digits.  A statement that depends on the value of
    these built-ins carries the hypothesis [is_ascii] on the texts it is
    about. *)

From Stdlib Require Import String Ascii List ZArith Lia Bool Arith.
From Stdlib Require Import Permutation QArith FinFun.
Import ListNotations.

Local Open Scope list_scope.
Local Open Scope string_scope.
Local Open Scope nat_scope.

(* ------------------------------------------------------------------ *)
(** ** Exceptions *)

Inductive exn : Type :=
| ValueError
| IndexError
| ZeroDivisionError.

Inductive result (A : Type) : Type :=
| Ok (a : A)
| Raise (e : exn).

Arguments Ok {A} a.
Arguments Raise {A} e.

Definition bind {A B : Type} (m : result A) (k : A -> result B) : result B :=
  match m with
  | Ok a => k a
  | Raise e => Raise e
  end.

Notation "x <- m ;; k" := (bind m (fun x => k))
  (at level 61, m at next level, right associativity).

(** [try: body except ValueError: handler] *)
Definition try_except_ValueError {A : Type} (body handler : result A) : result A :=
  match body with
  | Raise ValueError => handler
  | r => r
  end.

(* ------------------------------------------------------------------ *)
(** ** The Python built-ins the scripts use *)

Module Py.

(** [str.isspace] on an ASCII character: tab, LF, VT, FF, CR, the four
    separators 0x1c-0x1f and the blank. *)
Definition is_space (c : ascii) : bool :=
  let n := nat_of_ascii c in
  ((9 <=? n) && (n <=? 13)) || ((28 <=? n) && (n <=? 32)).

Definition lower_char (c : ascii) : ascii :=
  let n := nat_of_ascii c in
  if (65 <=? n) && (n <=? 90) then ascii_of_nat (n + 32) else c.

Definition upper_char (c : ascii) : ascii :=
  let n := nat_of_ascii c in
  if (97 <=? n) && (n <=? 122) then ascii_of_nat (n - 32) else c.

Fixpoint lower (s : string) : string :=
  match s with
  | EmptyString => EmptyString
  | String c r => String (lower_char c) (lower r)
  end.

Fixpoint upper (s : string) : string :=
  match s with
  | EmptyString => EmptyString
  | String c r => String (upper_char c) (upper r)
  end.

Fixpoint lstrip (s : string) : string :=
  match s with
  | EmptyString => EmptyString
  | String c r => if is_space c then lstrip r else s
  end.

Fixpoint rstrip (s : string) : string :=
  match s with
  | EmptyString => EmptyString
  | String c r =>
      match rstrip r with
      | EmptyString => if is_space c then EmptyString else String c EmptyString
      | r' => String c r'
      end
  end.

Definition strip (s : string) : string := lstrip (rstrip s).

(** [s.startswith(p)] *)
Fixpoint startswith (s p : string) {struct p} : bool :=
  match p with
  | EmptyString => true
  | String a p' =>
      match s with
      | EmptyString => false
      | String b s' => (a =? b)%char && startswith s' p'
      end
  end.

(** [x in l] for a list of strings. *)
Fixpoint str_in (x : string) (l : list string) : bool :=
  match l with
  | [] => false
  | y :: r => (x =? y)%string || str_in x r
  end.

(** [s[:n]] and [s[n:]] for [0 <= n]; [s[i:j]] for [0 <= i <= j]. *)
Fixpoint take (n : nat) (s : string) : string :=
  match n, s with
  | S n', String c r => String c (take n' r)
  | _, _ => EmptyString
  end.

Fixpoint drop (n : nat) (s : string) : string :=
  match n, s with
  | S n', String _ r => drop n' r
  | _, _ => s
  end.

Definition slice (s : string) (i j : nat) : string := take (j - i) (drop i s).

(** [range(0, stop, step)] for a positive step. *)
Definition range_step (stop step : nat) : list nat :=
  map (fun k => k * step) (seq 0 ((stop + step - 1) / step)).

(** [sep.join(l)] *)
Fixpoint join (sep : string) (l : list string) : string :=
  match l with
  | [] => EmptyString
  | [x] => x
  | x :: r => x ++ sep ++ join sep r
  end.

(** [l[:n]] on a list, for any integer [n]: a negative bound counts from
    the end, and every bound is clipped to the list. *)
Definition list_upto {A : Type} (l : list A) (n : Z) : list A :=
  if (n <? 0)%Z
  then firstn (Z.to_nat (Z.max 0 (Z.of_nat (length l) + n))) l
  else firstn (Z.to_nat n) l.

(** [l[i]] on a list, for any integer [i]; out of range raises. *)
Definition list_get {A : Type} (l : list A) (i : Z) : result A :=
  let k := if (i <? 0)%Z then (Z.of_nat (length l) + i)%Z else i in
  if (k <? 0)%Z then Raise IndexError
  else match nth_error l (Z.to_nat k) with
       | Some a => Ok a
       | None => Raise IndexError
       end.

(** The value of a base-16 digit. *)
Definition hex_val (c : ascii) : option Z :=
  let n := nat_of_ascii c in
  if (48 <=? n) && (n <=? 57) then Some (Z.of_nat (n - 48))
  else if (97 <=? n) && (n <=? 102) then Some (Z.of_nat (n - 87))
  else if (65 <=? n) && (n <=? 70) then Some (Z.of_nat (n - 55))
  else None.

(** The digit loop of [int(s, 16)]: digits, single underscores between
    them, nothing else up to the end of the text; at least one digit and no
    trailing underscore. *)
Fixpoint int16_digits (s : string) (prev_underscore : bool)
         (ndigits : nat) (acc : Z) : result Z :=
  match s with
  | EmptyString =>
      if prev_underscore then Raise ValueError
      else match ndigits with
           | O => Raise ValueError
           | S _ => Ok acc
           end
  | String c r =>
      if (c =? "_")%char
      then (if prev_underscore then Raise ValueError
            else int16_digits r true ndigits acc)
      else match hex_val c with
           | Some d => int16_digits r false (S ndigits) (16 * acc + d)%Z
           | None => Raise ValueError
           end
  end.

(** After the sign: an optional [0x] or [0X], which one underscore may
    follow; then the digits, which may not start with an underscore. *)
Definition int16_unsigned (s : string) : result Z :=
  let body :=
    match s with
    | String "0" (String x r) =>
        if ((x =? "x") || (x =? "X"))%char
        then match r with
             | String "_" r' => r'
             | _ => r
             end
        else s
    | _ => s
    end in
  match body with
  | String "_" _ => Raise ValueError
  | _ => int16_digits body false 0 0%Z
  end.

(** The white space [int] skips at both ends of an ASCII text, which is
    that of C's [isspace]: tab, LF, VT, FF, CR and the blank, without the
    four separators of [str.isspace]. *)
Definition is_c_space (c : ascii) : bool :=
  let n := nat_of_ascii c in
  ((9 <=? n) && (n <=? 13)) || (n =? 32).

Fixpoint int_lstrip (s : string) : string :=
  match s with
  | EmptyString => EmptyString
  | String c r => if is_c_space c then int_lstrip r else s
  end.

Fixpoint int_rstrip (s : string) : string :=
  match s with
  | EmptyString => EmptyString
  | String c r =>
      match int_rstrip r with
      | EmptyString => if is_c_space c then EmptyString else String c EmptyString
      | r' => String c r'
      end
  end.

Definition int_strip (s : string) : string := int_lstrip (int_rstrip s).

(** [int(s, 16)] *)
Definition int16 (s : string) : result Z :=
  match int_strip s with
  | String "+" r => int16_unsigned r
  | String "-" r => v <- int16_unsigned r ;; Ok (- v)%Z
  | t => int16_unsigned t
  end.

(** [format(n, "x")]: the lowercase base-16 digits of [n], most
    significant first.  The fuel is the number itself, which is more than
    its number of digits. *)
Definition hex_digit (d : nat) : ascii :=
  if d <? 10 then ascii_of_nat (48 + d) else ascii_of_nat (87 + d).

Fixpoint to_hex_aux (fuel n : nat) (acc : string) : string :=
  match fuel with
  | O => acc
  | S fuel' =>
      let acc' := String (hex_digit (n mod 16)) acc in
      if n / 16 =? 0 then acc' else to_hex_aux fuel' (n / 16) acc'
  end.

Definition to_hex (n : nat) : string := to_hex_aux (S n) n EmptyString.

Fixpoint zeros (k : nat) : string :=
  match k with
  | O => EmptyString
  | S k' => String "0" (zeros k')
  end.

(** [format(n, "04x")]: zero-padded on the left up to a width of 4; a
    longer text is left as it is. *)
Definition format_04x (n : nat) : string :=
  let digits := to_hex n in
  zeros (4 - String.length digits) ++ digits.

End Py.

(** [s.split()]: the maximal runs of characters that are not white space. *)
Module PySplit.

Fixpoint split_aux (s cur : string) : list string :=
  match s with
  | EmptyString =>
      match cur with
      | EmptyString => []
      | _ => [cur]
      end
  | String c r =>
      if Py.is_space c
      then match cur with
           | EmptyString => split_aux r EmptyString
           | _ => cur :: split_aux r EmptyString
           end
      else split_aux r (cur ++ String c EmptyString)
  end.

Definition split (s : string) : list string := split_aux s EmptyString.

End PySplit.

(* ------------------------------------------------------------------ *)
(** ** The lines both scripts share *)

(** The lines of [run_quiz] that turn the typed text into the text given to
    [check_answer]; they are the same in both scripts.  [user_answer] is the
    typed line after [strip]. *)
Definition letter_to_option (user_answer : string) (options : list string) : string :=
  let user_option := "" in
  if Py.str_in (Py.upper user_answer) ["A"; "B"; "C"; "D"]
  then
    match Py.upper user_answer with
    | String c _ =>
        let index := (Z.of_nat (nat_of_ascii c) - 65)%Z in
        if ((0 <=? index) && (index <? Z.of_nat (length options)))%Z
        then nth (Z.to_nat index) options user_option
        else user_option
    | EmptyString => user_option
    end
  else user_answer.

(** [score / num_questions * 100], with exact rationals in the place of
    Python's floats. *)
Definition percentage (score num_questions : Z) : result Q :=
  if (num_questions =? 0)%Z then Raise ZeroDivisionError
  else Ok (Qmult (Qdiv (inject_Z score) (inject_Z num_questions)) (inject_Z 100)).

(* ------------------------------------------------------------------ *)
(** ** [packet_quiz.py] *)

Module PacketQuiz.

Record Question : Type := mkQuestion {
  q_id : Z;
  q_text : string;
  q_packet_index : Z;
  q_options : list string;
  q_answer : string;
  q_explanation : string;
  q_hex_location : option string
}.

Record Packet : Type := mkPacket {
  p_name : string;
  p_hex_dump : string
}.

Record t : Type := mkQuiz {
  num_questions : Z;
  start_question_id : option Z;
  score : Z;
  packet_data : list Packet;
  questions : list Question
}.

(** What [run_quiz] prints, one event per [print] that carries data. *)
Inductive event : Type :=
| EvIntro (n : Z)
| EvStartingWith (id : Z)
| EvNotFound (id : Z)
| EvQuestion (number : nat) (n : Z) (id : Z) (text : string)
| EvHexDump (name dump : string)
| EvOptions (options : list string)
| EvCorrect
| EvIncorrect (correct_answer : string)
| EvExplanation (explanation relevant : string)
| EvScore (score n : Z) (percent : Q).

(** *** [format_hex_dump] *)

Definition HIGHLIGHT_COLOR : string := String (ascii_of_nat 27) "[1;32m".
Definition RESET_COLOR : string := String (ascii_of_nat 27) "[0m".

(** The body of the inner loop: the text appended to [formatted_bytes]. *)
Definition format_byte (offset num_bytes : option Z) (byte_pos : nat)
           (byte : string) : string :=
  match offset, num_bytes with
  | Some o, Some n =>
      if ((o <=? Z.of_nat byte_pos) && (Z.of_nat byte_pos <? o + n))%Z
      then HIGHLIGHT_COLOR ++ byte ++ RESET_COLOR
      else byte
  | _, _ => byte
  end.

(** [formatted_bytes] at the end of the inner loop, for the line that
    starts at character [i]. *)
Definition formatted_bytes (hex_string : string) (offset num_bytes : option Z)
           (i : nat) : list string :=
  let chunk := Py.slice hex_string i (i + 32) in
  map (fun j =>
         let byte_pos := (i + j) / 2 in
         let byte := Py.slice chunk j (j + 2) in
         format_byte offset num_bytes byte_pos byte)
      (Py.range_step (String.length chunk) 2).

(** [formatted_lines] at the end of the outer loop. *)
Definition formatted_lines (hex_string : string) (offset num_bytes : option Z)
  : list string :=
  map (fun i =>
         let line_number := Py.format_04x (i / 2) in
         let formatted_line := Py.join " " (formatted_bytes hex_string offset num_bytes i) in
         line_number ++ "  " ++ formatted_line)
      (Py.range_step (String.length hex_string) 32).

Definition newline : string := String (ascii_of_nat 10) EmptyString.

Definition format_hex_dump (hex_string : string) (offset num_bytes : option Z)
  : string :=
  Py.join newline (formatted_lines hex_string offset num_bytes).

(** *** [check_answer] *)

Definition check_answer (user_answer correct_answer : string) : result bool :=
  let user_answer := Py.strip (Py.lower user_answer) in
  let correct_answer := Py.strip (Py.lower correct_answer) in
  if (user_answer =? correct_answer)%string then Ok true
  else if Py.str_in correct_answer ["true"; "false"]
          && Py.str_in user_answer ["true"; "false"; "t"; "f"]
  then
    let user_answer :=
      if (user_answer =? "t")%string then "true"
      else if (user_answer =? "f")%string then "false"
      else user_answer in
    Ok (user_answer =? correct_answer)%string
  else if Py.startswith correct_answer "0x" && Py.startswith user_answer "0x"
  then
    try_except_ValueError
      (c <- Py.int16 correct_answer ;;
       u <- Py.int16 user_answer ;;
       Ok (c =? u)%Z)
      (Ok false)
  else Ok false.

(** *** [run_quiz] *)

(** The loop that looks for the start question: the last question with the
    id is kept, every other question goes to [remaining_questions]. *)
Definition find_start_step (start_question_id : Z)
           (st : option Question * list Question) (question : Question)
  : option Question * list Question :=
  if (q_id question =? start_question_id)%Z
  then (Some question, snd st)
  else (fst st, (snd st ++ [question])%list).

Definition find_start (start_question_id : Z) (qs : list Question)
  : option Question * list Question :=
  fold_left (find_start_step start_question_id) qs (None, []).

(** The text of [hex_location] turned into the two highlight parameters. *)
Definition parse_hex_location (hex_location : string) : option Z * option Z :=
  match hex_location with
  | EmptyString => (None, None)
  | _ =>
      match PySplit.split hex_location with
      | p0 :: hex_data :: _ =>
          match Py.int16 p0 with
          | Ok offset => (Some offset, Some (Z.of_nat (String.length hex_data / 2)))
          | Raise _ => (None, None)
          end
      | _ => (None, None)
      end
  end.

Definition add_score (self : t) (is_correct : bool) : t :=
  if is_correct
  then mkQuiz (num_questions self) (start_question_id self) (score self + 1)
              (packet_data self) (questions self)
  else self.

Definition set_questions (self : t) (qs : list Question) : t :=
  mkQuiz (num_questions self) (start_question_id self) (score self)
         (packet_data self) qs.

(** One turn of the loop over [quiz_questions]; [typed] is the line read by
    [input].  The corpus is taken in the shape [load_packet_data] gives it
    for a well-formed file, a list of packets with a name and a hex text,
    and a line is taken to be there at every prompt: the [KeyError] or
    [TypeError] of a corpus of another shape and the [EOFError] of a closed
    input are outside this embedding. *)
Definition ask (self : t) (i : nat) (question : Question) (typed : string)
  : result (t * list event) :=
  packet <- Py.list_get (packet_data self) (q_packet_index question) ;;
  let user_answer := Py.strip typed in
  let correct_answer := q_answer question in
  let user_option := letter_to_option user_answer (q_options question) in
  is_correct <- check_answer user_option correct_answer ;;
  let self' := add_score self is_correct in
  let hex_location :=
    match q_hex_location question with Some h => h | None => "" end in
  let '(offset, num_bytes) := parse_hex_location hex_location in
  Ok (self',
      [ EvQuestion (i + 1) (num_questions self) (q_id question) (q_text question);
        EvHexDump (p_name packet) (format_hex_dump (p_hex_dump packet) None None);
        EvOptions (q_options question);
        (if is_correct then EvCorrect else EvIncorrect correct_answer);
        EvHexDump (p_name packet) (format_hex_dump (p_hex_dump packet) offset num_bytes);
        EvExplanation (q_explanation question)
          (match q_hex_location question with
           | Some h => h
           | None => "Not specified"
           end) ]).

(** The loop over [enumerate(quiz_questions)], from index [i] on. *)
Fixpoint ask_all (self : t) (i : nat) (quiz_questions : list Question)
         (answers : nat -> string) : result (t * list event) :=
  match quiz_questions with
  | [] => Ok (self, [])
  | question :: rest =>
      r <- ask self i question (answers i) ;;
      r' <- ask_all (fst r) (S i) rest answers ;;
      Ok (fst r', (snd r ++ snd r')%list)
  end.

Section Run.

(** The outcome of [random.shuffle] on a list. *)
Variable shuffle : list Question -> list Question.

(** The choice of [quiz_questions]: the quiz after the choice, the chosen
    questions and what was printed. *)
Definition select_questions (self : t) : t * list Question * list event :=
  match start_question_id self with
  | Some sid =>
      let '(start_question, remaining_questions) := find_start sid (questions self) in
      match start_question with
      | Some q =>
          let remaining_questions := shuffle remaining_questions in
          (self,
           ([q] ++ Py.list_upto remaining_questions (num_questions self - 1))%list,
           [EvStartingWith sid])
      | None =>
          let self' := set_questions self (shuffle (questions self)) in
          (self', Py.list_upto (questions self') (num_questions self'), [EvNotFound sid])
      end
  | None =>
      let self' := set_questions self (shuffle (questions self)) in
      (self', Py.list_upto (questions self') (num_questions self'), [])
  end.

Definition run_quiz (self : t) (answers : nat -> string) : result (t * list event) :=
  let intro := EvIntro (num_questions self) in
  let '(self, quiz_questions, notice) := select_questions self in
  r <- ask_all self 0 quiz_questions answers ;;
  let self := fst r in
  p <- percentage (score self) (num_questions self) ;;
  Ok (self,
      ([intro] ++ notice ++ snd r
       ++ [EvScore (score self) (num_questions self) p])%list).

End Run.

Definition packet_bank : list Question :=
  [ mkQuestion 1%Z
      "In the ARP Request packet, what is the destination MAC address?"
      0%Z ["00:1a:2b:3c:4d:5e"; "ff:ff:ff:ff:ff:ff"; "00:1c:2d:3e:4f:60"; "c0:a8:01:02"]
      "ff:ff:ff:ff:ff:ff"
      "ARP requests are broadcast to all devices on the network, so they use the broadcast MAC address ff:ff:ff:ff:ff:ff."
      (Some "0000 ffffffffffff");
    mkQuestion 2%Z
      "What is the EtherType value for ARP in the first packet?"
      0%Z ["0x0800"; "0x0806"; "0x8035"; "0x86DD"]
      "0x0806"
      "0x0806 is the EtherType value that indicates the frame contains an ARP packet."
      (Some "000c 0806");
    mkQuestion 3%Z
      "What is the target IP address in the ARP request packet?"
      0%Z ["192.168.1.1"; "192.168.1.2"; "8.8.8.8"; "93.184.216.34"]
      "192.168.1.1"
      "The target IP (c0:a8:01:01) in the ARP request translates to 192.168.1.1 in dotted decimal notation."
      (Some "0026 c0a80101");
    mkQuestion 4%Z
      "True or False: The ARP request packet is asking for the MAC address of 192.168.1.2."
      0%Z ["True"; "False"]
      "False"
      "The ARP request is asking for the MAC address of 192.168.1.1, not 192.168.1.2. The sender's IP is 192.168.1.2."
      (Some "0026 c0a80101");
    mkQuestion 5%Z
      "What is the ARP operation code in the first packet?"
      0%Z ["0x0001 (Request)"; "0x0002 (Reply)"; "0x0003 (RARP Request)"; "0x0004 (RARP Reply)"]
      "0x0001 (Request)"
      "The operation code 0x0001 indicates this is an ARP request packet."
      (Some "0014 0001");
    mkQuestion 6%Z
      "In the ICMP Echo Request packet, what is the destination IP address?"
      1%Z ["192.168.1.1"; "192.168.1.2"; "8.8.8.8"; "93.184.216.34"]
      "8.8.8.8"
      "The destination IP address in the ICMP packet is 8.8.8.8, which is Google's public DNS server."
      (Some "001e 08080808");
    mkQuestion 7%Z
      "What protocol number is used for ICMP in the IP header?"
      1%Z ["1"; "6"; "17"; "47"]
      "1"
      "Protocol number 1 in the IP header indicates ICMP traffic."
      (Some "0017 01");
    mkQuestion 8%Z
      "What is the ICMP type value for an Echo Request?"
      1%Z ["0"; "3"; "5"; "8"]
      "8"
      "ICMP type 8 indicates an Echo Request (ping), while type 0 would be an Echo Reply."
      (Some "0022 08");
    mkQuestion 9%Z
      "True or False: The Time to Live (TTL) value in the ICMP packet is 64."
      1%Z ["True"; "False"]
      "False"
      "The TTL value in this packet is 4 (0x04), which is typically invalid."
      (Some "0016 04");
    mkQuestion 10%Z
      "What is the destination port in the TCP packet with no options?"
      2%Z ["80"; "443"; "53"; "45678"]
      "80"
      "The destination port is 0x0050 (80 in decimal), which is the standard port for HTTP."
      (Some "0024 0050");
    mkQuestion 11%Z
      "What TCP flag is set in the TCP packet with no options?"
      2%Z ["SYN"; "ACK"; "FIN"; "RST"]
      "SYN"
      "The TCP flags field (0x02) indicates that only the SYN flag is set, which is used to initiate a TCP connection."
      (Some "002f 02");
    mkQuestion 12%Z
      "What is the source IP address in the TCP packet with no options?"
      2%Z ["192.168.1.1"; "192.168.1.2"; "8.8.8.8"; "93.184.216.34"]
      "192.168.1.2"
      "The source IP address (c0:a8:01:02) translates to 192.168.1.2 in dotted decimal notation."
      (Some "001a c0a80102");
    mkQuestion 13%Z
      "What is the destination IP address in the TCP packet with no options?"
      2%Z ["192.168.1.1"; "192.168.1.2"; "8.8.8.8"; "93.184.216.34"]
      "93.184.216.34"
      "The destination IP address (5d:b8:d8:22) translates to 93.184.216.34, which is example.com's IP address."
      (Some "001e 5db8d822");
    mkQuestion 14%Z
      "What is the source port in the TCP packet with no options?"
      2%Z ["80"; "443"; "53"; "45678"]
      "45678"
      "The source port is 0xb25e (45678 in decimal), which is an ephemeral port used by the client."
      (Some "0022 b25e");
    mkQuestion 15%Z
      "True or False: The TCP packet with no options contains an HTTP GET request."
      2%Z ["True"; "False"]
      "True"
      "The payload of the packet contains 'GET / HTTP/1.1' followed by a Host header, which is an HTTP GET request."
      (Some "0036 47455420202f20485454502f312e31");
    mkQuestion 16%Z
      "What is the window size in the TCP packet with no options?"
      2%Z ["4096"; "5840"; "8192"; "32768"]
      "8192"
      "The window size field contains 0x2000, which is 8192 in decimal, indicating the receive buffer size."
      (Some "0030 2000");
    mkQuestion 17%Z
      "In the TCP packet with options, what is the data offset value?"
      3%Z ["5"; "8"; "10"; "12"]
      "8"
      "The data offset value is 8, indicating that the TCP header is 8 × 4 = 32 bytes long, including options."
      (Some "002e 80");
    mkQuestion 18%Z
      "What is the IP version used in the TCP packet with options?"
      3%Z ["IPv4"; "IPv6"; "IPv5"; "IPv4 with extensions"]
      "IPv4"
      "The IP version field in the header is 4 (0x4), indicating this is an IPv4 packet."
      (Some "000e 4");
    mkQuestion 19%Z
      "What is the Maximum Segment Size (MSS) value in the TCP packet with options?"
      3%Z ["1024"; "1460"; "1500"; "9000"]
      "1024"
      "The MSS option value is 0x0400, which is 1024 in decimal."
      (Some "0038 0400");
    mkQuestion 20%Z
      "True or False: The TCP packet with options has the ACK flag set."
      3%Z ["True"; "False"]
      "False"
      "The TCP flags field shows only the CWR (Congestion Window Reduced) flag is set (0x80), not the ACK flag."
      (Some "002f 80");
    mkQuestion 21%Z
      "What is the destination port in the UDP/DNS query packet?"
      4%Z ["53"; "80"; "443"; "67"]
      "53"
      "The destination port is 0x0035 (53 in decimal), which is the standard port for DNS."
      (Some "0024 0035");
    mkQuestion 22%Z
      "What is the protocol number for UDP in the IP header?"
      4%Z ["1"; "6"; "17"; "47"]
      "17"
      "Protocol number 17 in the IP header indicates UDP traffic."
      (Some "0017 11");
    mkQuestion 23%Z
      "What domain name is being queried in the DNS packet?"
      4%Z ["example.com"; "google.com"; "dns.com"; "local.net"]
      "example.com"
      "The DNS query contains the domain name 'example.com' encoded in the DNS message format."
      (Some "0036 07657861706c6503636f6d00");
    mkQuestion 24%Z
      "What type of DNS record is being requested in the DNS query?"
      4%Z ["A"; "AAAA"; "MX"; "TXT"]
      "TXT"
      "The query type is 0x0010, which corresponds to a TXT record request."
      (Some "0043 0010");
    mkQuestion 25%Z
      "What is the source port in the UDP/DNS query packet?"
      4%Z ["53"; "49573"; "80"; "443"]
      "49573"
      "The source port is 0xc1a5 (49573 in decimal), which is an ephemeral port used by the client."
      (Some "0022 c1a5");
    mkQuestion 26%Z
      "In the ARP request packet, what is the hardware type value?"
      0%Z ["0x0001 (Ethernet)"; "0x0006 (IEEE 802)"; "0x0007 (ARCNET)"; "0x000F (Frame Relay)"]
      "0x0001 (Ethernet)"
      "The hardware type value 0x0001 indicates Ethernet, which is the most common hardware type for ARP."
      (Some "000e 0001");
    mkQuestion 27%Z
      "What is the protocol type in the ARP request packet?"
      0%Z ["0x0800 (IPv4)"; "0x0806 (ARP)"; "0x86DD (IPv6)"; "0x8035 (RARP)"]
      "0x0800 (IPv4)"
      "The protocol type 0x0800 indicates IPv4, meaning this ARP request is for an IPv4 address."
      (Some "0010 0800");
    mkQuestion 28%Z
      "True or False: In the ARP request packet, the target MAC address is all zeros."
      0%Z ["True"; "False"]
      "True"
      "In an ARP request, the target MAC is unknown and is set to all zeros (000000000000)."
      (Some "0020 000000000000");
    mkQuestion 29%Z
      "What is the hardware size value in the ARP request packet?"
      0%Z ["4"; "6"; "8"; "10"]
      "6"
      "The hardware size is 6 bytes, which is the standard length of a MAC address."
      (Some "0012 06");
    mkQuestion 30%Z
      "What is the protocol size value in the ARP request packet?"
      0%Z ["2"; "4"; "6"; "8"]
      "4"
      "The protocol size is 4 bytes, which is the standard length of an IPv4 address."
      (Some "0013 04");
    mkQuestion 31%Z
      "In the ICMP Echo Request packet, what is the identification field value in the IP header?"
      1%Z ["0x0102"; "0x0000"; "0x4001"; "0xf77c"]
      "0x0102"
      "The identification field in the IP header is 0x0102, used to identify fragments of the original datagram."
      (Some "0012 0102");
    mkQuestion 32%Z
      "What is the ICMP code value in the Echo Request packet?"
      1%Z ["0"; "1"; "3"; "8"]
      "0"
      "The ICMP code for Echo Request is 0, which provides additional context for the ICMP type."
      (Some "0023 00");
    mkQuestion 33%Z
      "What is the total length of the IP packet in the ICMP Echo Request?"
      1%Z ["60"; "64"; "84"; "100"]
      "60"
      "The total length field in the IP header is 0x003c, which is 60 bytes in decimal."
      (Some "0010 003c");
    mkQuestion 34%Z
      "True or False: The ICMP Echo Request packet has the Don't Fragment (DF) bit set."
      1%Z ["True"; "False"]
      "True"
      "The flags field in the IP header has the DF bit set (0x4000), indicating the packet should not be fragmented."
      (Some "0014 4000");
    mkQuestion 35%Z
      "What is the ICMP sequence number in the Echo Request packet?"
      1%Z ["4096"; "2048"; "1024"; "8192"]
      "4096"
      "The ICMP sequence number is 0x1000, which is used to match Echo Requests with their corresponding Echo Replies."
      (Some "0028 1000");
    mkQuestion 36%Z
      "In the TCP packet with no options, what is the IP header length?"
      2%Z ["20 bytes"; "24 bytes"; "28 bytes"; "32 bytes"]
      "20 bytes"
      "The IP header length is 5 words (5 × 4 = 20 bytes), which is the standard length without IP options."
      (Some "000e 45");
    mkQuestion 37%Z
      "What is the acknowledgment number in the TCP packet with no options?"
      2%Z ["0"; "1"; "1000"; "65535"]
      "0"
      "The acknowledgment number is 0x00000000, which is expected for the first packet in a TCP handshake."
      (Some "002a 00000000");
    mkQuestion 38%Z
      "True or False: The TCP packet with no options has the PSH flag set."
      2%Z ["True"; "False"]
      "False"
      "The TCP flags field shows only the SYN flag is set (0x02), not the PSH flag."
      (Some "002f 02");
    mkQuestion 39%Z
      "What is the urgent pointer value in the TCP packet with no options?"
      2%Z ["0"; "1"; "16"; "32"]
      "0"
      "The urgent pointer is 0x0000, which is not used since the URG flag is not set."
      (Some "0034 0000");
    mkQuestion 40%Z
      "What is the total length of the IP packet in the TCP packet with no options?"
      2%Z ["40"; "48"; "60"; "72"]
      "72"
      "The total length field in the IP header is 0x0048, which is 72 bytes in decimal."
      (Some "0010 0048");
    mkQuestion 41%Z
      "In the TCP packet with options, what is the window scale value?"
      3%Z ["1"; "3"; "7"; "8"]
      "8"
      "The window scale has a value of 8, which means the actual window size is shifted left by 3 bits (multiplied by 8).
01 NOP, 03 Window kind, 03 Length, 08 Value"
      (Some "003b 01030308");
    mkQuestion 42%Z
      "What is the timestamp value in the TCP packet with options?"
      3%Z ["0x012c3d4e"; "0x00000000"; "0x01030308"; "0x02040405"]
      "0x012c3d4e"
      "The timestamp value is 0x012c3d4e, which is used for round-trip time measurement and protection against wrapped sequence numbers."
      (Some "0045 012c3d4e");
    mkQuestion 43%Z
      "True or False: The TCP packet with options has a larger header than the TCP packet without options."
      3%Z ["True"; "False"]
      "True"
      "The TCP packet with options has a data offset of 8 (32 bytes), while the packet without options has a data offset of 5 (20 bytes)."
      (Some "002f 80");
    mkQuestion 44%Z
      "What is the total length of the IP packet in the TCP packet with options?"
      3%Z ["60"; "72"; "84"; "92"]
      "92"
      "The total length field in the IP header is 0x005c, which is 92 bytes in decimal."
      (Some "0010 005c");
    mkQuestion 45%Z
      "What is the echo timestamp reply value in the TCP packet with options?"
      3%Z ["0x4e000000"; "0x012c3d4e"; "0x01030308"; "0x02040405"]
      "0x4e000000"
      "The echo timestamp reply value is 0x4e000000, indicating this is the first packet in the connection with no previous timestamp to echo."
      (Some "0048 4e000000");
    mkQuestion 46%Z
      "In the UDP/DNS query packet, what is the UDP length?"
      4%Z ["8"; "16"; "28"; "40"]
      "40"
      "The UDP length field is 0x0028, which is 40 bytes in decimal, including the 8-byte UDP header and 32-byte DNS payload."
      (Some "0026 0028");
    mkQuestion 47%Z
      "What is the DNS transaction ID in the UDP/DNS query packet?"
      4%Z ["0x0123"; "0xa123"; "0xbb23"; "0xb123"]
      "0x0123"
      "The DNS transaction ID is 0x0123, which is used to match queries with their corresponding responses."
      (Some "002a 0123");
    mkQuestion 48%Z
      "True or False: The DNS query in the UDP packet is requesting an authoritative answer."
      4%Z ["True"; "False"]
      "False"
      "The DNS flags field does not have the AA (Authoritative Answer) bit set, as this is a query, not a response."
      (Some "002c 0100");
    mkQuestion 49%Z
      "How many questions are included in the DNS query packet?"
      4%Z ["0"; "1"; "2"; "4"]
      "1"
      "The questions count field in the DNS header is 0x0001, indicating there is one question in the query."
      (Some "002e 0001");
    mkQuestion 50%Z
      "What is the DNS query class in the UDP/DNS query packet?"
      4%Z ["IN (Internet)"; "CH (Chaos)"; "HS (Hesiod)"; "ANY"]
      "IN (Internet)"
      "The query class is 0x0001, which corresponds to IN (Internet), the most common DNS class used for Internet resources."
      (Some "0045 0001") ].

(** The packets of the run are read from [packet_samples.json], which is
    not part of the scripts; a quiz is built from any such list. *)
Definition new (num_questions : Z) (start_question_id : option Z)
           (packet_data : list Packet) : t :=
  mkQuiz num_questions start_question_id 0 packet_data packet_bank.

End PacketQuiz.

(* ------------------------------------------------------------------ *)
(** ** [tcp_flags_quiz.py] *)

Module TCPFlagsQuiz.

Record Question : Type := mkQuestion {
  q_id : Z;
  q_text : string;
  q_options : list string;
  q_answer : string;
  q_explanation : string
}.

Record t : Type := mkQuiz {
  num_questions : Z;
  score : Z;
  questions : list Question
}.

Inductive event : Type :=
| EvIntro (n : Z)
| EvQuestion (number : nat) (n : Z) (id : Z) (text : string)
| EvOptions (options : list string)
| EvCorrect
| EvIncorrect (correct_answer : string)
| EvExplanation (explanation : string)
| EvScore (score n : Z) (percent : Q).

Definition flag_patterns : list (string * list string) :=
  [ ("fin", ["fin"; "0x01"; "tcp-fin"]);
    ("syn", ["syn"; "0x02"; "tcp-syn"]);
    ("rst", ["rst"; "0x04"; "tcp-rst"]);
    ("psh", ["psh"; "0x08"; "tcp-psh"]);
    ("ack", ["ack"; "0x10"; "tcp-ack"]);
    ("urg", ["urg"; "0x20"; "tcp-urg"]);
    ("fin+ack", ["fin+ack"; "ack+fin"; "0x11"; "tcp-fin|tcp-ack"]);
    ("syn+ack", ["syn+ack"; "ack+syn"; "0x12"; "tcp-syn|tcp-ack"]);
    ("rst+ack", ["rst+ack"; "ack+rst"; "0x14"; "tcp-rst|tcp-ack"]);
    ("psh+ack", ["psh+ack"; "ack+psh"; "0x18"; "tcp-psh|tcp-ack"]) ].

(** The loop over [flag_patterns.items()], which returns at the first entry
    that holds both texts. *)
Fixpoint flag_loop (items : list (string * list string))
         (user_answer correct_answer : string) : bool :=
  match items with
  | [] => false
  | (_, patterns) :: rest =>
      if Py.str_in correct_answer patterns && Py.str_in user_answer patterns
      then true
      else flag_loop rest user_answer correct_answer
  end.

Definition check_answer (user_answer correct_answer : string) : result bool :=
  let user_answer := Py.strip (Py.lower user_answer) in
  let correct_answer := Py.strip (Py.lower correct_answer) in
  if (user_answer =? correct_answer)%string then Ok true
  else if Py.str_in correct_answer ["true"; "false"]
          && Py.str_in user_answer ["true"; "false"; "t"; "f"]
  then
    let user_answer :=
      if (user_answer =? "t")%string then "true"
      else if (user_answer =? "f")%string then "false"
      else user_answer in
    Ok (user_answer =? correct_answer)%string
  else if Py.startswith correct_answer "0x" && Py.startswith user_answer "0x"
  then
    try_except_ValueError
      (c <- Py.int16 correct_answer ;;
       u <- Py.int16 user_answer ;;
       Ok (c =? u)%Z)
      (Ok false)
  else Ok (flag_loop flag_patterns user_answer correct_answer).

Definition add_score (self : t) (is_correct : bool) : t :=
  if is_correct
  then mkQuiz (num_questions self) (score self + 1) (questions self)
  else self.

Definition set_questions (self : t) (qs : list Question) : t :=
  mkQuiz (num_questions self) (score self) qs.

Definition ask (self : t) (i : nat) (question : Question) (typed : string)
  : result (t * list event) :=
  let user_answer := Py.strip typed in
  let correct_answer := q_answer question in
  let user_option := letter_to_option user_answer (q_options question) in
  is_correct <- check_answer user_option correct_answer ;;
  let self' := add_score self is_correct in
  Ok (self',
      [ EvQuestion (i + 1) (num_questions self) (q_id question) (q_text question);
        EvOptions (q_options question);
        (if is_correct then EvCorrect else EvIncorrect correct_answer);
        EvExplanation (q_explanation question) ]).

Fixpoint ask_all (self : t) (i : nat) (quiz_questions : list Question)
         (answers : nat -> string) : result (t * list event) :=
  match quiz_questions with
  | [] => Ok (self, [])
  | question :: rest =>
      r <- ask self i question (answers i) ;;
      r' <- ask_all (fst r) (S i) rest answers ;;
      Ok (fst r', (snd r ++ snd r')%list)
  end.

Section Run.

Variable shuffle : list Question -> list Question.

Definition select_questions (self : t) : t * list Question :=
  let self' := set_questions self (shuffle (questions self)) in
  (self', Py.list_upto (questions self') (num_questions self')).

Definition run_quiz (self : t) (answers : nat -> string) : result (t * list event) :=
  let intro := EvIntro (num_questions self) in
  let '(self, quiz_questions) := select_questions self in
  r <- ask_all self 0 quiz_questions answers ;;
  let self := fst r in
  p <- percentage (score self) (num_questions self) ;;
  Ok (self,
      ([intro] ++ snd r
       ++ [EvScore (score self) (num_questions self) p])%list).

End Run.

Definition flags_bank : list Question :=
  [ mkQuestion 1%Z
      "Which flag does this match? tcpdump 'tcp[13] = 0x01'"
      ["SYN"; "FIN"; "RST"; "ACK"]
      "FIN"
      "FIN flag (0x01) is used to close connections";
    mkQuestion 2%Z
      "True or False: tcpdump 'tcp[13] = 0x20' matches SYN packets."
      ["True"; "False"]
      "False"
      "0x20 is the URG flag, not SYN (0x02)";
    mkQuestion 3%Z
      "tcp[13] = 0x02 matches what connection phase?"
      ["Connection termination"; "TCP SYN (start)"; "Data transfer"; "Connection reset"]
      "TCP SYN (start)"
      "SYN flag (0x02) initiates TCP connections";
    mkQuestion 4%Z
      "Fill in the missing mask: tcpdump 'tcp[tcpflags] & _____ = tcp-syn'"
      ["0x01"; "0x02"; "0x04"; "0x10"]
      "0x02"
      "0x02 is the mask for the SYN flag";
    mkQuestion 5%Z
      "tcpdump 'tcp[13] & 0x14 = 0x14' matches what flags?"
      ["SYN + ACK"; "FIN + ACK"; "RST + ACK"; "PSH + ACK"]
      "RST + ACK"
      "0x14 combines RST (0x04) and ACK (0x10) flags";
    mkQuestion 6%Z
      "tcp[13] = 0x04 matches which TCP flag?"
      ["PSH"; "ACK"; "RST"; "SYN"]
      "RST"
      "RST flag (0x04) abruptly terminates connections";
    mkQuestion 7%Z
      "tcpdump 'tcp[13] & 0x01 != 0' filters what?"
      ["SYN packets"; "RST packets"; "FIN packets"; "No-flag packets"]
      "FIN packets"
      "FIN flag (0x01) is used to close connections";
    mkQuestion 8%Z
      "tcpdump 'tcp[13] & 0x12 = 0x02' filters what?"
      ["SYN-only packets"; "ACK-only packets"; "SYN+ACK packets"; "RST packets"]
      "SYN-only packets"
      "This checks for SYN (0x02) without ACK (0x10)";
    mkQuestion 9%Z
      "tcp[13] = 0x10 matches what?"
      ["SYN packets"; "ACK-only (data transfer)"; "FIN packets"; "RST packets"]
      "ACK-only (data transfer)"
      "ACK flag (0x10) acknowledges received data";
    mkQuestion 10%Z
      "Which hex value matches SYN+ACK?"
      ["0x02"; "0x12"; "0x10"; "0x04"]
      "0x12"
      "0x12 combines SYN (0x02) and ACK (0x10) flags";
    mkQuestion 11%Z
      "True or False: tcp[tcpflags] & tcp-syn != 0 matches any packet with SYN."
      ["True"; "False"]
      "True"
      "This filter checks if the SYN bit is set, regardless of other flags";
    mkQuestion 12%Z
      "tcpdump 'tcp[13] & 0x08 != 0' matches what?"
      ["Any SYN packet"; "Any RST packet"; "Any PSH packet"; "Any ACK packet"]
      "Any PSH packet"
      "PSH flag (0x08) tells the receiver to push data to the application";
    mkQuestion 13%Z
      "True or False: tcpdump 'tcp[13] = 0x19' matches PSH+FIN+ACK."
      ["True"; "False"]
      "True"
      "0x19 combines PSH (0x08), FIN (0x01), and ACK (0x10) flags";
    mkQuestion 14%Z
      "Which flag combination is represented by tcp[13] = 0x11?"
      ["SYN+ACK"; "FIN+ACK"; "RST+ACK"; "PSH+ACK"]
      "FIN+ACK"
      "0x11 combines FIN (0x01) and ACK (0x10) flags";
    mkQuestion 15%Z
      "What value completes this? tcpdump 'tcp[13] = _____' (only ACK)"
      ["0x01"; "0x02"; "0x04"; "0x10"]
      "0x10"
      "ACK flag (0x10) acknowledges received data";
    mkQuestion 16%Z
      "tcpdump 'tcp[13] = 0x18' filters which of the following?"
      ["SYN only"; "PSH+ACK"; "FIN+SYN"; "RST only"]
      "PSH+ACK"
      "0x18 combines PSH (0x08) and ACK (0x10) flags";
    mkQuestion 17%Z
      "True or False: tcp[13] = 0x00 matches packets with no flags set."
      ["True"; "False"]
      "True"
      "0x00 means no flags are set in the TCP header";
    mkQuestion 18%Z
      "Which filter matches packets with either SYN or FIN flags?"
      ["tcp[13] & 0x03 != 0"; "tcp[13] & 0x12 != 0"; "tcp[13] & 0x06 != 0"; "tcp[13] & 0x11 != 0"]
      "tcp[13] & 0x03 != 0"
      "0x03 combines SYN (0x02) and FIN (0x01) masks";
    mkQuestion 19%Z
      "Which filter excludes all ACK packets?"
      ["tcp[13] & 0x10 = 0"; "tcp[13] & 0x10 != 0"; "tcp[13] = 0x10"; "tcp[13] != 0x10"]
      "tcp[13] & 0x10 = 0"
      "This checks that the ACK bit (0x10) is not set";
    mkQuestion 20%Z
      "Which flag does tcpdump 'tcp[tcpflags] & tcp-urg != 0' match?"
      ["Only URG"; "URG and any other flag"; "Only RST"; "RST and any other flag"]
      "URG and any other flag"
      "tcp-urg matches the URG flag (0x20)";
    mkQuestion 21%Z
      "What does tcpdump 'tcp[13] = 0x12' filter?"
      ["FIN+ACK"; "SYN+ACK"; "RST+ACK"; "PSH+ACK"]
      "SYN+ACK"
      "0x12 combines SYN (0x02) and ACK (0x10) flags";
    mkQuestion 22%Z
      "True or False: tcpdump 'tcp[13] & 0x03 = 0x03' matches packets with both SYN and FIN set."
      ["True"; "False"]
      "True"
      "This checks that both SYN (0x02) and FIN (0x01) bits are set";
    mkQuestion 23%Z
      "Which flag has the hex value 0x20?"
      ["SYN"; "ACK"; "URG"; "PSH"]
      "URG"
      "URG flag has the hex value 0x20";
    mkQuestion 24%Z
      "What does tcpdump 'tcp[13] & 0x3F = 0' filter?"
      ["All TCP packets"; "Packets with no common flags"; "Only ECE and CWR flags"; "Invalid packets"]
      "Packets with no common flags"
      "0x3F masks the six common flags (FIN, SYN, RST, PSH, ACK, URG)";
    mkQuestion 25%Z
      "Which filter matches the third step of a TCP handshake?"
      ["tcp[13] = 0x02"; "tcp[13] = 0x12"; "tcp[13] = 0x10"; "tcp[13] = 0x04"]
      "tcp[13] = 0x10"
      "The third step is an ACK-only packet (0x10)";
    mkQuestion 26%Z
      "What does tcpdump 'tcp[13] & 0x04 = 0x04' match?"
      ["SYN-only packets"; "RST-only packets"; "ACK-only packets"; "FIN-only packets"]
      "RST-only packets"
      "This checks for RST (0x04) without other flags";
    mkQuestion 27%Z
      "Which filter matches packets with the PSH flag but not the ACK flag?"
      ["tcp[13] = 0x08"; "tcp[13] = 0x18"; "tcp[13] & 0x18 = 0x08"; "tcp[13] & 0x08 = 0x08"]
      "tcp[13] = 0x08"
      "0x08 is the PSH flag without any other flags";
    mkQuestion 28%Z
      "What does tcpdump 'tcp[13] & 0x02 != 0 and tcp[13] & 0x10 = 0' filter?"
      ["SYN+ACK packets"; "SYN-only packets"; "ACK-only packets"; "RST packets"]
      "SYN-only packets"
      "This checks for SYN (0x02) without ACK (0x10)";
    mkQuestion 29%Z
      "Which flag combination is represented by tcp[13] = 0x19?"
      ["SYN+ACK+FIN"; "PSH+ACK+FIN"; "RST+ACK+FIN"; "URG+ACK+FIN"]
      "PSH+ACK+FIN"
      "0x19 combines PSH (0x08), ACK (0x10), and FIN (0x01) flags";
    mkQuestion 30%Z
      "True or False: tcpdump 'tcp[tcpflags] = tcp-syn|tcp-ack' is equivalent to 'tcp[13] = 0x12'."
      ["True"; "False"]
      "True"
      "Both filter for SYN+ACK packets (0x12)";
    mkQuestion 31%Z
      "What does tcpdump 'tcp[13] & 0x10 = 0x10' match?"
      ["Only ACK packets"; "Any packet with ACK set"; "Only SYN packets"; "Any packet with SYN set"]
      "Any packet with ACK set"
      "This checks if the ACK bit is set, regardless of other flags";
    mkQuestion 32%Z
      "Which filter matches packets with either RST or FIN flags?"
      ["tcp[13] & 0x05 != 0"; "tcp[13] & 0x06 != 0"; "tcp[13] & 0x03 != 0"; "tcp[13] & 0x14 != 0"]
      "tcp[13] & 0x05 != 0"
      "0x05 combines RST (0x04) and FIN (0x01) masks";
    mkQuestion 33%Z
      "What does tcpdump 'tcp[13] = 0x00' filter?"
      ["All TCP packets"; "No TCP packets"; "Packets with no flags set"; "Invalid packets"]
      "Packets with no flags set"
      "0x00 means no flags are set in the TCP header";
    mkQuestion 34%Z
      "Which flag combination is represented by tcp[13] = 0x1A?"
      ["SYN+ACK+RST"; "PSH+ACK+RST"; "FIN+ACK+RST"; "URG+ACK+RST"]
      "PSH+ACK+RST"
      "0x1A combines PSH (0x08), ACK (0x10), and RST (0x02) flags";
    mkQuestion 35%Z
      "What does tcpdump 'tcp[13] & 0x30 = 0x30' match?"
      ["ACK+SYN"; "ACK+RST"; "ACK+URG"; "ACK+PSH"]
      "ACK+URG"
      "0x30 combines ACK (0x10) and URG (0x20) flags";
    mkQuestion 36%Z
      "Which filter matches the second step of a TCP handshake?"
      ["tcp[13] = 0x02"; "tcp[13] = 0x12"; "tcp[13] = 0x10"; "tcp[13] = 0x04"]
      "tcp[13] = 0x12"
      "The second step is a SYN+ACK packet (0x12)";
    mkQuestion 37%Z
      "True or False: tcpdump 'tcp[13] & 0x02 = 0x02' matches only SYN packets without other flags."
      ["True"; "False"]
      "False"
      "This matches any packet with SYN set, regardless of other flags";
    mkQuestion 38%Z
      "What does tcpdump 'tcp[13] & 0x29 = 0x29' match?"
      ["FIN+PSH+URG"; "FIN+ACK+URG"; "SYN+ACK+URG"; "RST+ACK+URG"]
      "FIN+ACK+URG"
      "0x29 combines FIN (0x01), ACK (0x10), and URG (0x20) flags";
    mkQuestion 39%Z
      "Which filter matches packets with the ACK flag but not the SYN flag?"
      ["tcp[13] & 0x12 = 0x10"; "tcp[13] & 0x12 = 0x02"; "tcp[13] = 0x10"; "tcp[13] = 0x12"]
      "tcp[13] & 0x12 = 0x10"
      "This checks for ACK (0x10) without SYN (0x02)";
    mkQuestion 40%Z
      "What does tcpdump 'tcp[13] & 0x17 = 0' filter?"
      ["All TCP packets"; "Packets with no FIN, SYN, RST, or ACK"; "Only PSH packets"; "Invalid packets"]
      "Packets with no FIN, SYN, RST, or ACK"
      "0x17 masks FIN (0x01), SYN (0x02), RST (0x04), and ACK (0x10) flags";
    mkQuestion 41%Z
      "Which flag has the hex value 0x08?"
      ["SYN"; "ACK"; "RST"; "PSH"]
      "PSH"
      "PSH flag has the hex value 0x08";
    mkQuestion 42%Z
      "What does tcpdump 'tcp[13] & 0x3F != 0' filter?"
      ["All TCP packets"; "Packets with at least one flag set"; "Only ECE and CWR flags"; "Invalid packets"]
      "Packets with at least one flag set"
      "0x3F masks the six common flags (FIN, SYN, RST, PSH, ACK, URG)";
    mkQuestion 43%Z
      "True or False: tcpdump 'tcp[13] = 0x18' matches packets with both PSH and ACK flags set."
      ["True"; "False"]
      "True"
      "0x18 combines PSH (0x08) and ACK (0x10) flags";
    mkQuestion 44%Z
      "Which filter matches only TCP packets where the FIN flag is set and no other flags are set?"
      ["tcp[13] = 0x01"; "tcp[13] = 0x11"; "tcp[13] & 0x11 = 0x01"; "tcp[13] & 0x01 = 0x01"]
      "tcp[13] = 0x01"
      "0x01 is the FIN flag without any other flags";
    mkQuestion 45%Z
      "What does tcpdump 'tcp[13] & 0x07 = 0x07' match?"
      ["FIN+SYN+RST"; "FIN+SYN+PSH"; "FIN+RST+PSH"; "SYN+RST+PSH"]
      "FIN+SYN+RST"
      "0x07 combines FIN (0x01), SYN (0x02), and RST (0x04) flags";
    mkQuestion 46%Z
      "Which filter matches packets with either PSH or URG flags?"
      ["tcp[13] & 0x28 != 0"; "tcp[13] & 0x18 != 0"; "tcp[13] & 0x30 != 0"; "tcp[13] & 0x0C != 0"]
      "tcp[13] & 0x28 != 0"
      "0x28 combines PSH (0x08) and URG (0x20) masks";
    mkQuestion 47%Z
      "What does tcpdump 'tcp[13] = 0x04' filter?"
      ["SYN-only packets"; "RST-only packets"; "ACK-only packets"; "FIN-only packets"]
      "RST-only packets"
      "0x04 is the RST flag without any other flags";
    mkQuestion 48%Z
      "True or False: tcpdump 'tcp[tcpflags] & tcp-fin != 0 and tcp[tcpflags] & tcp-ack != 0' matches FIN+ACK packets."
      ["True"; "False"]
      "True"
      "This checks for both FIN and ACK flags being set";
    mkQuestion 49%Z
      "Which flag combination is represented by tcp[13] = 0x14?"
      ["SYN+ACK"; "FIN+ACK"; "RST+ACK"; "PSH+ACK"]
      "RST+ACK"
      "0x14 combines RST (0x04) and ACK (0x10) flags";
    mkQuestion 50%Z
      "What does tcpdump 'tcp[13] & 0x02 = 0x02 and tcp[13] & 0x10 = 0x10' filter?"
      ["SYN-only packets"; "ACK-only packets"; "SYN+ACK packets"; "RST packets"]
      "SYN+ACK packets"
      "This checks for both SYN (0x02) and ACK (0x10) flags being set" ].

Definition new (num_questions : Z) : t := mkQuiz num_questions 0 flags_bank.

End TCPFlagsQuiz.

(* ------------------------------------------------------------------ *)
(** ** Notions the statements use *)

(** Both arguments of [check_answer] go through [lower] and [strip] first. *)
Definition normalize (s : string) : string := Py.strip (Py.lower s).

(** The hex class of [check_answer] on two normalized texts: both parse and
    the values are equal. *)
Definition hex_equal (correct_answer user_answer : string) : Prop :=
  exists v : Z, Py.int16 correct_answer = Ok v /\ Py.int16 user_answer = Ok v.

(** The shortcut expansion of the boolean class. *)
Definition expand_bool (user_answer : string) : string :=
  if (user_answer =? "t")%string then "true"
  else if (user_answer =? "f")%string then "false"
  else user_answer.

(** The [try] block of the hex class. *)
Definition hex_class (correct_answer user_answer : string) : result bool :=
  try_except_ValueError
    (c <- Py.int16 correct_answer ;;
     u <- Py.int16 user_answer ;;
     Ok (c =? u)%Z)
    (Ok false).

(** The letter of position [k], typed in upper or in lower case. *)
Definition upper_letter (k : nat) : string := String (ascii_of_nat (65 + k)) EmptyString.
Definition lower_letter (k : nat) : string := String (ascii_of_nat (97 + k)) EmptyString.

(** The two characters of the byte at position [k] of a hex text. *)
Definition byte_at (hex_string : string) (k : nat) : string :=
  Py.slice hex_string (2 * k) (2 * k + 2).

(** The number of bytes of a hex text; a last single character counts. *)
Definition byte_count (hex_string : string) : nat :=
  (String.length hex_string + 1) / 2.

(** The half-open range of the two highlight parameters. *)
Definition highlighted (offset num_bytes : option Z) (k : nat) : bool :=
  match offset, num_bytes with
  | Some o, Some n => ((o <=? Z.of_nat k) && (Z.of_nat k <? o + n))%Z
  | _, _ => false
  end.

(** A group as [format_hex_dump] marks it, the test for the marker and its
    removal. *)
Definition mark (byte : string) : string :=
  PacketQuiz.HIGHLIGHT_COLOR ++ byte ++ PacketQuiz.RESET_COLOR.

Definition is_marked (group : string) : bool :=
  Py.startswith group PacketQuiz.HIGHLIGHT_COLOR.

Definition unmark (group : string) : string :=
  if is_marked group
  then Py.take (String.length group
                - String.length PacketQuiz.HIGHLIGHT_COLOR
                - String.length PacketQuiz.RESET_COLOR)
               (Py.drop (String.length PacketQuiz.HIGHLIGHT_COLOR) group)
  else group.

(** The group of byte [k] as the dump renders it. *)
Definition render (hex_string : string) (offset num_bytes : option Z) (k : nat) : string :=
  if highlighted offset num_bytes k
  then mark (byte_at hex_string k)
  else byte_at hex_string k.

(** Every group of the dump, line after line. *)
Definition rendered_groups (hex_string : string) (offset num_bytes : option Z)
  : list string :=
  concat (map (PacketQuiz.formatted_bytes hex_string offset num_bytes)
              (Py.range_step (String.length hex_string) 32)).

Fixpoint concat_text (l : list string) : string :=
  match l with
  | [] => EmptyString
  | x :: r => x ++ concat_text r
  end.

(** The characters of a lowercase base-16 numeral, and the texts made of
    such characters only. *)
Definition is_lower_hex (c : ascii) : bool :=
  let n := nat_of_ascii c in
  ((48 <=? n) && (n <=? 57)) || ((97 <=? n) && (n <=? 102)).

Fixpoint all_chars (p : ascii -> bool) (s : string) : bool :=
  match s with
  | EmptyString => true
  | String c r => p c && all_chars p r
  end.

(** The characters of a hex text, in either case. *)
Definition is_hex_char (c : ascii) : bool :=
  match Py.hex_val c with
  | Some _ => true
  | None => false
  end.

(** Reading a dump back: on every line the label, up to the first blank,
    is skipped; after it blanks and the escape sequences of the markers
    are skipped and every other character is kept. *)
Inductive reader : Type :=
| AtLabel
| AtBytes
| AtEscape.

Fixpoint read_dump (st : reader) (text : string) : string :=
  match text with
  | EmptyString => EmptyString
  | String c r =>
      match st with
      | AtLabel =>
          if (c =? " ")%char then read_dump AtBytes r else read_dump AtLabel r
      | AtBytes =>
          if (c =? ascii_of_nat 10)%char then read_dump AtLabel r
          else if (c =? " ")%char then read_dump AtBytes r
          else if (c =? ascii_of_nat 27)%char then read_dump AtEscape r
          else String c (read_dump AtBytes r)
      | AtEscape =>
          if (c =? "m")%char then read_dump AtBytes r else read_dump AtEscape r
      end
  end.

Definition dump_bytes (text : string) : string := read_dump AtLabel text.

(** Texts of ASCII characters, on which the built-ins of [Py] are those of
    Python, and questions whose texts are such. *)
Definition is_ascii (s : string) : bool :=
  all_chars (fun c => nat_of_ascii c <? 128) s.

Definition ascii_flags_question (q : TCPFlagsQuiz.Question) : bool :=
  is_ascii (TCPFlagsQuiz.q_answer q) && forallb is_ascii (TCPFlagsQuiz.q_options q).

Definition ascii_packet_question (q : PacketQuiz.Question) : bool :=
  is_ascii (PacketQuiz.q_answer q)
  && forallb is_ascii (PacketQuiz.q_options q)
  && is_ascii (match PacketQuiz.q_hex_location q with
               | Some h => h
               | None => EmptyString
               end).

(* ------------------------------------------------------------------ *)
(** ** Notions of the further properties *)

(** The flag table of [TCPFlagsQuiz.check_answer] lists both texts in one
    entry. *)
Definition shares_flag_entry (u c : string) : Prop :=
  exists (key : string) (patterns : list string),
    In (key, patterns) TCPFlagsQuiz.flag_patterns /\
    In u patterns /\ In c patterns.

(** A dump without the escape sequences of its markers: from an escape
    character up to the next [m] nothing is kept. *)
Fixpoint strip_markers (in_escape : bool) (text : string) : string :=
  match text with
  | EmptyString => EmptyString
  | String c r =>
      if in_escape
      then strip_markers (negb (c =? "m")%char) r
      else if (c =? ascii_of_nat 27)%char
           then strip_markers true r
           else String c (strip_markers false r)
  end.

(** The verdict of one turn of the loop of [run_quiz] on the typed line. *)
Definition flags_verdict (q : TCPFlagsQuiz.Question) (typed : string) : bool :=
  match TCPFlagsQuiz.check_answer
          (letter_to_option (Py.strip typed) (TCPFlagsQuiz.q_options q))
          (TCPFlagsQuiz.q_answer q) with
  | Ok b => b
  | Raise _ => false
  end.

Definition packet_verdict (q : PacketQuiz.Question) (typed : string) : bool :=
  match PacketQuiz.check_answer
          (letter_to_option (Py.strip typed) (PacketQuiz.q_options q))
          (PacketQuiz.q_answer q) with
  | Ok b => b
  | Raise _ => false
  end.

(** The number of questions of a list, asked from turn [i] on, whose typed
    line gets the verdict true. *)
Fixpoint count_correct {Q : Type} (verdict : Q -> string -> bool)
         (i : nat) (qs : list Q) (answers : nat -> string) : nat :=
  match qs with
  | [] => 0
  | q :: rest =>
      (if verdict q (answers i) then 1 else 0)
      + count_correct verdict (S i) rest answers
  end.

(** The packet of a question is among the loaded packets. *)
Definition packet_loaded (packet_data : list PacketQuiz.Packet)
           (q : PacketQuiz.Question) : bool :=
  match Py.list_get packet_data (PacketQuiz.q_packet_index q) with
  | Ok _ => true
  | Raise _ => false
  end.

(** The number of groups of a dump that carry the marker. *)
Definition marked_count (groups : list string) : nat :=
  length (filter is_marked groups).

(** A field of a text split at white space: not empty, no white space. *)
Definition is_field (s : string) : bool :=
  negb (s =? "")%string && all_chars (fun c => negb (Py.is_space c)) s.

(** The number a text of base-16 digits denotes, after the digits read so
    far. *)
Fixpoint hex_value_from (acc : Z) (digits : string) : Z :=
  match digits with
  | EmptyString => acc
  | String c r =>
      match Py.hex_val c with
      | Some d => hex_value_from (16 * acc + d) r
      | None => acc
      end
  end.

Definition hex_value (digits : string) : Z := hex_value_from 0 digits.

(** A question that exactly one letter answers: it has at most four
    options, the canonical answer is one of them, and typing the letter of
    an option is accepted for that option only. *)
Definition one_letter_answers {Q : Type} (options : Q -> list string)
           (answer : Q -> string) (verdict : Q -> string -> bool) (q : Q) : bool :=
  (length (options q) <=? 4)
  && existsb
       (fun k =>
          (nth k (options q) "" =? answer q)%string
          && forallb (fun j => Bool.eqb (verdict q (upper_letter j)) (j =? k))
                     (seq 0 (length (options q))))
       (seq 0 (length (options q))).

(* ------------------------------------------------------------------ *)
(** ** The answer matcher *)

Section Int16.

Lemma int16_digits_raises (s : string) :
  forall p n a e, Py.int16_digits s p n a = Raise e -> e = ValueError.
Proof.
  induction s as [| ch s IH]; intros p n a e; simpl.
  - destruct p; [congruence |]. destruct n; congruence.
  - destruct (ch =? "_")%char.
    + destruct p; [congruence | apply IH].
    + destruct (Py.hex_val ch); [apply IH | congruence].
Qed.

Lemma int16_checked_raises (body : string) (e : exn) :
  match body with
  | String "_" _ => Raise ValueError
  | _ => Py.int16_digits body false 0 0%Z
  end = Raise e -> e = ValueError.
Proof.
  destruct body as [| ch r]; [apply int16_digits_raises |].
  destruct ch as [[] [] [] [] [] [] [] []];
    solve [ apply int16_digits_raises | congruence ].
Qed.

Lemma int16_unsigned_raises (s : string) (e : exn) :
  Py.int16_unsigned s = Raise e -> e = ValueError.
Proof. unfold Py.int16_unsigned. apply int16_checked_raises. Qed.

Lemma int16_raises (s : string) (e : exn) :
  Py.int16 s = Raise e -> e = ValueError.
Proof.
  unfold Py.int16.
  destruct (Py.int_strip s) as [| ch r]; [apply int16_unsigned_raises |].
  destruct ch as [[] [] [] [] [] [] [] []];
    try apply int16_unsigned_raises.
  unfold bind. destruct (Py.int16_unsigned r) as [v | e'] eqn:E; [discriminate |].
  intros H. injection H as <-. exact (int16_unsigned_raises _ _ E).
Qed.

End Int16.

Lemma hex_class_returns (c u : string) :
  exists b : bool, hex_class c u = Ok b /\ (b = true <-> hex_equal c u).
Proof.
  unfold hex_class, hex_equal.
  destruct (Py.int16 c) as [vc | ec] eqn:Ec.
  - destruct (Py.int16 u) as [vu | eu] eqn:Eu; simpl.
    + exists (vc =? vu)%Z. split; [reflexivity |].
      rewrite Z.eqb_eq. split.
      * intros ->. exists vu. split; reflexivity.
      * intros [v [H1 H2]]. congruence.
    + exists false. rewrite (int16_raises _ _ Eu). split; [reflexivity |].
      split; [discriminate |]. intros [v [_ H2]]. congruence.
  - exists false. simpl. rewrite (int16_raises _ _ Ec). split; [reflexivity |].
    split; [discriminate |]. intros [v [H1 _]]. congruence.
Qed.

Lemma packet_check_answer_unfold (u c : string) :
  PacketQuiz.check_answer u c =
  let u' := normalize u in
  let c' := normalize c in
  if (u' =? c')%string then Ok true
  else if Py.str_in c' ["true"; "false"] && Py.str_in u' ["true"; "false"; "t"; "f"]
  then Ok (expand_bool u' =? c')%string
  else if Py.startswith c' "0x" && Py.startswith u' "0x"
  then hex_class c' u'
  else Ok false.
Proof. reflexivity. Qed.

Lemma flags_check_answer_unfold (u c : string) :
  TCPFlagsQuiz.check_answer u c =
  let u' := normalize u in
  let c' := normalize c in
  if (u' =? c')%string then Ok true
  else if Py.str_in c' ["true"; "false"] && Py.str_in u' ["true"; "false"; "t"; "f"]
  then Ok (expand_bool u' =? c')%string
  else if Py.startswith c' "0x" && Py.startswith u' "0x"
  then hex_class c' u'
  else Ok (TCPFlagsQuiz.flag_loop TCPFlagsQuiz.flag_patterns u' c').
Proof. reflexivity. Qed.

Lemma packet_check_answer_returns (u c : string) :
  exists b : bool, PacketQuiz.check_answer u c = Ok b.
Proof.
  rewrite packet_check_answer_unfold. cbv zeta.
  destruct (normalize u =? normalize c)%string; [eexists; reflexivity |].
  destruct (_ && _); [eexists; reflexivity |].
  destruct (_ && _); [| eexists; reflexivity].
  destruct (hex_class_returns (normalize c) (normalize u)) as [b [Hb _]].
  exists b. exact Hb.
Qed.

Lemma flags_check_answer_returns (u c : string) :
  exists b : bool, TCPFlagsQuiz.check_answer u c = Ok b.
Proof.
  rewrite flags_check_answer_unfold. cbv zeta.
  destruct (normalize u =? normalize c)%string; [eexists; reflexivity |].
  destruct (_ && _); [eexists; reflexivity |].
  destruct (_ && _); [| eexists; reflexivity].
  destruct (hex_class_returns (normalize c) (normalize u)) as [b [Hb _]].
  exists b. exact Hb.
Qed.

Lemma startswith_0x_not_bool (s : string) :
  Py.startswith s "0x" = true -> Py.str_in s ["true"; "false"] = false.
Proof.
  intros H. destruct s as [| a r]; [discriminate H |].
  cbn [Py.startswith] in H. apply andb_prop in H. destruct H as [H _].
  apply Ascii.eqb_eq in H. subst a. reflexivity.
Qed.

Lemma hex_branch (u' c' : string) (tail : result bool) :
  Py.startswith c' "0x" = true -> Py.startswith u' "0x" = true ->
  (if (u' =? c')%string then Ok true
   else if Py.str_in c' ["true"; "false"] && Py.str_in u' ["true"; "false"; "t"; "f"]
   then Ok (expand_bool u' =? c')%string
   else if Py.startswith c' "0x" && Py.startswith u' "0x"
   then hex_class c' u'
   else tail) = Ok true
  <-> u' = c' \/ hex_equal c' u'.
Proof.
  intros Hc Hu. rewrite (startswith_0x_not_bool _ Hc), Hc, Hu. simpl.
  destruct (String.eqb_spec u' c') as [E | N].
  - split; [intros _; left; exact E | reflexivity].
  - destruct (hex_class_returns c' u') as [b [Hb Hiff]]. rewrite Hb. split.
    + intros H. right. apply Hiff. congruence.
    + intros [E | H]; [contradiction |]. apply Hiff in H. congruence.
Qed.

(** C7 (as stated): for two texts that start with [0x], [check_answer]
    would return true exactly when both parse with equal values.  The two
    equal texts [0xZZ] do not parse, and the direct comparison accepts
    them. *)
Lemma hex_class_iff_fails :
  is_ascii "0xZZ" = true /\
  Py.startswith (normalize "0xZZ") "0x" = true /\
  ~ (PacketQuiz.check_answer "0xZZ" "0xZZ" = Ok true
     <-> hex_equal (normalize "0xZZ") (normalize "0xZZ")).
Proof.
  split; [reflexivity |]. split; [reflexivity |].
  intros [H _]. destruct (H eq_refl) as [v [Hv _]].
  vm_compute in Hv. discriminate Hv.
Qed.

(** C7 (amended): [check_answer] returns a boolean for every pair of
    texts and never raises; for ASCII texts, when both normalized texts
    start with [0x] it returns true exactly when they are the same text or
    both parse as base-16 integers with equal values, so a malformed text
    on either side gives false unless the two texts are equal; [0x02]
    matches [0x2] and [0xZZ] does not match [0x02]. *)
Theorem check_answer_hex_class :
  (forall u c : string,
      (exists b, PacketQuiz.check_answer u c = Ok b) /\
      (exists b, TCPFlagsQuiz.check_answer u c = Ok b) /\
      (is_ascii u = true -> is_ascii c = true ->
       Py.startswith (normalize c) "0x" = true ->
       Py.startswith (normalize u) "0x" = true ->
       (PacketQuiz.check_answer u c = Ok true
        <-> normalize u = normalize c \/ hex_equal (normalize c) (normalize u)) /\
       (TCPFlagsQuiz.check_answer u c = Ok true
        <-> normalize u = normalize c \/ hex_equal (normalize c) (normalize u)))) /\
  PacketQuiz.check_answer "0x02" "0x2" = Ok true /\
  TCPFlagsQuiz.check_answer "0x02" "0x2" = Ok true /\
  PacketQuiz.check_answer "0xZZ" "0x02" = Ok false /\
  TCPFlagsQuiz.check_answer "0xZZ" "0x02" = Ok false.
Proof.
  split; [| repeat split; reflexivity].
  intros u c.
  split; [apply packet_check_answer_returns |].
  split; [apply flags_check_answer_returns |].
  intros _ _ Hc Hu. split.
  - rewrite packet_check_answer_unfold. cbv zeta. apply hex_branch; assumption.
  - rewrite flags_check_answer_unfold. cbv zeta. apply hex_branch; assumption.
Qed.

Lemma check_answer_hex_class_witness :
  is_ascii " 0X02" = true /\ is_ascii "0x2" = true /\
  Py.startswith (normalize "0x2") "0x" = true /\
  Py.startswith (normalize " 0X02") "0x" = true /\
  TCPFlagsQuiz.check_answer " 0X02" "0x2" = Ok true.
Proof.
  split; [reflexivity |]. split; [reflexivity |].
  split; [reflexivity |]. split; [reflexivity |].
  apply (proj2 (proj2 (proj1 check_answer_hex_class " 0X02" "0x2"))
           eq_refl eq_refl eq_refl eq_refl).
  right. exists 2%Z. split; reflexivity.
Defined.

(** C8: in [TCPFlagsQuiz.check_answer], two texts whose normalized forms
    are both listed in one entry of [flag_patterns] match, whatever the
    representation (bare name, hex byte, [tcp-] filter name) and whatever
    the order in which the names of a combination are typed: [ack+syn]
    matches [syn+ack], and [0x04] matches [RST]. *)
Theorem flag_entry_match :
  (forall (key : string) (patterns : list string) (u c : string),
      In (key, patterns) TCPFlagsQuiz.flag_patterns ->
      In (normalize u) patterns ->
      In (normalize c) patterns ->
      TCPFlagsQuiz.check_answer u c = Ok true) /\
  TCPFlagsQuiz.check_answer "ack+syn" "syn+ack" = Ok true /\
  TCPFlagsQuiz.check_answer "0x04" "RST" = Ok true /\
  TCPFlagsQuiz.check_answer "tcp-syn|tcp-ack" "SYN+ACK" = Ok true.
Proof.
  split; [| repeat split; reflexivity].
  intros key patterns u c Hin Hu Hc.
  rewrite flags_check_answer_unfold. cbv zeta.
  generalize dependent (normalize c). generalize dependent (normalize u).
  intros u' Hu c' Hc.
  simpl in Hin.
  repeat (destruct Hin as [Hin | Hin];
          [injection Hin as <- <-; simpl in Hu, Hc;
           repeat (destruct Hu as [<- | Hu]; [| try contradiction]);
           repeat (destruct Hc as [<- | Hc]; [| try contradiction]);
           reflexivity |]).
  contradiction.
Qed.

Lemma flag_entry_match_witness :
  In ("syn+ack", ["syn+ack"; "ack+syn"; "0x12"; "tcp-syn|tcp-ack"])
     TCPFlagsQuiz.flag_patterns /\
  TCPFlagsQuiz.check_answer " Ack+Syn " "0x12" = Ok true.
Proof.
  assert (H : In ("syn+ack", ["syn+ack"; "ack+syn"; "0x12"; "tcp-syn|tcp-ack"])
                 TCPFlagsQuiz.flag_patterns).
  { simpl. do 7 right. left. reflexivity. }
  split; [exact H |].
  apply (proj1 flag_entry_match _ _ " Ack+Syn " "0x12" H).
  - simpl. right. left. reflexivity.
  - simpl. do 2 right. left. reflexivity.
Defined.

Lemma flag_loop_bool (u' c' : string) :
  c' = "true" \/ c' = "false" ->
  TCPFlagsQuiz.flag_loop TCPFlagsQuiz.flag_patterns u' c' = false.
Proof. intros [-> | ->]; reflexivity. Qed.

Lemma flag_loop_shortcut (u' c' : string) :
  u' = "t" \/ u' = "f" ->
  TCPFlagsQuiz.flag_loop TCPFlagsQuiz.flag_patterns u' c' = false.
Proof.
  intros [-> | ->]; unfold TCPFlagsQuiz.flag_patterns;
    cbn [TCPFlagsQuiz.flag_loop];
    repeat match goal with
           | |- context [Py.str_in c' ?l && Py.str_in ?x ?l] =>
               replace (Py.str_in c' l && Py.str_in x l) with false
                 by (symmetry; apply andb_false_r)
           end; reflexivity.
Qed.

Lemma bool_class (u' c' : string) (tail : bool) :
  c' = "true" \/ c' = "false" ->
  tail = false ->
  (if (u' =? c')%string then Ok true
   else if Py.str_in c' ["true"; "false"] && Py.str_in u' ["true"; "false"; "t"; "f"]
   then Ok (expand_bool u' =? c')%string
   else if Py.startswith c' "0x" && Py.startswith u' "0x"
   then hex_class c' u'
   else Ok tail) = Ok (expand_bool u' =? c')%string.
Proof.
  intros Hc ->. unfold expand_bool.
  destruct (String.eqb_spec u' "true") as [-> | N1];
    [destruct Hc as [-> | ->]; reflexivity |].
  destruct (String.eqb_spec u' "false") as [-> | N2];
    [destruct Hc as [-> | ->]; reflexivity |].
  destruct (String.eqb_spec u' "t") as [-> | N3];
    [destruct Hc as [-> | ->]; reflexivity |].
  destruct (String.eqb_spec u' "f") as [-> | N4];
    [destruct Hc as [-> | ->]; reflexivity |].
  apply String.eqb_neq in N1, N2, N3, N4.
  destruct Hc as [-> | ->]; cbn [Py.str_in Py.startswith];
    rewrite ?N1, ?N2, ?N3, ?N4; reflexivity.
Qed.

Lemma no_bool_class (u' c' : string) (tail : bool) :
  c' <> "true" -> c' <> "false" ->
  u' = "t" \/ u' = "f" ->
  tail = false ->
  (if (u' =? c')%string then Ok true
   else if Py.str_in c' ["true"; "false"] && Py.str_in u' ["true"; "false"; "t"; "f"]
   then Ok (expand_bool u' =? c')%string
   else if Py.startswith c' "0x" && Py.startswith u' "0x"
   then hex_class c' u'
   else Ok tail) = Ok (u' =? c')%string.
Proof.
  intros N1 N2 Hu ->.
  apply String.eqb_neq in N1, N2.
  assert (Hin : Py.str_in c' ["true"; "false"] = false).
  { cbn [Py.str_in]. rewrite N1, N2. reflexivity. }
  rewrite Hin.
  assert (Hsw : Py.startswith u' "0x" = false) by (destruct Hu as [-> | ->]; reflexivity).
  rewrite Hsw, andb_false_r. cbn [andb].
  destruct (u' =? c')%string; reflexivity.
Qed.

(** C9: in both scripts, for ASCII texts, when the normalized canonical
    answer is [true] or [false], [check_answer] returns whether the
    normalized input, with [t] and [f] expanded to [true] and [false],
    equals it; when the canonical
    answer is neither, the inputs [t] and [f] are not expanded and match
    only an equal canonical answer.  So [t] matches [True], [f] does not,
    and both texts are stripped and lowercased first. *)
Theorem boolean_class :
  (forall u c : string,
      is_ascii u = true -> is_ascii c = true ->
      (normalize c = "true" \/ normalize c = "false" ->
       PacketQuiz.check_answer u c = Ok (expand_bool (normalize u) =? normalize c)%string /\
       TCPFlagsQuiz.check_answer u c = Ok (expand_bool (normalize u) =? normalize c)%string) /\
      (normalize c <> "true" -> normalize c <> "false" ->
       normalize u = "t" \/ normalize u = "f" ->
       PacketQuiz.check_answer u c = Ok (normalize u =? normalize c)%string /\
       TCPFlagsQuiz.check_answer u c = Ok (normalize u =? normalize c)%string)) /\
  PacketQuiz.check_answer "t" "True" = Ok true /\
  TCPFlagsQuiz.check_answer "t" "True" = Ok true /\
  PacketQuiz.check_answer "f" "True" = Ok false /\
  TCPFlagsQuiz.check_answer "f" "True" = Ok false /\
  PacketQuiz.check_answer "  F " " FALSE" = Ok true /\
  TCPFlagsQuiz.check_answer "  F " " FALSE" = Ok true.
Proof.
  split; [| repeat split; reflexivity].
  intros u c _ _. split.
  - intros Hc. split.
    + rewrite packet_check_answer_unfold. cbv zeta.
      apply bool_class; [exact Hc | reflexivity].
    + rewrite flags_check_answer_unfold. cbv zeta.
      apply bool_class; [exact Hc | apply flag_loop_bool; exact Hc].
  - intros N1 N2 Hu. split.
    + rewrite packet_check_answer_unfold. cbv zeta.
      apply no_bool_class; auto.
    + rewrite flags_check_answer_unfold. cbv zeta.
      apply no_bool_class; auto. apply flag_loop_shortcut; exact Hu.
Qed.

Lemma boolean_class_witness :
  is_ascii "T " = true /\ is_ascii " TRUE" = true /\ is_ascii "tcp" = true /\
  (normalize " TRUE" = "true" \/ normalize " TRUE" = "false") /\
  TCPFlagsQuiz.check_answer "T " " TRUE" = Ok true /\
  normalize "tcp" <> "true" /\ normalize "tcp" <> "false" /\
  (normalize "T " = "t" \/ normalize "T " = "f") /\
  TCPFlagsQuiz.check_answer "T " "tcp" = Ok false.
Proof.
  assert (H1 : normalize " TRUE" = "true" \/ normalize " TRUE" = "false")
    by (left; reflexivity).
  assert (H2 : normalize "tcp" <> "true") by (vm_compute; discriminate).
  assert (H3 : normalize "tcp" <> "false") by (vm_compute; discriminate).
  assert (H4 : normalize "T " = "t" \/ normalize "T " = "f") by (left; reflexivity).
  split; [reflexivity |]. split; [reflexivity |]. split; [reflexivity |].
  split; [exact H1 |].
  split; [exact (proj2 (proj1 (proj1 boolean_class "T " " TRUE" eq_refl eq_refl) H1)) |].
  split; [exact H2 |]. split; [exact H3 |]. split; [exact H4 |].
  exact (proj2 (proj2 (proj1 boolean_class "T " "tcp" eq_refl eq_refl) H2 H3 H4)).
Defined.

(* ------------------------------------------------------------------ *)
(** ** Slices of lists *)

Section ListUpto.

Context {A : Type}.

Lemma In_firstn (n : nat) (l : list A) (x : A) : In x (firstn n l) -> In x l.
Proof.
  revert l. induction n as [| n IH]; intros [| y l]; simpl; try tauto.
  intros [H | H]; [left; exact H | right; apply IH; exact H].
Qed.

Lemma NoDup_firstn (n : nat) (l : list A) : NoDup l -> NoDup (firstn n l).
Proof.
  intros H. rewrite <- (firstn_skipn n l) in H.
  exact (NoDup_app_remove_r _ _ H).
Qed.

Lemma list_upto_firstn (l : list A) (n : Z) :
  exists k : nat, Py.list_upto l n = firstn k l.
Proof. unfold Py.list_upto. destruct (n <? 0)%Z; eexists; reflexivity. Qed.

Lemma In_list_upto (l : list A) (n : Z) (x : A) :
  In x (Py.list_upto l n) -> In x l.
Proof.
  destruct (list_upto_firstn l n) as [k ->]. apply In_firstn.
Qed.

Lemma length_list_upto_nonneg (l : list A) (n : Z) :
  (0 <= n)%Z ->
  length (Py.list_upto l n) = Nat.min (Z.to_nat n) (length l).
Proof.
  intros H. unfold Py.list_upto.
  destruct (Z.ltb_spec n 0); [lia |]. apply length_firstn.
Qed.

Lemma list_upto_minus_one (l : list A) : Py.list_upto l (-1) = removelast l.
Proof.
  unfold Py.list_upto. change (-1 <? 0)%Z with true. cbv iota.
  rewrite removelast_firstn_len. f_equal.
  rewrite <- Nat.sub_1_r. lia.
Qed.

Lemma length_removelast (l : list A) : length (removelast l) = length l - 1.
Proof.
  rewrite removelast_firstn_len, length_firstn, <- Nat.sub_1_r. lia.
Qed.

End ListUpto.

(** ** Lists of questions with distinct ids *)

Section Keyed.

Context {A : Type}.
Variable key : A -> Z.

Lemma NoDup_key_list_upto (l : list A) (n : Z) :
  NoDup (map key l) -> NoDup (map key (Py.list_upto l n)).
Proof.
  intros H. destruct (list_upto_firstn l n) as [k ->].
  rewrite <- firstn_map. apply NoDup_firstn. exact H.
Qed.

Lemma NoDup_key_perm (l l' : list A) :
  Permutation l l' -> NoDup (map key l) -> NoDup (map key l').
Proof.
  intros HP. apply Permutation_NoDup. apply Permutation_map. exact HP.
Qed.

Lemma filter_key_not_in (sid : Z) (l : list A) :
  ~ In sid (map key (filter (fun x => negb (key x =? sid)%Z) l)).
Proof.
  rewrite in_map_iff. intros [x [Hk Hx]].
  apply filter_In in Hx. destruct Hx as [_ Hx].
  rewrite Hk, Z.eqb_refl in Hx. discriminate Hx.
Qed.

Lemma NoDup_key_filter (f : A -> bool) (l : list A) :
  NoDup (map key l) -> NoDup (map key (filter f l)).
Proof.
  induction l as [| x l IH]; simpl; intros H; [constructor |].
  inversion H as [| k ks Hnotin Hnd Heq]; subst k ks.
  destruct (f x); simpl; [| apply IH; exact Hnd].
  constructor; [| apply IH; exact Hnd].
  intros Hin. apply Hnotin. rewrite in_map_iff in Hin |- *.
  destruct Hin as [y [Hy Hin]]. exists y. split; [exact Hy |].
  apply filter_In in Hin. tauto.
Qed.

Lemma filter_key_absent (sid : Z) (l : list A) :
  ~ In sid (map key l) ->
  filter (fun y => negb (key y =? sid)%Z) l = l.
Proof.
  induction l as [| y l IH]; simpl; intros H; [reflexivity |].
  destruct (Z.eqb_spec (key y) sid) as [E | N]; simpl.
  - exfalso. apply H. left. exact E.
  - f_equal. apply IH. intros Hin. apply H. right. exact Hin.
Qed.

Lemma length_filter_key (sid : Z) (l : list A) (x : A) :
  NoDup (map key l) -> In x l -> key x = sid ->
  S (length (filter (fun y => negb (key y =? sid)%Z) l)) = length l.
Proof.
  induction l as [| y l IH]; intros Hnd Hin Hk; simpl; [contradiction |].
  inversion Hnd as [| k ks Hnotin Hnd' Heq]; subst k ks.
  destruct (Z.eqb_spec (key y) sid) as [E | N]; simpl.
  - rewrite filter_key_absent; [reflexivity |]. rewrite <- E. exact Hnotin.
  - f_equal. apply IH; try assumption.
    destruct Hin as [-> | Hin]; [contradiction | exact Hin].
Qed.

End Keyed.

(** ** The search for the start question *)

Section FindStart.

Import PacketQuiz.

Lemma find_start_remaining (sid : Z) (l : list Question) :
  forall st, snd (fold_left (find_start_step sid) l st)
             = (snd st ++ filter (fun q => negb (q_id q =? sid)%Z) l)%list.
Proof.
  induction l as [| x l IH]; intros st; simpl.
  - rewrite app_nil_r. reflexivity.
  - rewrite IH. unfold find_start_step.
    destruct (q_id x =? sid)%Z; simpl; [reflexivity |].
    rewrite <- app_assoc. reflexivity.
Qed.

Lemma find_start_none (sid : Z) (l : list Question) :
  (forall x, In x l -> q_id x <> sid) ->
  forall st, fst (fold_left (find_start_step sid) l st) = fst st.
Proof.
  induction l as [| x l IH]; intros Hall st; simpl; [reflexivity |].
  rewrite IH by (intros y Hy; apply Hall; right; exact Hy).
  unfold find_start_step.
  destruct (Z.eqb_spec (q_id x) sid) as [E | N]; [| reflexivity].
  exfalso. exact (Hall x (or_introl eq_refl) E).
Qed.

Lemma find_start_some (sid : Z) (l : list Question) (x : Question) :
  NoDup (map q_id l) -> In x l -> q_id x = sid ->
  forall st, fst (fold_left (find_start_step sid) l st) = Some x.
Proof.
  induction l as [| y l IH]; intros Hnd Hin Hk st; simpl; [contradiction |].
  inversion Hnd as [| k ks Hnotin Hnd' Heq]; subst k ks.
  destruct Hin as [-> | Hin].
  - rewrite find_start_none.
    + unfold find_start_step. rewrite Hk, Z.eqb_refl. reflexivity.
    + intros z Hz E. apply Hnotin. rewrite Hk, <- E. apply in_map. exact Hz.
  - apply IH; assumption.
Qed.

Lemma find_start_found (sid : Z) (l : list Question) (x : Question) :
  NoDup (map q_id l) -> In x l -> q_id x = sid ->
  find_start sid l = (Some x, filter (fun q => negb (q_id q =? sid)%Z) l).
Proof.
  intros Hnd Hin Hk. unfold find_start.
  rewrite (surjective_pairing (fold_left _ _ _)).
  rewrite find_start_remaining, (find_start_some sid l x Hnd Hin Hk).
  reflexivity.
Qed.

Lemma find_start_missing (sid : Z) (l : list Question) :
  (forall x, In x l -> q_id x <> sid) ->
  find_start sid l = (None, filter (fun q => negb (q_id q =? sid)%Z) l).
Proof.
  intros Hall. unfold find_start.
  rewrite (surjective_pairing (fold_left _ _ _)).
  rewrite find_start_remaining, (find_start_none sid l Hall).
  reflexivity.
Qed.

End FindStart.

(* ------------------------------------------------------------------ *)
(** ** The question banks *)

Lemma packet_bank_ids :
  map PacketQuiz.q_id PacketQuiz.packet_bank = map Z.of_nat (seq 1 50).
Proof. reflexivity. Qed.

Lemma flags_bank_ids :
  map TCPFlagsQuiz.q_id TCPFlagsQuiz.flags_bank = map Z.of_nat (seq 1 50).
Proof. reflexivity. Qed.

Lemma NoDup_ids_1_50 : NoDup (map Z.of_nat (seq 1 50)).
Proof.
  apply Injective_map_NoDup; [| apply seq_NoDup].
  intros x y H. apply Nat2Z.inj. exact H.
Qed.

Lemma packet_bank_NoDup : NoDup (map PacketQuiz.q_id PacketQuiz.packet_bank).
Proof. rewrite packet_bank_ids. exact NoDup_ids_1_50. Qed.

Lemma flags_bank_NoDup : NoDup (map TCPFlagsQuiz.q_id TCPFlagsQuiz.flags_bank).
Proof. rewrite flags_bank_ids. exact NoDup_ids_1_50. Qed.

Lemma rev_shuffle (A : Type) (l : list A) : Permutation l (rev l).
Proof. apply Permutation_rev. Qed.

(* ------------------------------------------------------------------ *)
(** ** The choice of the questions *)

Section Selection.

Context {A : Type}.
Variable key : A -> Z.
Variable shuffle : list A -> list A.
Hypothesis shuffle_perm : forall l, Permutation l (shuffle l).

Lemma shuffled_upto (qs : list A) (n : Z) :
  (1 <= n)%Z ->
  NoDup (map key qs) ->
  let sel := Py.list_upto (shuffle qs) n in
  length sel = Nat.min (Z.to_nat n) (length qs) /\
  NoDup (map key sel) /\
  (forall q, In q sel -> In q qs).
Proof.
  intros Hn Hnd sel. subst sel. split; [| split].
  - rewrite length_list_upto_nonneg by lia.
    rewrite <- (Permutation_length (shuffle_perm qs)). reflexivity.
  - apply NoDup_key_list_upto.
    exact (NoDup_key_perm key _ _ (shuffle_perm qs) Hnd).
  - intros q Hq. apply In_list_upto in Hq.
    exact (Permutation_in _ (Permutation_sym (shuffle_perm qs)) Hq).
Qed.

End Selection.

(** C3: on the unpinned path of both scripts, for a count [N >= 1] and a
    bank with distinct ids, the chosen list has [min N bank_size]
    questions, their ids are pairwise distinct, and each is a question of
    the bank. *)
Theorem unpinned_selection :
  forall (shuffle_f : list TCPFlagsQuiz.Question -> list TCPFlagsQuiz.Question)
         (shuffle_p : list PacketQuiz.Question -> list PacketQuiz.Question),
    (forall l, Permutation l (shuffle_f l)) ->
    (forall l, Permutation l (shuffle_p l)) ->
    (forall self : TCPFlagsQuiz.t,
        (1 <= TCPFlagsQuiz.num_questions self)%Z ->
        NoDup (map TCPFlagsQuiz.q_id (TCPFlagsQuiz.questions self)) ->
        let sel := snd (TCPFlagsQuiz.select_questions shuffle_f self) in
        length sel = Nat.min (Z.to_nat (TCPFlagsQuiz.num_questions self))
                             (length (TCPFlagsQuiz.questions self)) /\
        NoDup (map TCPFlagsQuiz.q_id sel) /\
        (forall q, In q sel -> In q (TCPFlagsQuiz.questions self))) /\
    (forall self : PacketQuiz.t,
        (1 <= PacketQuiz.num_questions self)%Z ->
        PacketQuiz.start_question_id self = None ->
        NoDup (map PacketQuiz.q_id (PacketQuiz.questions self)) ->
        let sel := snd (fst (PacketQuiz.select_questions shuffle_p self)) in
        length sel = Nat.min (Z.to_nat (PacketQuiz.num_questions self))
                             (length (PacketQuiz.questions self)) /\
        NoDup (map PacketQuiz.q_id sel) /\
        (forall q, In q sel -> In q (PacketQuiz.questions self))).
Proof.
  intros shuffle_f shuffle_p Hf Hp. split.
  - intros self Hn Hnd.
    exact (shuffled_upto TCPFlagsQuiz.q_id shuffle_f Hf _ _ Hn Hnd).
  - intros self Hn Hs Hnd. unfold PacketQuiz.select_questions. rewrite Hs.
    exact (shuffled_upto PacketQuiz.q_id shuffle_p Hp _ _ Hn Hnd).
Qed.

Lemma unpinned_selection_witness :
  length (snd (TCPFlagsQuiz.select_questions (@rev _) (TCPFlagsQuiz.new 10))) = 10 /\
  NoDup (map TCPFlagsQuiz.q_id
             (snd (TCPFlagsQuiz.select_questions (@rev _) (TCPFlagsQuiz.new 10)))) /\
  length (snd (TCPFlagsQuiz.select_questions (@rev _) (TCPFlagsQuiz.new 60))) = 50 /\
  length (snd (fst (PacketQuiz.select_questions (@rev _) (PacketQuiz.new 60 None [])))) = 50.
Proof.
  pose proof (unpinned_selection (@rev _) (@rev _) (rev_shuffle _) (rev_shuffle _))
    as [Hf Hp].
  destruct (Hf (TCPFlagsQuiz.new 10) ltac:(simpl; lia) flags_bank_NoDup) as [H1 [H2 _]].
  destruct (Hf (TCPFlagsQuiz.new 60) ltac:(simpl; lia) flags_bank_NoDup) as [H3 _].
  destruct (Hp (PacketQuiz.new 60 None []) ltac:(simpl; lia) eq_refl packet_bank_NoDup)
    as [H4 _].
  split; [exact H1 |]. split; [exact H2 |]. split; [exact H3 | exact H4].
Defined.

Section Pinned.

Import PacketQuiz.

Variable shuffle : list Question -> list Question.
Hypothesis shuffle_perm : forall l, Permutation l (shuffle l).

Lemma select_pinned (self : t) (sid : Z) (q : Question) :
  start_question_id self = Some sid ->
  NoDup (map q_id (questions self)) ->
  In q (questions self) -> q_id q = sid ->
  select_questions shuffle self
  = (self,
     q :: Py.list_upto (shuffle (snd (find_start sid (questions self))))
                       (num_questions self - 1),
     [EvStartingWith sid]).
Proof.
  intros Hs Hnd Hin Hk. unfold select_questions. rewrite Hs.
  rewrite (find_start_found sid _ q Hnd Hin Hk). reflexivity.
Qed.

Lemma select_not_found (self : t) (sid : Z) :
  start_question_id self = Some sid ->
  (forall q, In q (questions self) -> q_id q <> sid) ->
  select_questions shuffle self
  = (set_questions self (shuffle (questions self)),
     Py.list_upto (shuffle (questions self)) (num_questions self),
     [EvNotFound sid]).
Proof.
  intros Hs Hall. unfold select_questions. rewrite Hs.
  rewrite (find_start_missing sid _ Hall). reflexivity.
Qed.

Lemma remaining_shuffled (self : t) (sid : Z) (q : Question) (n : Z) :
  NoDup (map q_id (questions self)) ->
  In q (questions self) -> q_id q = sid ->
  let rest := Py.list_upto (shuffle (snd (find_start sid (questions self)))) n in
  NoDup (map q_id (q :: rest)) /\
  (forall r, In r rest -> In r (questions self)) /\
  S (length (shuffle (snd (find_start sid (questions self)))))
  = length (questions self).
Proof.
  intros Hnd Hin Hk rest. subst rest.
  rewrite (find_start_found sid _ q Hnd Hin Hk). cbn [snd].
  set (remaining := filter (fun x => negb (q_id x =? sid)%Z) (questions self)).
  assert (HndR : NoDup (map q_id (shuffle remaining))).
  { apply (NoDup_key_perm q_id remaining); [apply shuffle_perm |].
    apply NoDup_key_filter. exact Hnd. }
  split; [| split].
  - cbn [map]. constructor; [| apply NoDup_key_list_upto; exact HndR].
    rewrite in_map_iff. intros [r [Hr Hrin]].
    apply In_list_upto in Hrin.
    apply (Permutation_in _ (Permutation_sym (shuffle_perm remaining))) in Hrin.
    apply (filter_key_not_in q_id sid (questions self)).
    rewrite in_map_iff. exists r. split; [congruence | exact Hrin].
  - intros r Hr. apply In_list_upto in Hr.
    apply (Permutation_in _ (Permutation_sym (shuffle_perm remaining))) in Hr.
    apply filter_In in Hr. tauto.
  - rewrite <- (Permutation_length (shuffle_perm remaining)).
    exact (length_filter_key q_id sid _ q Hnd Hin Hk).
Qed.

End Pinned.

(** C4: in [PacketQuiz.run_quiz], for a bank with distinct ids, when the
    start id is the id of a question of the bank, that question is the first
    of the chosen list, the ids of the list are pairwise distinct, every
    chosen question is from the bank and, for [N >= 1], the list has
    [min N bank_size] questions; when no question has the start id, the
    not-found notice is printed and the chosen list is the one of the
    unpinned path. *)
Theorem pinned_selection :
  forall (shuffle : list PacketQuiz.Question -> list PacketQuiz.Question)
         (self : PacketQuiz.t) (sid : Z),
    (forall l, Permutation l (shuffle l)) ->
    PacketQuiz.start_question_id self = Some sid ->
    NoDup (map PacketQuiz.q_id (PacketQuiz.questions self)) ->
    (forall q : PacketQuiz.Question,
        In q (PacketQuiz.questions self) -> PacketQuiz.q_id q = sid ->
        exists rest : list PacketQuiz.Question,
          PacketQuiz.select_questions shuffle self
          = (self, q :: rest, [PacketQuiz.EvStartingWith sid]) /\
          NoDup (map PacketQuiz.q_id (q :: rest)) /\
          (forall r, In r rest -> In r (PacketQuiz.questions self)) /\
          ((1 <= PacketQuiz.num_questions self)%Z ->
           length (q :: rest)
           = Nat.min (Z.to_nat (PacketQuiz.num_questions self))
                     (length (PacketQuiz.questions self)))) /\
    ((forall q, In q (PacketQuiz.questions self) -> PacketQuiz.q_id q <> sid) ->
     snd (PacketQuiz.select_questions shuffle self) = [PacketQuiz.EvNotFound sid] /\
     forall self0 : PacketQuiz.t,
       PacketQuiz.start_question_id self0 = None ->
       PacketQuiz.questions self0 = PacketQuiz.questions self ->
       PacketQuiz.num_questions self0 = PacketQuiz.num_questions self ->
       snd (fst (PacketQuiz.select_questions shuffle self))
       = snd (fst (PacketQuiz.select_questions shuffle self0))).
Proof.
  intros shuffle self sid Hperm Hs Hnd. split.
  - intros q Hin Hk.
    destruct (remaining_shuffled shuffle Hperm self sid q
                (PacketQuiz.num_questions self - 1) Hnd Hin Hk) as [H1 [H2 H3]].
    eexists. split; [apply (select_pinned shuffle self sid q Hs Hnd Hin Hk) |].
    split; [exact H1 |]. split; [exact H2 |].
    intros Hn. cbn [length]. rewrite length_list_upto_nonneg by lia. lia.
  - intros Hall. rewrite (select_not_found shuffle self sid Hs Hall).
    split; [reflexivity |].
    intros self0 H0 Hq HN. unfold PacketQuiz.select_questions. rewrite H0.
    cbn [fst snd PacketQuiz.set_questions PacketQuiz.questions PacketQuiz.num_questions].
    rewrite Hq, HN. reflexivity.
Qed.

Lemma pinned_selection_witness :
  exists rest : list PacketQuiz.Question,
    PacketQuiz.select_questions (@rev _) (PacketQuiz.new 10 (Some 5%Z) [])
    = (PacketQuiz.new 10 (Some 5%Z) [],
       nth 4 PacketQuiz.packet_bank (PacketQuiz.mkQuestion 0 "" 0 [] "" "" None) :: rest,
       [PacketQuiz.EvStartingWith 5]) /\
    length rest = 9.
Proof.
  destruct (proj1 (pinned_selection (@rev _) (PacketQuiz.new 10 (Some 5%Z) []) 5%Z
                     (rev_shuffle _) eq_refl packet_bank_NoDup)
              (nth 4 PacketQuiz.packet_bank (PacketQuiz.mkQuestion 0 "" 0 [] "" "" None))
              ltac:(simpl; tauto) eq_refl)
    as [rest [H1 [_ [_ H4]]]].
  exists rest. split; [exact H1 |].
  specialize (H4 ltac:(simpl; lia)). simpl in H4. lia.
Defined.

(** C10 (as stated): with a count of 0 and a start id found in the bank,
    the chosen list would be as long as the bank.  From the 50 questions of
    the bank, 49 are chosen. *)
Lemma zero_count_not_full_bank :
  length (snd (fst (PacketQuiz.select_questions
                      (fun l => l) (PacketQuiz.new 0 (Some 5%Z) [])))) = 49 /\
  length (snd (fst (PacketQuiz.select_questions
                      (fun l => l) (PacketQuiz.new 0 (Some 5%Z) []))))
  <> length (PacketQuiz.questions (PacketQuiz.new 0 (Some 5%Z) [])).
Proof. split; [reflexivity | vm_compute; discriminate]. Qed.

(** C10 (amended): with a count of 0 and a start id found in a bank with
    distinct ids, the chosen list is the start question followed by all but
    the last of the shuffled remaining questions: one question fewer than
    the bank when the bank has at least two, and the start question alone
    when it has one.  It is never empty. *)
Theorem zero_count_pinned :
  forall (shuffle : list PacketQuiz.Question -> list PacketQuiz.Question)
         (self : PacketQuiz.t) (sid : Z) (q : PacketQuiz.Question),
    (forall l, Permutation l (shuffle l)) ->
    PacketQuiz.num_questions self = 0%Z ->
    PacketQuiz.start_question_id self = Some sid ->
    NoDup (map PacketQuiz.q_id (PacketQuiz.questions self)) ->
    In q (PacketQuiz.questions self) -> PacketQuiz.q_id q = sid ->
    let sel := snd (fst (PacketQuiz.select_questions shuffle self)) in
    sel = q :: removelast
                 (shuffle (snd (PacketQuiz.find_start sid (PacketQuiz.questions self)))) /\
    length sel = Nat.max 1 (length (PacketQuiz.questions self) - 1) /\
    (2 <= length (PacketQuiz.questions self) ->
     length sel = length (PacketQuiz.questions self) - 1).
Proof.
  intros shuffle self sid q Hperm HN Hs Hnd Hin Hk sel. subst sel.
  rewrite (select_pinned shuffle self sid q Hs Hnd Hin Hk).
  cbn [fst snd]. rewrite HN. change (0 - 1)%Z with (-1)%Z.
  rewrite list_upto_minus_one.
  destruct (remaining_shuffled shuffle Hperm self sid q 0 Hnd Hin Hk) as [_ [_ H3]].
  split; [reflexivity |].
  cbn [length]. rewrite length_removelast. lia.
Qed.

Lemma zero_count_pinned_witness :
  length (snd (fst (PacketQuiz.select_questions
                      (@rev _) (PacketQuiz.new 0 (Some 50%Z) [])))) = 49.
Proof.
  destruct (zero_count_pinned (@rev _) (PacketQuiz.new 0 (Some 50%Z) []) 50%Z
              (nth 49 PacketQuiz.packet_bank (PacketQuiz.mkQuestion 0 "" 0 [] "" "" None))
              (rev_shuffle _) eq_refl eq_refl packet_bank_NoDup
              ltac:(simpl; tauto) eq_refl) as [_ [_ H]].
  exact (H ltac:(simpl; lia)).
Defined.

(* ------------------------------------------------------------------ *)
(** ** The loop over the chosen questions and the final score *)

Lemma flags_ask_all_score (qs : list TCPFlagsQuiz.Question) (answers : nat -> string) :
  forall (self self' : TCPFlagsQuiz.t) (i : nat) (events : list TCPFlagsQuiz.event),
    TCPFlagsQuiz.ask_all self i qs answers = Ok (self', events) ->
    TCPFlagsQuiz.num_questions self' = TCPFlagsQuiz.num_questions self /\
    (TCPFlagsQuiz.score self <= TCPFlagsQuiz.score self'
     <= TCPFlagsQuiz.score self + Z.of_nat (length qs))%Z.
Proof.
  induction qs as [| q qs IH]; intros self self' i events H.
  - simpl in H. injection H as <- _. simpl. lia.
  - cbn [TCPFlagsQuiz.ask_all] in H. unfold TCPFlagsQuiz.ask in H.
    destruct (TCPFlagsQuiz.check_answer _ _) as [b | e]; [| discriminate H].
    cbn [bind fst snd] in H.
    destruct (TCPFlagsQuiz.ask_all _ (S i) qs answers) as [[s2 ev2] | e] eqn:E;
      [| discriminate H].
    cbn [bind fst snd] in H. injection H as <- _.
    apply IH in E. destruct E as [E1 E2]. cbn [length].
    destruct b; cbn [TCPFlagsQuiz.add_score TCPFlagsQuiz.num_questions
                       TCPFlagsQuiz.score] in E1, E2; split; try assumption; lia.
Qed.

Lemma packet_ask_all_score (qs : list PacketQuiz.Question) (answers : nat -> string) :
  forall (self self' : PacketQuiz.t) (i : nat) (events : list PacketQuiz.event),
    PacketQuiz.ask_all self i qs answers = Ok (self', events) ->
    PacketQuiz.num_questions self' = PacketQuiz.num_questions self /\
    (PacketQuiz.score self <= PacketQuiz.score self'
     <= PacketQuiz.score self + Z.of_nat (length qs))%Z.
Proof.
  induction qs as [| q qs IH]; intros self self' i events H.
  - simpl in H. injection H as <- _. simpl. lia.
  - cbn [PacketQuiz.ask_all] in H. unfold PacketQuiz.ask in H.
    destruct (Py.list_get _ _) as [packet | e]; [| discriminate H].
    cbn [bind] in H.
    destruct (PacketQuiz.check_answer _ _) as [b | e]; [| discriminate H].
    cbn [bind] in H.
    destruct (PacketQuiz.parse_hex_location _) as [offset num_bytes].
    cbn [bind fst snd] in H.
    destruct (PacketQuiz.ask_all _ (S i) qs answers) as [[s2 ev2] | e] eqn:E;
      [| discriminate H].
    cbn [bind fst snd] in H. injection H as <- _.
    apply IH in E. destruct E as [E1 E2]. cbn [length].
    destruct b; cbn [PacketQuiz.add_score PacketQuiz.num_questions
                       PacketQuiz.score] in E1, E2; split; try assumption; lia.
Qed.

Lemma percentage_returns (score n : Z) (p : Q) :
  percentage score n = Ok p ->
  n <> 0%Z /\ p = Qmult (Qdiv (inject_Z score) (inject_Z n)) (inject_Z 100).
Proof.
  unfold percentage. destruct (Z.eqb_spec n 0); [discriminate |].
  intros H. injection H as <-. split; [assumption | reflexivity].
Qed.

Lemma id_found_or_not (sid : Z) (l : list PacketQuiz.Question) :
  (exists q, In q l /\ PacketQuiz.q_id q = sid) \/
  (forall q, In q l -> PacketQuiz.q_id q <> sid).
Proof.
  induction l as [| x l IH].
  - right. intros q [].
  - destruct (Z.eq_dec (PacketQuiz.q_id x) sid) as [E | N].
    + left. exists x. split; [left; reflexivity | exact E].
    + destruct IH as [[q [Hq Hk]] | Hall].
      * left. exists q. split; [right; exact Hq | exact Hk].
      * right. intros q [<- | Hq]; [exact N | apply Hall; exact Hq].
Qed.

Lemma packet_select_keeps (shuffle : list PacketQuiz.Question -> list PacketQuiz.Question)
      (self : PacketQuiz.t) :
  PacketQuiz.num_questions (fst (fst (PacketQuiz.select_questions shuffle self)))
  = PacketQuiz.num_questions self /\
  PacketQuiz.score (fst (fst (PacketQuiz.select_questions shuffle self)))
  = PacketQuiz.score self.
Proof.
  unfold PacketQuiz.select_questions.
  destruct (PacketQuiz.start_question_id self) as [sid |]; [| split; reflexivity].
  destruct (PacketQuiz.find_start sid (PacketQuiz.questions self)) as [[q |] rem];
    split; reflexivity.
Qed.

Lemma packet_select_length (shuffle : list PacketQuiz.Question -> list PacketQuiz.Question)
      (self : PacketQuiz.t) :
  (forall l, Permutation l (shuffle l)) ->
  (1 <= PacketQuiz.num_questions self
   <= Z.of_nat (length (PacketQuiz.questions self)))%Z ->
  NoDup (map PacketQuiz.q_id (PacketQuiz.questions self)) ->
  Z.of_nat (length (snd (fst (PacketQuiz.select_questions shuffle self))))
  = PacketQuiz.num_questions self.
Proof.
  intros Hperm Hn Hnd.
  assert (Hup : Z.of_nat (length (Py.list_upto (shuffle (PacketQuiz.questions self))
                                               (PacketQuiz.num_questions self)))
                = PacketQuiz.num_questions self).
  { rewrite length_list_upto_nonneg by lia.
    rewrite <- (Permutation_length (Hperm _)). lia. }
  destruct (PacketQuiz.start_question_id self) as [sid |] eqn:Hs.
  - destruct (id_found_or_not sid (PacketQuiz.questions self)) as [[q [Hq Hk]] | Hall].
    + rewrite (select_pinned shuffle self sid q Hs Hnd Hq Hk). cbn [fst snd length].
      destruct (remaining_shuffled shuffle Hperm self sid q 0 Hnd Hq Hk) as [_ [_ H3]].
      rewrite length_list_upto_nonneg by lia. lia.
    + rewrite (select_not_found shuffle self sid Hs Hall). exact Hup.
  - unfold PacketQuiz.select_questions. rewrite Hs. exact Hup.
Qed.

(** C1 (as stated): the total of the final report would be the number of
    chosen questions.  With 60 questions asked of the bank of 50, the 50
    questions are chosen and answered and the report gives 60 as total. *)
Lemma report_total_not_selected :
  let quiz := TCPFlagsQuiz.new 60 in
  let selected := snd (TCPFlagsQuiz.select_questions (fun l => l) quiz) in
  length selected = 50 /\
  exists (self' : TCPFlagsQuiz.t) (events : list TCPFlagsQuiz.event) (p : Q),
    TCPFlagsQuiz.run_quiz (fun l => l) quiz (fun _ => "a") = Ok (self', events) /\
    last events (TCPFlagsQuiz.EvIntro 0)
    = TCPFlagsQuiz.EvScore (TCPFlagsQuiz.score self') 60 p /\
    60%Z <> Z.of_nat (length selected).
Proof.
  cbv zeta. split; [reflexivity |].
  destruct (TCPFlagsQuiz.run_quiz (fun l => l) (TCPFlagsQuiz.new 60) (fun _ => "a"))
    as [[self' events] | e] eqn:E; [| vm_compute in E; discriminate E].
  exists self', events.
  assert (H : exists p, last events (TCPFlagsQuiz.EvIntro 0)
                        = TCPFlagsQuiz.EvScore (TCPFlagsQuiz.score self') 60 p).
  { vm_compute in E. injection E as <- <-. eexists. reflexivity. }
  destruct H as [p Hp]. exists p.
  split; [reflexivity |]. split; [exact Hp |]. vm_compute. discriminate.
Qed.

(** C1 (amended): in both scripts, when [run_quiz] returns, the last thing
    printed is the report of [score], [num_questions] and
    [score / num_questions * 100], where [num_questions] is the count that
    was asked for and [score] has grown by at most one per chosen question.
    The total is the number of chosen questions when the count is between 1
    and the size of the bank (whose ids are distinct); a larger count is
    reported as it was asked. *)
Theorem final_report :
  forall (shuffle_f : list TCPFlagsQuiz.Question -> list TCPFlagsQuiz.Question)
         (shuffle_p : list PacketQuiz.Question -> list PacketQuiz.Question),
    (forall l, Permutation l (shuffle_f l)) ->
    (forall l, Permutation l (shuffle_p l)) ->
    (forall (self self' : TCPFlagsQuiz.t) (answers : nat -> string)
            (events : list TCPFlagsQuiz.event),
        TCPFlagsQuiz.run_quiz shuffle_f self answers = Ok (self', events) ->
        let selected := snd (TCPFlagsQuiz.select_questions shuffle_f self) in
        let n := TCPFlagsQuiz.num_questions self in
        exists (front : list TCPFlagsQuiz.event) (p : Q),
          events = (front ++ [TCPFlagsQuiz.EvScore (TCPFlagsQuiz.score self') n p])%list /\
          n <> 0%Z /\
          p = Qmult (Qdiv (inject_Z (TCPFlagsQuiz.score self')) (inject_Z n))
                    (inject_Z 100) /\
          (TCPFlagsQuiz.score self <= TCPFlagsQuiz.score self'
           <= TCPFlagsQuiz.score self + Z.of_nat (length selected))%Z /\
          ((1 <= n <= Z.of_nat (length (TCPFlagsQuiz.questions self)))%Z ->
           Z.of_nat (length selected) = n)) /\
    (forall (self self' : PacketQuiz.t) (answers : nat -> string)
            (events : list PacketQuiz.event),
        PacketQuiz.run_quiz shuffle_p self answers = Ok (self', events) ->
        let selected := snd (fst (PacketQuiz.select_questions shuffle_p self)) in
        let n := PacketQuiz.num_questions self in
        exists (front : list PacketQuiz.event) (p : Q),
          events = (front ++ [PacketQuiz.EvScore (PacketQuiz.score self') n p])%list /\
          n <> 0%Z /\
          p = Qmult (Qdiv (inject_Z (PacketQuiz.score self')) (inject_Z n))
                    (inject_Z 100) /\
          (PacketQuiz.score self <= PacketQuiz.score self'
           <= PacketQuiz.score self + Z.of_nat (length selected))%Z /\
          ((1 <= n <= Z.of_nat (length (PacketQuiz.questions self)))%Z ->
           NoDup (map PacketQuiz.q_id (PacketQuiz.questions self)) ->
           Z.of_nat (length selected) = n)).
Proof.
  intros shuffle_f shuffle_p Hf Hp. split.
  - intros self self' answers events H selected n.
    unfold TCPFlagsQuiz.run_quiz in H. cbv zeta in H.
    destruct (TCPFlagsQuiz.select_questions shuffle_f self) as [s0 sel] eqn:S.
    unfold TCPFlagsQuiz.select_questions in S. injection S as S0 S1.
    subst selected. cbn [snd].
    destruct (TCPFlagsQuiz.ask_all s0 0 sel answers) as [[s1 ev1] | e] eqn:E;
      [| discriminate H].
    cbn [bind fst snd] in H.
    apply flags_ask_all_score in E. destruct E as [E1 E2].
    rewrite <- S0 in E1, E2.
    cbn [TCPFlagsQuiz.set_questions TCPFlagsQuiz.num_questions TCPFlagsQuiz.score]
      in E1, E2.
    rewrite E1 in H. fold n in H.
    destruct (percentage (TCPFlagsQuiz.score s1) n) as [p | e] eqn:P;
      [| discriminate H].
    cbn [bind] in H. injection H as <- <-.
    exists (TCPFlagsQuiz.EvIntro n :: ev1), p.
    apply percentage_returns in P. destruct P as [P1 P2].
    split; [reflexivity |]. split; [exact P1 |]. split; [exact P2 |].
    split; [exact E2 |].
    intros Hn. rewrite <- S1.
    cbn [TCPFlagsQuiz.set_questions TCPFlagsQuiz.num_questions TCPFlagsQuiz.questions].
    rewrite length_list_upto_nonneg by lia.
    rewrite <- (Permutation_length (Hf _)). lia.
  - intros self self' answers events H selected n.
    unfold PacketQuiz.run_quiz in H. cbv zeta in H.
    destruct (packet_select_keeps shuffle_p self) as [K1 K2].
    destruct (PacketQuiz.select_questions shuffle_p self) as [[s0 sel] notice] eqn:S.
    cbn [fst snd] in K1, K2. subst selected. cbn [fst snd].
    destruct (PacketQuiz.ask_all s0 0 sel answers) as [[s1 ev1] | e] eqn:E;
      [| discriminate H].
    cbn [bind fst snd] in H.
    apply packet_ask_all_score in E. destruct E as [E1 E2].
    rewrite K1 in E1. rewrite K2 in E2. rewrite E1 in H. fold n in H.
    destruct (percentage (PacketQuiz.score s1) n) as [p | e] eqn:P;
      [| discriminate H].
    cbn [bind] in H. injection H as <- <-.
    exists (PacketQuiz.EvIntro n :: notice ++ ev1)%list, p.
    apply percentage_returns in P. destruct P as [P1 P2].
    split; [cbn [app]; rewrite <- app_assoc; reflexivity |].
    split; [exact P1 |]. split; [exact P2 |]. split; [exact E2 |].
    intros Hn Hnd.
    pose proof (packet_select_length shuffle_p self Hp Hn Hnd) as L.
    rewrite S in L. exact L.
Qed.

Lemma final_report_witness :
  exists (self' : TCPFlagsQuiz.t) (front : list TCPFlagsQuiz.event) (p : Q),
    TCPFlagsQuiz.run_quiz (@rev _) (TCPFlagsQuiz.new 3) (fun _ => "c")
    = Ok (self', (front ++ [TCPFlagsQuiz.EvScore (TCPFlagsQuiz.score self') 3 p])%list) /\
    TCPFlagsQuiz.score self' = 2%Z /\
    p = Qmult (Qdiv (inject_Z 2) (inject_Z 3)) (inject_Z 100) /\
    Qeq p (200 # 3).
Proof.
  destruct (TCPFlagsQuiz.run_quiz (@rev _) (TCPFlagsQuiz.new 3) (fun _ => "c"))
    as [[self' events] | e] eqn:E; [| vm_compute in E; discriminate E].
  destruct (proj1 (final_report (@rev _) (@rev _) (rev_shuffle _) (rev_shuffle _))
              (TCPFlagsQuiz.new 3) self' (fun _ => "c") events E)
    as [front [p [H1 [_ [H2 _]]]]].
  assert (S : TCPFlagsQuiz.score self' = 2%Z).
  { pose proof E as E'. vm_compute in E'. injection E' as S _.
    rewrite <- S. reflexivity. }
  exists self', front, p. rewrite H1.
  split; [reflexivity |]. split; [exact S |].
  cbv zeta in H2. rewrite S in H2.
  split; [exact H2 |]. rewrite H2. reflexivity.
Defined.

(* ------------------------------------------------------------------ *)
(** ** From the typed letter to the option *)

Lemma letter_in_range (options : list string) (k : nat) :
  k < 4 -> k < length options ->
  letter_to_option (upper_letter k) options = nth k options "" /\
  letter_to_option (lower_letter k) options = nth k options "".
Proof.
  intros Hk Hlen.
  assert (Hz : (Z.of_nat k <? Z.of_nat (length options))%Z = true)
    by (apply Z.ltb_lt; lia).
  destruct k as [| [| [| [| k]]]]; try lia;
    unfold letter_to_option, upper_letter, lower_letter;
    cbn [Py.upper Py.str_in Py.upper_char nat_of_ascii];
    simpl; simpl in Hz; rewrite Hz; split; reflexivity.
Qed.

Lemma letter_out_of_range (options : list string) (k : nat) :
  k < 4 -> length options <= k ->
  letter_to_option (upper_letter k) options = "" /\
  letter_to_option (lower_letter k) options = "".
Proof.
  intros Hk Hlen.
  assert (Hz : (Z.of_nat k <? Z.of_nat (length options))%Z = false)
    by (apply Z.ltb_ge; lia).
  destruct k as [| [| [| [| k]]]]; try lia;
    unfold letter_to_option, upper_letter, lower_letter;
    simpl; simpl in Hz; rewrite Hz; split; reflexivity.
Qed.

Lemma letter_beyond_D (options : list string) (k : nat) :
  4 <= k < 26 ->
  letter_to_option (upper_letter k) options = upper_letter k /\
  letter_to_option (lower_letter k) options = lower_letter k.
Proof.
  intros Hk.
  do 26 (destruct k as [| k]; [try lia; split; reflexivity |]).
  lia.
Qed.

Lemma free_text_unchanged (user_answer : string) (options : list string) :
  Py.str_in (Py.upper user_answer) ["A"; "B"; "C"; "D"] = false ->
  letter_to_option user_answer options = user_answer.
Proof. intros H. unfold letter_to_option. rewrite H. reflexivity. Qed.

Lemma empty_answer_packet (c : string) :
  PacketQuiz.check_answer "" c = Ok (normalize c =? "")%string.
Proof.
  rewrite packet_check_answer_unfold. cbv zeta.
  change (normalize "") with "".
  rewrite (String.eqb_sym "" (normalize c)).
  destruct (normalize c =? "")%string; [reflexivity |].
  cbn [Py.str_in Py.startswith]. rewrite !andb_false_r. reflexivity.
Qed.

Lemma flag_loop_empty (c' : string) :
  TCPFlagsQuiz.flag_loop TCPFlagsQuiz.flag_patterns "" c' = false.
Proof.
  unfold TCPFlagsQuiz.flag_patterns. cbn [TCPFlagsQuiz.flag_loop].
  repeat match goal with
         | |- context [Py.str_in c' ?l && Py.str_in ?x ?l] =>
             replace (Py.str_in c' l && Py.str_in x l) with false
               by (symmetry; apply andb_false_r)
         end.
  reflexivity.
Qed.

Lemma empty_answer_flags (c : string) :
  TCPFlagsQuiz.check_answer "" c = Ok (normalize c =? "")%string.
Proof.
  rewrite flags_check_answer_unfold. cbv zeta.
  change (normalize "") with "".
  rewrite (String.eqb_sym "" (normalize c)).
  destruct (normalize c =? "")%string; [reflexivity |].
  cbn [Py.str_in Py.startswith]. rewrite !andb_false_r. cbn [andb orb].
  rewrite flag_loop_empty. reflexivity.
Qed.

(** C2 (as stated): a letter outside the range of the options would reach
    the matcher unchanged.  For the two options of a true-or-false
    question, the typed [D] reaches it as the empty text. *)
Lemma out_of_range_letter_not_passed :
  letter_to_option "D" ["True"; "False"] = "" /\
  letter_to_option "D" ["True"; "False"] <> "D".
Proof. split; [reflexivity | vm_compute; discriminate]. Qed.

(** C2 (amended): in both scripts, for a typed line and a question of
    ASCII text, the text given to [check_answer] is [letter_to_option] of
    the stripped line.  A single letter A to D, in
    either case, whose position is within the options is replaced by the
    option at that position; a letter A to D beyond the last option is
    replaced by the empty text, which matches only a blank canonical answer;
    every other text, a later letter included, is passed unchanged. *)
Theorem letter_resolution :
  (forall (options : list string) (k : nat) (user_answer : string),
      user_answer = upper_letter k \/ user_answer = lower_letter k ->
      (k < 4 -> k < length options ->
       letter_to_option user_answer options = nth k options "") /\
      (k < 4 -> length options <= k ->
       letter_to_option user_answer options = "") /\
      (4 <= k < 26 ->
       letter_to_option user_answer options = user_answer)) /\
  (forall (user_answer : string) (options : list string),
      Py.str_in (Py.upper user_answer) ["A"; "B"; "C"; "D"] = false ->
      letter_to_option user_answer options = user_answer) /\
  (forall c : string,
      is_ascii c = true ->
      PacketQuiz.check_answer "" c = Ok (normalize c =? "")%string /\
      TCPFlagsQuiz.check_answer "" c = Ok (normalize c =? "")%string) /\
  (forall (self : TCPFlagsQuiz.t) (i : nat) (q : TCPFlagsQuiz.Question) (typed : string),
      is_ascii typed = true -> ascii_flags_question q = true ->
      exists (b : bool) (events : list TCPFlagsQuiz.event),
        TCPFlagsQuiz.check_answer
          (letter_to_option (Py.strip typed) (TCPFlagsQuiz.q_options q))
          (TCPFlagsQuiz.q_answer q) = Ok b /\
        TCPFlagsQuiz.ask self i q typed = Ok (TCPFlagsQuiz.add_score self b, events)) /\
  (forall (self : PacketQuiz.t) (i : nat) (q : PacketQuiz.Question) (typed : string)
          (packet : PacketQuiz.Packet),
      is_ascii typed = true -> ascii_packet_question q = true ->
      Py.list_get (PacketQuiz.packet_data self) (PacketQuiz.q_packet_index q) = Ok packet ->
      exists (b : bool) (events : list PacketQuiz.event),
        PacketQuiz.check_answer
          (letter_to_option (Py.strip typed) (PacketQuiz.q_options q))
          (PacketQuiz.q_answer q) = Ok b /\
        PacketQuiz.ask self i q typed = Ok (PacketQuiz.add_score self b, events)).
Proof.
  split; [| split; [| split; [| split]]].
  - intros options k user_answer Hu. split; [| split].
    + intros Hk Hlen. destruct (letter_in_range options k Hk Hlen) as [H1 H2].
      destruct Hu as [-> | ->]; assumption.
    + intros Hk Hlen. destruct (letter_out_of_range options k Hk Hlen) as [H1 H2].
      destruct Hu as [-> | ->]; assumption.
    + intros Hk. destruct (letter_beyond_D options k Hk) as [H1 H2].
      destruct Hu as [-> | ->]; assumption.
  - exact free_text_unchanged.
  - intros c _. split; [apply empty_answer_packet | apply empty_answer_flags].
  - intros self i q typed _ _. unfold TCPFlagsQuiz.ask.
    destruct (flags_check_answer_returns
                (letter_to_option (Py.strip typed) (TCPFlagsQuiz.q_options q))
                (TCPFlagsQuiz.q_answer q)) as [b Hb].
    rewrite Hb. exists b. eexists. split; reflexivity.
  - intros self i q typed packet _ _ Hp. unfold PacketQuiz.ask. rewrite Hp.
    destruct (packet_check_answer_returns
                (letter_to_option (Py.strip typed) (PacketQuiz.q_options q))
                (PacketQuiz.q_answer q)) as [b Hb].
    cbn [bind]. rewrite Hb. cbn [bind].
    destruct (PacketQuiz.parse_hex_location _) as [offset num_bytes].
    exists b. eexists. split; reflexivity.
Qed.

Lemma letter_resolution_witness :
  let q2 := nth 1 TCPFlagsQuiz.flags_bank (TCPFlagsQuiz.mkQuestion 0 "" [] "" "") in
  letter_to_option "b" ["0x0800"; "0x0806"; "0x8035"; "0x86DD"] = "0x0806" /\
  letter_to_option "C" ["True"; "False"] = "" /\
  letter_to_option "e" ["True"; "False"] = "e" /\
  letter_to_option "0x806" ["0x0800"; "0x0806"; "0x8035"; "0x86DD"] = "0x806" /\
  is_ascii "True" = true /\
  TCPFlagsQuiz.check_answer "" "True" = Ok false /\
  is_ascii " b " = true /\ ascii_flags_question q2 = true /\
  exists events : list TCPFlagsQuiz.event,
    TCPFlagsQuiz.ask (TCPFlagsQuiz.new 1) 0 q2 " b "
    = Ok (TCPFlagsQuiz.add_score (TCPFlagsQuiz.new 1) true, events).
Proof.
  cbv zeta.
  split; [| split; [| split; [| split; [| split; [| split; [| split; [| split]]]]]]].
  - exact (proj1 (proj1 letter_resolution
                    ["0x0800"; "0x0806"; "0x8035"; "0x86DD"] 1 "b"
                    (or_intror eq_refl))
             ltac:(lia) ltac:(simpl; lia)).
  - exact (proj1 (proj2 (proj1 letter_resolution ["True"; "False"] 2 "C"
                           (or_introl eq_refl)))
             ltac:(lia) ltac:(simpl; lia)).
  - exact (proj2 (proj2 (proj1 letter_resolution ["True"; "False"] 4 "e"
                           (or_intror eq_refl)))
             ltac:(lia)).
  - exact (proj1 (proj2 letter_resolution) "0x806" _ eq_refl).
  - reflexivity.
  - exact (proj2 (proj1 (proj2 (proj2 letter_resolution)) "True" eq_refl)).
  - reflexivity.
  - reflexivity.
  - destruct (proj1 (proj2 (proj2 (proj2 letter_resolution)))
                (TCPFlagsQuiz.new 1) 0
                (nth 1 TCPFlagsQuiz.flags_bank (TCPFlagsQuiz.mkQuestion 0 "" [] "" ""))
                " b " eq_refl eq_refl) as [b [events [Hb Ha]]].
    exists events. rewrite Ha. f_equal. f_equal. f_equal.
    vm_compute in Hb. injection Hb as <-. reflexivity.
Defined.

(* ------------------------------------------------------------------ *)
(** ** Slices of texts *)

Section Slices.

Lemma length_take (n : nat) (s : string) :
  String.length (Py.take n s) = Nat.min n (String.length s).
Proof.
  revert s. induction n as [| n IH]; intros [| c s]; simpl; try reflexivity.
  rewrite IH. reflexivity.
Qed.

Lemma length_drop (n : nat) (s : string) :
  String.length (Py.drop n s) = String.length s - n.
Proof.
  revert s. induction n as [| n IH]; intros [| c s]; simpl; try reflexivity.
  apply IH.
Qed.

Lemma take_all (n : nat) (s : string) :
  String.length s <= n -> Py.take n s = s.
Proof.
  revert s. induction n as [| n IH]; intros [| c s]; simpl; intros H;
    try reflexivity; try lia.
  rewrite IH by lia. reflexivity.
Qed.

Lemma drop_drop (a b : nat) (s : string) :
  Py.drop a (Py.drop b s) = Py.drop (b + a) s.
Proof.
  revert s. induction b as [| b IH]; intros s; simpl; [reflexivity |].
  destruct s as [| c s]; [destruct a; reflexivity | apply IH].
Qed.

Lemma take_add (a b : nat) (s : string) :
  Py.take (a + b) s = Py.take a s ++ Py.take b (Py.drop a s).
Proof.
  revert s. induction a as [| a IH]; intros s; simpl; [reflexivity |].
  destruct s as [| c s]; simpl; [destruct b; reflexivity |].
  rewrite IH. reflexivity.
Qed.

Lemma take_take (a b : nat) (s : string) :
  Py.take a (Py.take b s) = Py.take (Nat.min a b) s.
Proof.
  revert b s. induction a as [| a IH]; intros [| b] [| c s]; simpl; try reflexivity.
  rewrite IH. reflexivity.
Qed.

Lemma drop_take (a b : nat) (s : string) :
  Py.drop a (Py.take b s) = Py.take (b - a) (Py.drop a s).
Proof.
  revert b s. induction a as [| a IH]; intros b s; simpl.
  - rewrite Nat.sub_0_r. reflexivity.
  - destruct b as [| b], s as [| c s]; simpl; try reflexivity;
      [destruct (b - a); reflexivity | apply IH].
Qed.

Lemma slice_of_chunk (s : string) (i j : nat) :
  j + 2 <= 32 ->
  Py.slice (Py.slice s i (i + 32)) j (j + 2) = Py.slice s (i + j) (i + j + 2).
Proof.
  intros H. unfold Py.slice.
  replace (i + 32 - i) with 32 by lia.
  replace (j + 2 - j) with 2 by lia.
  replace (i + j + 2 - (i + j)) with 2 by lia.
  rewrite drop_take, take_take, drop_drop.
  replace (Nat.min 2 (32 - j)) with 2 by lia. reflexivity.
Qed.

Lemma length_chunk (s : string) (i : nat) :
  String.length (Py.slice s i (i + 32)) = Nat.min 32 (String.length s - i).
Proof.
  unfold Py.slice. replace (i + 32 - i) with 32 by lia.
  rewrite length_take, length_drop. reflexivity.
Qed.

Lemma length_append (a b : string) :
  String.length (a ++ b) = String.length a + String.length b.
Proof. induction a as [| c a IH]; simpl; [reflexivity | rewrite IH; reflexivity]. Qed.

Lemma append_assoc (a b c : string) : (a ++ b) ++ c = a ++ (b ++ c).
Proof. induction a as [| x a IH]; simpl; [reflexivity | rewrite IH; reflexivity]. Qed.

Lemma append_nil_r (a : string) : a ++ "" = a.
Proof. induction a as [| x a IH]; simpl; [reflexivity | rewrite IH; reflexivity]. Qed.

End Slices.

(** ** [range] with a step *)

Lemma range_step_length (stop step : nat) :
  length (Py.range_step stop step) = (stop + step - 1) / step.
Proof. unfold Py.range_step. rewrite length_map, length_seq. reflexivity. Qed.

Lemma range_step_nth (stop step m : nat) :
  m < (stop + step - 1) / step ->
  nth m (Py.range_step stop step) 0 = m * step.
Proof.
  intros H. unfold Py.range_step.
  transitivity ((fun k => k * step) (nth m (seq 0 ((stop + step - 1) / step)) 0)).
  - exact (map_nth (fun k => k * step) _ 0 m).
  - cbv beta. rewrite seq_nth by exact H. reflexivity.
Qed.

Lemma map_range_step {A : Type} (f : nat -> A) (stop step : nat) :
  map f (Py.range_step stop step)
  = map (fun k => f (k * step)) (seq 0 ((stop + step - 1) / step)).
Proof. unfold Py.range_step. rewrite map_map. reflexivity. Qed.

(* ------------------------------------------------------------------ *)
(** ** The groups of the hex dump *)

Ltac div_facts a b :=
  pose proof (Nat.div_mod_eq a b);
  pose proof (Nat.mod_upper_bound a b ltac:(lia)).

Lemma format_byte_render (s : string) (o n : option Z) (k : nat) :
  PacketQuiz.format_byte o n k (byte_at s k) = render s o n k.
Proof.
  unfold PacketQuiz.format_byte, render, highlighted, mark.
  destruct o as [o |], n as [n |]; reflexivity.
Qed.

Lemma map_seq_shift' {A : Type} (g : nat -> A) (a c : nat) :
  map (fun t => g (a + t)) (seq 0 c) = map g (seq a c).
Proof.
  revert a. induction c as [| c IH]; intros a; [reflexivity |].
  cbn [seq map]. rewrite Nat.add_0_r. f_equal.
  rewrite <- (IH (S a)), <- seq_shift, map_map.
  apply map_ext. intros t. f_equal. lia.
Qed.

(** The groups of line [m] are the renderings of bytes [16 m] and
    following, as many as the line holds. *)
Lemma formatted_bytes_line (s : string) (o n : option Z) (m : nat) :
  PacketQuiz.formatted_bytes s o n (m * 32)
  = map (render s o n)
        (seq (16 * m) ((Nat.min 32 (String.length s - m * 32) + 1) / 2)).
Proof.
  unfold PacketQuiz.formatted_bytes. cbv zeta.
  rewrite map_range_step, length_chunk.
  replace (Nat.min 32 (String.length s - m * 32) + 2 - 1)
    with (Nat.min 32 (String.length s - m * 32) + 1) by lia.
  rewrite <- (map_seq_shift' (render s o n) (16 * m)).
  apply map_ext_in. intros t Ht. apply in_seq in Ht.
  set (c := Nat.min 32 (String.length s - m * 32)) in *.
  assert (Hc : c <= 32) by (subst c; lia).
  div_facts (c + 1) 2.
  assert (Ht' : t * 2 + 2 <= 32) by lia.
  rewrite (slice_of_chunk s (m * 32) (t * 2) Ht').
  replace ((m * 32 + t * 2) / 2) with (16 * m + t).
  - rewrite <- format_byte_render. unfold byte_at. f_equal.
    f_equal; lia.
  - div_facts (m * 32 + t * 2) 2. lia.
Qed.

Lemma concat_lines {A : Type} (g : nat -> A) (len : nat) :
  forall L : nat,
    L <= (len + 32 - 1) / 32 ->
    concat (map (fun m => map g (seq (16 * m) ((Nat.min 32 (len - m * 32) + 1) / 2)))
                (seq 0 L))
    = map g (seq 0 (Nat.min ((len + 1) / 2) (16 * L))).
Proof.
  induction L as [| L IH]; intros HL.
  - simpl. rewrite Nat.min_0_r. reflexivity.
  - rewrite seq_S, map_app, concat_app, IH by lia.
    cbn [map concat Nat.add]. rewrite app_nil_r, <- map_app. f_equal.
    div_facts (len + 32 - 1) 32. div_facts (len + 1) 2.
    div_facts (Nat.min 32 (len - L * 32) + 1) 2.
    replace (Nat.min ((len + 1) / 2) (16 * L)) with (16 * L) by lia.
    rewrite <- seq_app. f_equal. lia.
Qed.

Lemma rendered_groups_spec (s : string) (o n : option Z) :
  rendered_groups s o n = map (render s o n) (seq 0 (byte_count s)).
Proof.
  unfold rendered_groups, byte_count.
  rewrite map_range_step.
  rewrite (map_ext _ _ (fun m => formatted_bytes_line s o n m)).
  rewrite concat_lines by lia. f_equal. f_equal.
  div_facts (String.length s + 32 - 1) 32. div_facts (String.length s + 1) 2.
  lia.
Qed.

(* ------------------------------------------------------------------ *)
(** ** The offset label *)

Lemma all_chars_append (p : ascii -> bool) (a b : string) :
  all_chars p (a ++ b) = all_chars p a && all_chars p b.
Proof.
  induction a as [| c a IH]; simpl; [reflexivity |].
  rewrite IH, andb_assoc. reflexivity.
Qed.

Lemma hex_digit_spec (d : nat) :
  d < 16 ->
  is_lower_hex (Py.hex_digit d) = true /\
  Py.hex_val (Py.hex_digit d) = Some (Z.of_nat d) /\
  (Py.hex_digit d =? "_")%char = false.
Proof.
  intros H.
  do 16 (destruct d as [| d]; [repeat split; reflexivity |]).
  lia.
Qed.

(** What [to_hex_aux] puts in front of the accumulator: the digits of
    [n]. *)
Lemma to_hex_aux_spec (fuel : nat) :
  forall (n : nat) (acc : string),
    n < 16 ^ fuel -> 1 <= fuel ->
    exists ds : string,
      Py.to_hex_aux fuel n acc = ds ++ acc /\
      1 <= String.length ds /\
      all_chars is_lower_hex ds = true /\
      (forall d, 1 <= d -> n < 16 ^ d -> String.length ds <= d) /\
      (forall (rest : string) (p : bool) (nd : nat) (a0 : Z),
          Py.int16_digits (ds ++ rest) p nd a0
          = Py.int16_digits rest false (nd + String.length ds)
              (a0 * 16 ^ Z.of_nat (String.length ds) + Z.of_nat n)%Z).
Proof.
  induction fuel as [| fuel IH]; intros n acc Hn Hf; [lia |].
  cbn [Py.to_hex_aux]. cbv zeta.
  pose proof (Nat.div_mod_eq n 16) as Hdm.
  pose proof (Nat.mod_upper_bound n 16 ltac:(lia)) as Hmod.
  destruct (hex_digit_spec (n mod 16) Hmod) as [Hlow [Hval Hus]].
  destruct (Nat.eqb_spec (n / 16) 0) as [Hz | Hnz].
  - exists (String (Py.hex_digit (n mod 16)) "").
    split; [reflexivity |]. split; [simpl; lia |].
    split; [cbn [all_chars]; rewrite Hlow; reflexivity |].
    split; [intros d Hd _; simpl; lia |].
    intros rest p nd a0. cbn [append Py.int16_digits]. rewrite Hus, Hval.
    cbn [String.length]. f_equal; [lia |].
    change (Z.of_nat 1) with 1%Z. lia.
  - assert (Hf' : 1 <= fuel).
    { destruct fuel; [simpl in Hn; lia | lia]. }
    assert (Hn' : n / 16 < 16 ^ fuel).
    { rewrite Nat.pow_succ_r' in Hn. lia. }
    destruct (IH (n / 16) (String (Py.hex_digit (n mod 16)) acc) Hn' Hf')
      as [ds [E [Hlen [Hall [Hbound Hparse]]]]].
    exists (ds ++ String (Py.hex_digit (n mod 16)) "").
    split; [rewrite E, append_assoc; reflexivity |].
    split; [rewrite length_append; simpl; lia |].
    split; [rewrite all_chars_append, Hall; cbn [all_chars]; rewrite Hlow; reflexivity |].
    split.
    + intros d Hd Hnd. rewrite length_append. cbn [String.length].
      destruct d as [| d]; [lia |].
      destruct d as [| d]; [simpl in Hnd; lia |].
      assert (String.length ds <= S d); [| lia].
      apply Hbound; [lia |]. rewrite Nat.pow_succ_r' in Hnd. lia.
    + intros rest p nd a0. rewrite append_assoc, Hparse.
      cbn [append Py.int16_digits]. rewrite Hus, Hval.
      rewrite length_append. cbn [String.length]. f_equal; [lia |].
      replace (Z.of_nat (String.length ds + 1)) with (Z.succ (Z.of_nat (String.length ds)))
        by lia.
      rewrite Z.pow_succ_r by lia.
      replace (Z.of_nat n) with (16 * Z.of_nat (n / 16) + Z.of_nat (n mod 16))%Z by lia.
      ring.
Qed.

Lemma to_hex_spec (n : nat) :
  1 <= String.length (Py.to_hex n) /\
  all_chars is_lower_hex (Py.to_hex n) = true /\
  (forall d, 1 <= d -> n < 16 ^ d -> String.length (Py.to_hex n) <= d) /\
  (forall (p : bool) (nd : nat),
      Py.int16_digits (Py.to_hex n) p nd 0%Z = Ok (Z.of_nat n)).
Proof.
  unfold Py.to_hex.
  assert (Hn : n < 16 ^ S n).
  { pose proof (Nat.pow_gt_lin_r 16 (S n) ltac:(lia)). lia. }
  destruct (to_hex_aux_spec (S n) n "" Hn ltac:(lia))
    as [ds [E [Hlen [Hall [Hbound Hparse]]]]].
  rewrite E, append_nil_r.
  split; [exact Hlen |]. split; [exact Hall |]. split; [exact Hbound |].
  intros p nd. rewrite <- (append_nil_r ds), Hparse. cbn [Py.int16_digits].
  destruct (nd + String.length ds) as [| l] eqn:L; [lia |].
  f_equal; lia.
Qed.

Lemma lower_hex_not_space (c : ascii) :
  is_lower_hex c = true -> Py.is_space c = false.
Proof.
  destruct c as [[] [] [] [] [] [] [] []]; intros H;
    solve [reflexivity | discriminate H].
Qed.

Lemma strip_lower_hex (s : string) :
  all_chars is_lower_hex s = true -> Py.strip s = s.
Proof.
  intros H. unfold Py.strip.
  assert (R : Py.rstrip s = s).
  { induction s as [| c r IH]; [reflexivity |].
    cbn [all_chars] in H. apply andb_prop in H. destruct H as [Hc Hr].
    cbn [Py.rstrip]. rewrite (IH Hr), (lower_hex_not_space c Hc).
    destruct r; reflexivity. }
  rewrite R. destruct s as [| c r]; [reflexivity |].
  cbn [all_chars] in H. apply andb_prop in H. destruct H as [Hc _].
  cbn [Py.lstrip]. rewrite (lower_hex_not_space c Hc). reflexivity.
Qed.

Lemma lower_hex_not_c_space (c : ascii) :
  is_lower_hex c = true -> Py.is_c_space c = false.
Proof.
  destruct c as [[] [] [] [] [] [] [] []]; intros H;
    solve [reflexivity | discriminate H].
Qed.

Lemma int_strip_lower_hex (s : string) :
  all_chars is_lower_hex s = true -> Py.int_strip s = s.
Proof.
  intros H. unfold Py.int_strip.
  assert (R : Py.int_rstrip s = s).
  { induction s as [| c r IH]; [reflexivity |].
    cbn [all_chars] in H. apply andb_prop in H. destruct H as [Hc Hr].
    cbn [Py.int_rstrip]. rewrite (IH Hr), (lower_hex_not_c_space c Hc).
    destruct r; reflexivity. }
  rewrite R. destruct s as [| c r]; [reflexivity |].
  cbn [all_chars] in H. apply andb_prop in H. destruct H as [Hc _].
  cbn [Py.int_lstrip]. rewrite (lower_hex_not_c_space c Hc). reflexivity.
Qed.

Lemma int16_lower_hex (s : string) :
  all_chars is_lower_hex s = true ->
  Py.int16 s = Py.int16_digits s false 0 0%Z.
Proof.
  intros H. unfold Py.int16. rewrite (int_strip_lower_hex s H).
  destruct s as [| c0 r]; [reflexivity |].
  cbn [all_chars] in H. apply andb_prop in H. destruct H as [Hc Hr].
  destruct c0 as [[] [] [] [] [] [] [] []]; try discriminate Hc;
    try reflexivity.
  destruct r as [| x r]; [reflexivity |].
  cbn [all_chars] in Hr. apply andb_prop in Hr. destruct Hr as [Hx _].
  destruct x as [[] [] [] [] [] [] [] []]; try discriminate Hx; reflexivity.
Qed.

Lemma length_zeros (k : nat) : String.length (Py.zeros k) = k.
Proof. induction k as [| k IH]; simpl; [reflexivity | rewrite IH; reflexivity]. Qed.

Lemma all_chars_zeros (k : nat) : all_chars is_lower_hex (Py.zeros k) = true.
Proof. induction k as [| k IH]; [reflexivity | exact IH]. Qed.

Lemma int16_digits_zeros (k : nat) (rest : string) :
  (forall (p : bool) (nd : nat), exists v, Py.int16_digits rest p nd 0%Z = Ok v /\
      forall p' nd', Py.int16_digits rest p' nd' 0%Z = Ok v) ->
  forall (p : bool) (nd : nat),
    Py.int16_digits (Py.zeros k ++ rest) p nd 0%Z = Py.int16_digits rest false 0 0%Z.
Proof.
  intros Hrest. induction k as [| k IH]; intros p nd.
  - cbn [Py.zeros append]. destruct (Hrest p nd) as [v [E Hv]].
    rewrite E, (Hv false 0). reflexivity.
  - cbn [Py.zeros append Py.int16_digits].
    change ("0" =? "_")%char with false. change (Py.hex_val "0") with (Some 0%Z).
    cbv iota. change (16 * 0 + 0)%Z with 0%Z. apply IH.
Qed.

(** The label of a line: at least four characters, four for an offset
    below 65536, lowercase base-16 digits only, and a numeral of the
    offset. *)
Lemma format_04x_spec (k : nat) :
  4 <= String.length (Py.format_04x k) /\
  (k < 16 ^ 4 -> String.length (Py.format_04x k) = 4) /\
  all_chars is_lower_hex (Py.format_04x k) = true /\
  Py.int16 (Py.format_04x k) = Ok (Z.of_nat k).
Proof.
  destruct (to_hex_spec k) as [Hlen [Hall [Hbound Hparse]]].
  unfold Py.format_04x. cbv zeta.
  assert (Hchars : all_chars is_lower_hex
                     (Py.zeros (4 - String.length (Py.to_hex k)) ++ Py.to_hex k) = true).
  { rewrite all_chars_append, all_chars_zeros, Hall. reflexivity. }
  split; [rewrite length_append, length_zeros; lia |].
  split.
  - intros Hk. rewrite length_append, length_zeros.
    assert (String.length (Py.to_hex k) <= 4); [| lia].
    apply Hbound; [lia |]. exact Hk.
  - split; [exact Hchars |].
    rewrite (int16_lower_hex _ Hchars), int16_digits_zeros.
    + apply Hparse.
    + intros p nd. exists (Z.of_nat k). split; [apply Hparse |].
      intros p' nd'. apply Hparse.
Qed.

(** ** The lines of the hex dump *)

Lemma nth_map_seq {A : Type} (f : nat -> A) (L m : nat) (d : A) :
  m < L -> nth m (map f (seq 0 L)) d = f m.
Proof.
  intros H. rewrite (nth_indep _ d (f 0)) by (rewrite length_map, length_seq; exact H).
  rewrite map_nth, seq_nth by exact H. reflexivity.
Qed.

Lemma formatted_lines_length (s : string) (o n : option Z) :
  length (PacketQuiz.formatted_lines s o n) = (String.length s + 31) / 32.
Proof.
  unfold PacketQuiz.formatted_lines. rewrite length_map, range_step_length.
  replace (String.length s + 32 - 1) with (String.length s + 31) by lia.
  reflexivity.
Qed.

Lemma formatted_lines_nth (s : string) (o n : option Z) (m : nat) :
  m < (String.length s + 31) / 32 ->
  nth m (PacketQuiz.formatted_lines s o n) ""
  = Py.format_04x (16 * m) ++ "  "
    ++ Py.join " " (PacketQuiz.formatted_bytes s o n (m * 32)).
Proof.
  intros H. unfold PacketQuiz.formatted_lines. rewrite map_range_step.
  replace (String.length s + 32 - 1) with (String.length s + 31) by lia.
  rewrite nth_map_seq by exact H. cbv zeta.
  replace (m * 32 / 2) with (16 * m); [reflexivity |].
  pose proof (Nat.div_mod_eq (m * 32) 2).
  pose proof (Nat.mod_upper_bound (m * 32) 2 ltac:(lia)). lia.
Qed.


(* ------------------------------------------------------------------ *)
(** ** Marked and unmarked groups *)

Lemma startswith_short (g p : string) :
  String.length g < String.length p -> Py.startswith g p = false.
Proof.
  revert g. induction p as [| a p IH]; intros g H; [simpl in H; lia |].
  destruct g as [| b g]; [reflexivity |].
  cbn [Py.startswith]. rewrite IH by (simpl in H; lia).
  apply andb_false_r.
Qed.

Lemma startswith_append (p x : string) : Py.startswith (p ++ x) p = true.
Proof.
  induction p as [| a p IH]; [reflexivity |].
  cbn [append Py.startswith]. rewrite Ascii.eqb_refl, IH. reflexivity.
Qed.

Lemma length_byte_at (s : string) (k : nat) : String.length (byte_at s k) <= 2.
Proof.
  unfold byte_at, Py.slice. rewrite length_take. lia.
Qed.

Lemma is_marked_byte (s : string) (k : nat) : is_marked (byte_at s k) = false.
Proof.
  apply startswith_short. pose proof (length_byte_at s k).
  change (String.length PacketQuiz.HIGHLIGHT_COLOR) with 7. lia.
Qed.

Lemma is_marked_mark (b : string) : is_marked (mark b) = true.
Proof. apply startswith_append. Qed.

Lemma take_append (a b : string) : Py.take (String.length a) (a ++ b) = a.
Proof. induction a as [| c a IH]; simpl; [destruct b; reflexivity | rewrite IH; reflexivity]. Qed.

Lemma unmark_mark (b : string) : unmark (mark b) = b.
Proof.
  unfold unmark. rewrite is_marked_mark. unfold mark.
  rewrite !length_append.
  change (String.length PacketQuiz.HIGHLIGHT_COLOR) with 7.
  change (String.length PacketQuiz.RESET_COLOR) with 4.
  replace (7 + (String.length b + 4) - 7 - 4) with (String.length b) by lia.
  change (Py.drop 7 (PacketQuiz.HIGHLIGHT_COLOR ++ b ++ PacketQuiz.RESET_COLOR))
    with (b ++ PacketQuiz.RESET_COLOR).
  apply take_append.
Qed.

Lemma is_marked_render (s : string) (o n : option Z) (k : nat) :
  is_marked (render s o n k) = highlighted o n k.
Proof.
  unfold render. destruct (highlighted o n k);
    [apply is_marked_mark | apply is_marked_byte].
Qed.

Lemma unmark_render (s : string) (o n : option Z) (k : nat) :
  unmark (render s o n k) = byte_at s k.
Proof.
  unfold render. destruct (highlighted o n k); [apply unmark_mark |].
  unfold unmark. rewrite is_marked_byte. reflexivity.
Qed.

Lemma concat_text_app (a b : list string) :
  concat_text (a ++ b) = concat_text a ++ concat_text b.
Proof.
  induction a as [| x a IH]; simpl; [reflexivity |].
  rewrite IH, append_assoc. reflexivity.
Qed.

Lemma concat_bytes_take (s : string) (B : nat) :
  concat_text (map (byte_at s) (seq 0 B)) = Py.take (2 * B) s.
Proof.
  induction B as [| B IH]; [reflexivity |].
  rewrite seq_S, map_app, concat_text_app, IH.
  cbn [map concat_text Nat.add]. rewrite append_nil_r.
  replace (2 * S B) with (2 * B + 2) by lia. rewrite take_add.
  unfold byte_at, Py.slice. replace (2 * B + 2 - 2 * B) with 2 by lia.
  reflexivity.
Qed.

Lemma concat_bytes (s : string) :
  concat_text (map (byte_at s) (seq 0 (byte_count s))) = s.
Proof.
  rewrite concat_bytes_take. apply take_all. unfold byte_count.
  div_facts (String.length s + 1) 2. lia.
Qed.

Lemma highlighted_iff (o n : Z) (k : nat) :
  highlighted (Some o) (Some n) k = true <-> (o <= Z.of_nat k < o + n)%Z.
Proof.
  unfold highlighted. rewrite andb_true_iff, Z.leb_le, Z.ltb_lt. tauto.
Qed.

(** C6: the groups of the dump are the bytes of the text in order, one
    group per byte that exists; with both highlight parameters given, the
    group of byte [k] carries the marker exactly when
    [offset <= k < offset + num_bytes], so a range that runs past the end
    marks the bytes up to the end and nothing fails, and a length of zero
    or less marks nothing; with a parameter absent no group is marked. *)
Theorem highlight_range :
  forall (hex_string : string) (offset num_bytes : option Z),
    PacketQuiz.format_hex_dump hex_string offset num_bytes
    = Py.join PacketQuiz.newline
        (map (fun i => Py.format_04x (i / 2) ++ "  "
                       ++ Py.join " " (PacketQuiz.formatted_bytes
                                         hex_string offset num_bytes i))
             (Py.range_step (String.length hex_string) 32)) /\
    length (rendered_groups hex_string offset num_bytes) = byte_count hex_string /\
    (forall k : nat,
        k < byte_count hex_string ->
        let group := nth k (rendered_groups hex_string offset num_bytes) "" in
        unmark group = byte_at hex_string k /\
        is_marked group = highlighted offset num_bytes k /\
        match offset, num_bytes with
        | Some o, Some n =>
            (is_marked group = true <-> (o <= Z.of_nat k < o + n)%Z) /\
            ((n <= 0)%Z -> is_marked group = false)
        | _, _ => is_marked group = false
        end).
Proof.
  intros s o n. split; [reflexivity |].
  rewrite rendered_groups_spec. split; [rewrite length_map, length_seq; reflexivity |].
  intros k Hk. cbv zeta. rewrite nth_map_seq by exact Hk.
  split; [apply unmark_render |]. split; [apply is_marked_render |].
  rewrite is_marked_render.
  destruct o as [o |], n as [n |]; try reflexivity.
  split; [apply highlighted_iff |].
  intros Hn. destruct (highlighted (Some o) (Some n) k) eqn:E; [| reflexivity].
  apply highlighted_iff in E. lia.
Qed.

(* ------------------------------------------------------------------ *)
(** ** Reading the dump back *)

Lemma hex_char_plain (c : ascii) :
  is_hex_char c = true ->
  (c =? ascii_of_nat 10)%char = false /\
  (c =? " ")%char = false /\
  (c =? ascii_of_nat 27)%char = false.
Proof.
  destruct c as [[] [] [] [] [] [] [] []]; intros H;
    solve [repeat split; reflexivity | discriminate H].
Qed.

Lemma lower_hex_not_blank (c : ascii) :
  is_lower_hex c = true -> (c =? " ")%char = false.
Proof.
  destruct c as [[] [] [] [] [] [] [] []]; intros H;
    solve [reflexivity | discriminate H].
Qed.

Lemma all_chars_take (p : ascii -> bool) (n : nat) (s : string) :
  all_chars p s = true -> all_chars p (Py.take n s) = true.
Proof.
  revert s. induction n as [| n IH]; intros [| c s] H; try reflexivity.
  cbn [all_chars] in H. apply andb_prop in H. destruct H as [Hc Hs].
  cbn [Py.take all_chars]. rewrite Hc, (IH s Hs). reflexivity.
Qed.

Lemma all_chars_drop (p : ascii -> bool) (n : nat) (s : string) :
  all_chars p s = true -> all_chars p (Py.drop n s) = true.
Proof.
  revert s. induction n as [| n IH]; intros [| c s] H; try exact H.
  cbn [all_chars] in H. apply andb_prop in H. destruct H as [_ Hs].
  cbn [Py.drop]. exact (IH s Hs).
Qed.

Lemma all_chars_byte_at (p : ascii -> bool) (s : string) (k : nat) :
  all_chars p s = true -> all_chars p (byte_at s k) = true.
Proof.
  intros H. unfold byte_at, Py.slice.
  apply all_chars_take, all_chars_drop, H.
Qed.

Lemma read_plain (g rest : string) :
  all_chars is_hex_char g = true ->
  read_dump AtBytes (g ++ rest) = g ++ read_dump AtBytes rest.
Proof.
  induction g as [| c g IH]; intros H; [reflexivity |].
  cbn [all_chars] in H. apply andb_prop in H. destruct H as [Hc Hg].
  destruct (hex_char_plain c Hc) as [H1 [H2 H3]].
  cbn [append read_dump]. rewrite H1, H2, H3, (IH Hg). reflexivity.
Qed.

Lemma read_marked (g rest : string) :
  all_chars is_hex_char g = true ->
  read_dump AtBytes (mark g ++ rest) = g ++ read_dump AtBytes rest.
Proof.
  intros H. unfold mark. rewrite !append_assoc.
  change (read_dump AtBytes
            (PacketQuiz.HIGHLIGHT_COLOR ++ g ++ PacketQuiz.RESET_COLOR ++ rest))
    with (read_dump AtBytes (g ++ PacketQuiz.RESET_COLOR ++ rest)).
  rewrite (read_plain _ _ H). reflexivity.
Qed.

Section ReadBack.

Variable s : string.
Variables offset num_bytes : option Z.
Hypothesis s_hex : all_chars is_hex_char s = true.

Lemma read_render (k : nat) (rest : string) :
  read_dump AtBytes (render s offset num_bytes k ++ rest)
  = byte_at s k ++ read_dump AtBytes rest.
Proof.
  pose proof (all_chars_byte_at is_hex_char s k s_hex) as H.
  unfold render. destruct (highlighted offset num_bytes k);
    [apply read_marked | apply read_plain]; exact H.
Qed.

Lemma read_groups (ks : list nat) (rest : string) :
  read_dump AtBytes (Py.join " " (map (render s offset num_bytes) ks) ++ rest)
  = concat_text (map (byte_at s) ks) ++ read_dump AtBytes rest.
Proof.
  induction ks as [| k ks IH]; [reflexivity |].
  destruct ks as [| k' ks].
  - cbn [map Py.join concat_text]. rewrite read_render, append_nil_r. reflexivity.
  - change (Py.join " " (map (render s offset num_bytes) (k :: k' :: ks)))
      with (render s offset num_bytes k ++ " "
            ++ Py.join " " (map (render s offset num_bytes) (k' :: ks))).
    rewrite !append_assoc, read_render.
    change (read_dump AtBytes
              (" " ++ Py.join " " (map (render s offset num_bytes) (k' :: ks)) ++ rest))
      with (read_dump AtBytes
              (Py.join " " (map (render s offset num_bytes) (k' :: ks)) ++ rest)).
    rewrite IH. cbn [map concat_text]. rewrite !append_assoc. reflexivity.
Qed.

Lemma read_label (label rest : string) :
  all_chars is_lower_hex label = true ->
  read_dump AtLabel (label ++ "  " ++ rest) = read_dump AtBytes rest.
Proof.
  induction label as [| c l IH]; intros H; [reflexivity |].
  cbn [all_chars] in H. apply andb_prop in H. destruct H as [Hc Hl].
  cbn [append read_dump]. rewrite (lower_hex_not_blank c Hc). exact (IH Hl).
Qed.

(** A line of the dump, by its number. *)
Let line (m : nat) : string :=
  Py.format_04x (16 * m) ++ "  "
  ++ Py.join " " (PacketQuiz.formatted_bytes s offset num_bytes (m * 32)).

Let line_bytes (m : nat) : list string :=
  map (byte_at s)
      (seq (16 * m) ((Nat.min 32 (String.length s - m * 32) + 1) / 2)).

Lemma read_line (m : nat) (rest : string) :
  read_dump AtLabel (line m ++ rest)
  = concat_text (line_bytes m) ++ read_dump AtBytes rest.
Proof.
  unfold line, line_bytes. rewrite !append_assoc.
  destruct (format_04x_spec (16 * m)) as [_ [_ [Hlab _]]].
  rewrite (read_label _ _ Hlab), formatted_bytes_line.
  apply read_groups.
Qed.

Lemma read_lines (ms : list nat) :
  read_dump AtLabel (Py.join PacketQuiz.newline (map line ms))
  = concat_text (concat (map line_bytes ms)).
Proof.
  induction ms as [| m ms IH]; [reflexivity |].
  destruct ms as [| m' ms].
  - cbn [map Py.join concat]. rewrite app_nil_r.
    rewrite <- (append_nil_r (line m)), read_line.
    apply append_nil_r.
  - change (Py.join PacketQuiz.newline (map line (m :: m' :: ms)))
      with (line m ++ PacketQuiz.newline
            ++ Py.join PacketQuiz.newline (map line (m' :: ms))).
    rewrite read_line.
    change (read_dump AtBytes
              (PacketQuiz.newline ++ Py.join PacketQuiz.newline (map line (m' :: ms))))
      with (read_dump AtLabel (Py.join PacketQuiz.newline (map line (m' :: ms)))).
    rewrite IH. cbn [map concat]. rewrite !concat_text_app. reflexivity.
Qed.

Lemma format_hex_dump_lines :
  PacketQuiz.format_hex_dump s offset num_bytes
  = Py.join PacketQuiz.newline (map line (seq 0 ((String.length s + 31) / 32))).
Proof.
  unfold PacketQuiz.format_hex_dump, PacketQuiz.formatted_lines.
  rewrite map_range_step.
  replace (String.length s + 32 - 1) with (String.length s + 31) by lia.
  f_equal. apply map_ext. intros m. unfold line. cbv zeta.
  replace (m * 32 / 2) with (16 * m); [reflexivity |].
  div_facts (m * 32) 2. lia.
Qed.

Lemma dump_bytes_format_hex_dump :
  dump_bytes (PacketQuiz.format_hex_dump s offset num_bytes) = s.
Proof.
  unfold dump_bytes. rewrite format_hex_dump_lines, read_lines.
  unfold line_bytes.
  rewrite (concat_lines (byte_at s) (String.length s))
    by (replace (String.length s + 32 - 1) with (String.length s + 31) by lia; lia).
  replace (Nat.min ((String.length s + 1) / 2) (16 * ((String.length s + 31) / 32)))
    with (byte_count s).
  - apply concat_bytes.
  - unfold byte_count.
    div_facts (String.length s + 31) 32. div_facts (String.length s + 1) 2. lia.
Qed.

End ReadBack.

Lemma all_chars_hex_zeros (k : nat) : all_chars is_hex_char (Py.zeros k) = true.
Proof. induction k as [| k IH]; [reflexivity | exact IH]. Qed.

Lemma unmark_groups (s : string) (o n : option Z) :
  concat_text (map unmark (rendered_groups s o n)) = s.
Proof.
  rewrite rendered_groups_spec, map_map.
  rewrite (map_ext _ _ (unmark_render s o n)). apply concat_bytes.
Qed.

(** C5 (as stated): every line would begin with a label of four base-16
    digits.  In the dump of 65537 bytes the line of the last byte begins
    with the five digits of its offset, 65536; its first four characters
    are the numeral of 4096. *)
Lemma wide_offset_label :
  N.of_nat (String.length (Py.zeros 131074)) = (2 * 65537)%N /\
  all_chars is_hex_char (Py.zeros 131074) = true /\
  nth 4096 (PacketQuiz.formatted_lines (Py.zeros 131074) None None) ""
  = "10000  00" /\
  Py.int16 (Py.take 4 "10000  00") <> Ok 65536%Z.
Proof.
  split; [vm_compute; reflexivity |].
  split; [apply all_chars_hex_zeros |].
  split; [| vm_compute; discriminate].
  rewrite formatted_lines_nth.
  - vm_compute. reflexivity.
  - apply Nat.ltb_lt. vm_compute. reflexivity.
Qed.

(** C5 (amended): for a text of [2 * byte_length] base-16 digits, the
    dump is its lines joined by line feeds; there are
    [ceil (byte_length / 16)] lines, none for the empty text; line [m]
    is the label of the offset [16 m], two blanks and the groups of its
    [min 16 (byte_length - 16 m)] bytes; the label is the lowercase
    base-16 numeral of the offset padded with zeros to at least four
    digits, exactly four for an offset below 65536; and the groups read
    back from the dump, without labels, blanks and markers, are the text
    itself. *)
Theorem hex_dump_lines :
  forall (hex_string : string) (offset num_bytes : option Z) (byte_length : nat),
    String.length hex_string = 2 * byte_length ->
    all_chars is_hex_char hex_string = true ->
    let lines := PacketQuiz.formatted_lines hex_string offset num_bytes in
    PacketQuiz.format_hex_dump hex_string offset num_bytes
    = Py.join PacketQuiz.newline lines /\
    length lines = (byte_length + 15) / 16 /\
    (forall m : nat,
        m < length lines ->
        let label := Py.format_04x (16 * m) in
        let groups := PacketQuiz.formatted_bytes hex_string offset num_bytes (m * 32) in
        nth m lines "" = label ++ "  " ++ Py.join " " groups /\
        length groups = Nat.min 16 (byte_length - 16 * m) /\
        4 <= String.length label /\
        (16 * m < 16 ^ 4 -> String.length label = 4) /\
        all_chars is_lower_hex label = true /\
        Py.int16 label = Ok (Z.of_nat (16 * m))) /\
    dump_bytes (PacketQuiz.format_hex_dump hex_string offset num_bytes) = hex_string /\
    concat_text (map unmark (rendered_groups hex_string offset num_bytes)) = hex_string.
Proof.
  intros s o n b Hlen Hhex lines. subst lines.
  assert (HL : length (PacketQuiz.formatted_lines s o n) = (b + 15) / 16).
  { rewrite formatted_lines_length, Hlen.
    div_facts (2 * b + 31) 32. div_facts (b + 15) 16. lia. }
  split; [reflexivity |]. split; [exact HL |].
  split; [| split; [apply dump_bytes_format_hex_dump; exact Hhex | apply unmark_groups]].
  intros m Hm. cbv zeta.
  destruct (format_04x_spec (16 * m)) as [H1 [H2 [H3 H4]]].
  split.
  - apply formatted_lines_nth. rewrite <- (formatted_lines_length s o n). exact Hm.
  - split; [| repeat split; assumption].
    rewrite formatted_bytes_line, length_map, length_seq, Hlen.
    div_facts (Nat.min 32 (2 * b - m * 32) + 1) 2. lia.
Qed.

Lemma hex_dump_lines_witness :
  let arp := "ffffffffffff001a2b3c4d5e08060001080006040001001a2b3c4d5ec0a80102000000000000c0a80101" in
  length (PacketQuiz.formatted_lines arp (Some 12%Z) (Some 2%Z)) = 3 /\
  dump_bytes (PacketQuiz.format_hex_dump arp (Some 12%Z) (Some 2%Z)) = arp /\
  nth 2 (PacketQuiz.formatted_lines arp (Some 12%Z) (Some 2%Z)) ""
  = "0020  00 00 00 00 00 00 c0 a8 01 01" /\
  length (PacketQuiz.formatted_lines "" None None) = 0.
Proof.
  cbv zeta.
  destruct (hex_dump_lines
              "ffffffffffff001a2b3c4d5e08060001080006040001001a2b3c4d5ec0a80102000000000000c0a80101"
              (Some 12%Z) (Some 2%Z) 42 eq_refl eq_refl) as [_ [H2 [H3 [H4 _]]]].
  destruct (hex_dump_lines "" None None 0 eq_refl eq_refl) as [_ [H5 _]].
  split; [exact H2 |]. split; [exact H4 |]. split; [| exact H5].
  destruct (H3 2 ltac:(rewrite H2; vm_compute; lia)) as [H6 _].
  rewrite H6. vm_compute. reflexivity.
Defined.

Lemma highlight_range_witness :
  let arp := "ffffffffffff001a2b3c4d5e08060001080006040001001a2b3c4d5ec0a80102000000000000c0a80101" in
  is_marked (nth 12 (rendered_groups arp (Some 12%Z) (Some 2%Z)) "") = true /\
  is_marked (nth 14 (rendered_groups arp (Some 12%Z) (Some 2%Z)) "") = false /\
  is_marked (nth 41 (rendered_groups arp (Some 40%Z) (Some 10%Z)) "") = true /\
  unmark (nth 41 (rendered_groups arp (Some 40%Z) (Some 10%Z)) "") = "01" /\
  is_marked (nth 12 (rendered_groups arp (Some 12%Z) (Some (-2)%Z)) "") = false /\
  is_marked (nth 12 (rendered_groups arp None (Some 2%Z)) "") = false.
Proof.
  cbv zeta.
  set (arp := "ffffffffffff001a2b3c4d5e08060001080006040001001a2b3c4d5ec0a80102000000000000c0a80101").
  assert (B : forall k, k < 42 -> k < byte_count arp).
  { intros k Hk. change (byte_count arp) with 42. exact Hk. }
  destruct (proj2 (proj2 (highlight_range arp (Some 12%Z) (Some 2%Z))) 12
              (B 12 ltac:(lia))) as [_ [_ [H1 _]]].
  destruct (proj2 (proj2 (highlight_range arp (Some 12%Z) (Some 2%Z))) 14
              (B 14 ltac:(lia))) as [_ [H2 _]].
  destruct (proj2 (proj2 (highlight_range arp (Some 40%Z) (Some 10%Z))) 41
              (B 41 ltac:(lia))) as [H3 [_ [H4 _]]].
  destruct (proj2 (proj2 (highlight_range arp (Some 12%Z) (Some (-2)%Z))) 12
              (B 12 ltac:(lia))) as [_ [_ [_ H5]]].
  destruct (proj2 (proj2 (highlight_range arp None (Some 2%Z))) 12
              (B 12 ltac:(lia))) as [_ [_ H6]].
  split; [apply H1; lia |]. split; [rewrite H2; reflexivity |].
  split; [apply H4; lia |]. split; [rewrite H3; reflexivity |].
  split; [apply H5; lia | exact H6].
Defined.

(* ------------------------------------------------------------------ *)
(** ** Case and surrounding white space in [check_answer] *)

Lemma lower_upper_char (c : ascii) :
  Py.lower_char (Py.upper_char c) = Py.lower_char c.
Proof. destruct c as [[] [] [] [] [] [] [] []]; reflexivity. Qed.

Lemma lower_upper (s : string) : Py.lower (Py.upper s) = Py.lower s.
Proof.
  induction s as [| c s IH]; [reflexivity |].
  cbn [Py.upper Py.lower]. rewrite lower_upper_char, IH. reflexivity.
Qed.

Lemma lower_append (a b : string) : Py.lower (a ++ b) = Py.lower a ++ Py.lower b.
Proof.
  induction a as [| c a IH]; [reflexivity |].
  cbn [append Py.lower]. rewrite IH. reflexivity.
Qed.

Lemma is_space_lower_char (c : ascii) :
  Py.is_space (Py.lower_char c) = Py.is_space c.
Proof. destruct c as [[] [] [] [] [] [] [] []]; reflexivity. Qed.

Lemma blank_lower (w : string) :
  all_chars Py.is_space w = true -> all_chars Py.is_space (Py.lower w) = true.
Proof.
  induction w as [| c w IH]; intros H; [reflexivity |].
  cbn [all_chars] in H. apply andb_prop in H. destruct H as [Hc Hw].
  cbn [Py.lower all_chars]. rewrite is_space_lower_char, Hc, (IH Hw). reflexivity.
Qed.

Lemma lstrip_blank_prefix (w s : string) :
  all_chars Py.is_space w = true -> Py.lstrip (w ++ s) = Py.lstrip s.
Proof.
  induction w as [| c w IH]; intros H; [reflexivity |].
  cbn [all_chars] in H. apply andb_prop in H. destruct H as [Hc Hw].
  cbn [append Py.lstrip]. rewrite Hc. exact (IH Hw).
Qed.

Lemma rstrip_blank (w : string) :
  all_chars Py.is_space w = true -> Py.rstrip w = "".
Proof.
  induction w as [| c w IH]; intros H; [reflexivity |].
  cbn [all_chars] in H. apply andb_prop in H. destruct H as [Hc Hw].
  cbn [Py.rstrip]. rewrite (IH Hw), Hc. reflexivity.
Qed.

Lemma rstrip_blank_suffix (s w : string) :
  all_chars Py.is_space w = true -> Py.rstrip (s ++ w) = Py.rstrip s.
Proof.
  intros H. induction s as [| c s IH].
  - cbn [append]. apply rstrip_blank. exact H.
  - cbn [append Py.rstrip]. rewrite IH. reflexivity.
Qed.

Lemma rstrip_blank_prefix (w s : string) :
  all_chars Py.is_space w = true ->
  Py.rstrip (w ++ s)
  = match Py.rstrip s with
    | EmptyString => EmptyString
    | t => w ++ t
    end.
Proof.
  induction w as [| c w IH]; intros H.
  - cbn [append]. destruct (Py.rstrip s); reflexivity.
  - cbn [all_chars] in H. apply andb_prop in H. destruct H as [Hc Hw].
    cbn [append Py.rstrip]. rewrite (IH Hw), Hc.
    destruct (Py.rstrip s) as [| d t]; [reflexivity |].
    destruct w; reflexivity.
Qed.

Lemma strip_blank_around (w1 s w2 : string) :
  all_chars Py.is_space w1 = true ->
  all_chars Py.is_space w2 = true ->
  Py.strip (w1 ++ s ++ w2) = Py.strip s.
Proof.
  intros H1 H2. unfold Py.strip.
  rewrite <- append_assoc, (rstrip_blank_suffix _ _ H2), (rstrip_blank_prefix _ _ H1).
  destruct (Py.rstrip s) as [| d t] eqn:E.
  - reflexivity.
  - apply lstrip_blank_prefix. exact H1.
Qed.

Lemma normalize_case_variant (w1 s s' w2 : string) :
  Py.lower s' = Py.lower s ->
  all_chars Py.is_space w1 = true ->
  all_chars Py.is_space w2 = true ->
  normalize (w1 ++ s' ++ w2) = normalize s.
Proof.
  intros Hs H1 H2. unfold normalize. rewrite !lower_append, Hs.
  apply strip_blank_around; apply blank_lower; assumption.
Qed.

(** X1: in both scripts [check_answer] gives the same result when either
    text is written in another letter case or with white space around
    it. *)
Theorem check_answer_ignores_case_and_blanks :
  forall w1 w2 w3 w4 u u' c c' : string,
    Py.lower u' = Py.lower u ->
    Py.lower c' = Py.lower c ->
    all_chars Py.is_space w1 = true ->
    all_chars Py.is_space w2 = true ->
    all_chars Py.is_space w3 = true ->
    all_chars Py.is_space w4 = true ->
    PacketQuiz.check_answer (w1 ++ u' ++ w2) (w3 ++ c' ++ w4)
    = PacketQuiz.check_answer u c /\
    TCPFlagsQuiz.check_answer (w1 ++ u' ++ w2) (w3 ++ c' ++ w4)
    = TCPFlagsQuiz.check_answer u c.
Proof.
  intros w1 w2 w3 w4 u u' c c' Hu Hc H1 H2 H3 H4.
  pose proof (normalize_case_variant w1 u u' w2 Hu H1 H2) as U.
  pose proof (normalize_case_variant w3 c c' w4 Hc H3 H4) as C.
  rewrite !packet_check_answer_unfold, !flags_check_answer_unfold. cbv zeta.
  rewrite U, C. split; reflexivity.
Qed.

Lemma check_answer_ignores_case_and_blanks_witness :
  TCPFlagsQuiz.check_answer "  Syn+ACK " " ACK+syn"
  = TCPFlagsQuiz.check_answer "syn+ack" "ack+syn" /\
  PacketQuiz.check_answer " 0X0806" "0x0806 "
  = PacketQuiz.check_answer "0x0806" "0x0806".
Proof.
  split.
  - exact (proj2 (check_answer_ignores_case_and_blanks
                    "  " " " " " "" "syn+ack" "Syn+ACK" "ack+syn" "ACK+syn"
                    eq_refl eq_refl eq_refl eq_refl eq_refl eq_refl)).
  - exact (proj1 (check_answer_ignores_case_and_blanks
                    " " "" "" " " "0x0806" "0X0806" "0x0806" "0x0806"
                    eq_refl eq_refl eq_refl eq_refl eq_refl eq_refl)).
Defined.

(* ------------------------------------------------------------------ *)
(** ** The two matchers side by side *)

Lemma str_in_In (x : string) (l : list string) :
  Py.str_in x l = true <-> In x l.
Proof.
  induction l as [| y l IH]; cbn [Py.str_in In]; [split; [discriminate | tauto] |].
  rewrite orb_true_iff, IH, String.eqb_eq. split; intros [H | H]; auto.
Qed.

Lemma flag_loop_true (items : list (string * list string)) (u c : string) :
  TCPFlagsQuiz.flag_loop items u c = true <->
  exists (key : string) (patterns : list string),
    In (key, patterns) items /\ In u patterns /\ In c patterns.
Proof.
  induction items as [| [key patterns] items IH]; cbn [TCPFlagsQuiz.flag_loop].
  - split; [discriminate | intros [k [p [[] _]]]].
  - destruct (Py.str_in c patterns && Py.str_in u patterns) eqn:E.
    + split; [intros _ | reflexivity].
      apply andb_prop in E. destruct E as [Ec Eu].
      exists key, patterns. rewrite <- !str_in_In. auto using in_eq.
    + rewrite IH. split.
      * intros [k [p [Hin H]]]. exists k, p. split; [right; exact Hin | exact H].
      * intros [k [p [[Heq | Hin] [Hu Hc]]]].
        -- injection Heq as <- <-. apply str_in_In in Hu, Hc.
           rewrite Hu, Hc in E. discriminate E.
        -- exists k, p. auto.
Qed.

Lemma shared_entry_accepted (u c : string) :
  shares_flag_entry (normalize u) (normalize c) ->
  TCPFlagsQuiz.check_answer u c = Ok true.
Proof.
  intros [key [patterns [Hin [Hu Hc]]]].
  rewrite flags_check_answer_unfold. cbv zeta.
  generalize dependent (normalize c). generalize dependent (normalize u).
  intros u' Hu c' Hc.
  simpl in Hin.
  repeat (destruct Hin as [Hin | Hin];
          [injection Hin as <- <-; simpl in Hu, Hc;
           repeat (destruct Hu as [<- | Hu]; [| try contradiction]);
           repeat (destruct Hc as [<- | Hc]; [| try contradiction]);
           reflexivity |]).
  contradiction.
Qed.

(** X2: on ASCII texts [TCPFlagsQuiz.check_answer] accepts exactly the
    pairs that [PacketQuiz.check_answer] accepts and the pairs whose
    normalized texts share an entry of the flag table. *)
Theorem flags_matcher_extends_packet_matcher :
  forall u c : string,
    is_ascii u = true -> is_ascii c = true ->
    (TCPFlagsQuiz.check_answer u c = Ok true <->
     PacketQuiz.check_answer u c = Ok true \/
     shares_flag_entry (normalize u) (normalize c)).
Proof.
  intros u c _ _. split.
  - rewrite flags_check_answer_unfold, packet_check_answer_unfold. cbv zeta.
    destruct (normalize u =? normalize c)%string; [left; reflexivity |].
    destruct (_ && _); [intros H; left; exact H |].
    destruct (_ && _); [intros H; left; exact H |].
    intros H. right. apply (proj1 (flag_loop_true _ _ _)). congruence.
  - intros [H | H]; [| apply shared_entry_accepted; exact H].
    revert H. rewrite flags_check_answer_unfold, packet_check_answer_unfold. cbv zeta.
    destruct (normalize u =? normalize c)%string; [reflexivity |].
    destruct (_ && _); [intros H; exact H |].
    destruct (_ && _); [intros H; exact H | discriminate].
Qed.

Lemma flags_matcher_extends_packet_matcher_witness :
  is_ascii " TCP-RST" = true /\ is_ascii "0x04" = true /\
  TCPFlagsQuiz.check_answer " TCP-RST" "0x04" = Ok true /\
  PacketQuiz.check_answer " TCP-RST" "0x04" = Ok false /\
  shares_flag_entry (normalize " TCP-RST") (normalize "0x04").
Proof.
  split; [reflexivity |]. split; [reflexivity |]. split; [reflexivity |].
  split; [reflexivity |].
  destruct (proj1 (flags_matcher_extends_packet_matcher " TCP-RST" "0x04"
                     eq_refl eq_refl) eq_refl) as [H | H].
  - vm_compute in H. discriminate H.
  - exact H.
Defined.

(* ------------------------------------------------------------------ *)
(** ** How many groups are marked *)

Lemma highlighted_count (o n : Z) (B : nat) :
  length (filter (highlighted (Some o) (Some n)) (seq 0 B))
  = Z.to_nat (Z.min (o + n) (Z.of_nat B) - Z.max o 0).
Proof.
  induction B as [| B IH]; [simpl; lia |].
  rewrite seq_S, filter_app, length_app, IH. cbn [Nat.add filter].
  destruct (highlighted (Some o) (Some n) B) eqn:E.
  - apply highlighted_iff in E. cbn [length]. lia.
  - assert (N : ~ (o <= Z.of_nat B < o + n)%Z).
    { intros H. apply highlighted_iff in H. congruence. }
    cbn [length]. lia.
Qed.

Lemma filter_marked_render (s : string) (o n : option Z) (ks : list nat) :
  length (filter is_marked (map (render s o n) ks))
  = length (filter (highlighted o n) ks).
Proof.
  induction ks as [| k ks IH]; [reflexivity |].
  cbn [map filter]. rewrite is_marked_render.
  destruct (highlighted o n k); cbn [length]; rewrite IH; reflexivity.
Qed.

(** X3: the number of marked groups of a dump is the number of bytes of
    the text that lie in the range: [num_bytes] for a range inside the
    text, fewer for a range that starts before the first byte or runs past
    the last, none when a parameter is absent. *)
Theorem marked_groups_count :
  forall (hex_string : string) (offset num_bytes : option Z),
    marked_count (rendered_groups hex_string offset num_bytes)
    = match offset, num_bytes with
      | Some o, Some n =>
          Z.to_nat (Z.min (o + n) (Z.of_nat (byte_count hex_string)) - Z.max o 0)
      | _, _ => 0
      end /\
    (forall o n : Z,
        offset = Some o -> num_bytes = Some n ->
        (0 <= o)%Z -> (0 <= n)%Z -> (o + n <= Z.of_nat (byte_count hex_string))%Z ->
        marked_count (rendered_groups hex_string offset num_bytes) = Z.to_nat n).
Proof.
  intros s offset num_bytes.
  assert (H : marked_count (rendered_groups s offset num_bytes)
              = match offset, num_bytes with
                | Some o, Some n =>
                    Z.to_nat (Z.min (o + n) (Z.of_nat (byte_count s)) - Z.max o 0)
                | _, _ => 0
                end).
  { unfold marked_count. rewrite rendered_groups_spec, filter_marked_render.
    destruct offset as [o |], num_bytes as [n |];
      [apply highlighted_count | | |];
      (induction (seq 0 (byte_count s)) as [| k ks IH]; [reflexivity | exact IH]). }
  split; [exact H |].
  intros o n -> -> Ho Hn Hend. rewrite H. lia.
Qed.

Lemma marked_groups_count_witness :
  let arp := "ffffffffffff001a2b3c4d5e08060001080006040001001a2b3c4d5ec0a80102000000000000c0a80101" in
  marked_count (rendered_groups arp (Some 38%Z) (Some 4%Z)) = 4.
Proof.
  cbv zeta.
  exact (proj2 (marked_groups_count
                  "ffffffffffff001a2b3c4d5e08060001080006040001001a2b3c4d5ec0a80102000000000000c0a80101"
                  (Some 38%Z) (Some 4%Z))
           38%Z 4%Z eq_refl eq_refl ltac:(lia) ltac:(lia) ltac:(vm_compute; discriminate)).
Defined.

(* ------------------------------------------------------------------ *)
(** ** Texts of odd length *)

Lemma length_byte_at_exact (s : string) (k : nat) :
  String.length (byte_at s k) = Nat.min 2 (String.length s - 2 * k).
Proof.
  unfold byte_at, Py.slice. rewrite length_take, length_drop.
  replace (2 * k + 2 - 2 * k) with 2 by lia. reflexivity.
Qed.

(** X4: [format_hex_dump] takes a text of any length, odd included: it
    renders one group per started pair of characters, every group holds
    two characters of the text except that the last group of a text of odd
    length holds its single last character, and the text read back from
    the dump is the input. *)
Theorem hex_dump_any_length :
  forall (hex_string : string) (offset num_bytes : option Z),
    all_chars is_hex_char hex_string = true ->
    let groups := rendered_groups hex_string offset num_bytes in
    length (PacketQuiz.formatted_lines hex_string offset num_bytes)
    = (String.length hex_string + 31) / 32 /\
    length groups = (String.length hex_string + 1) / 2 /\
    (forall k : nat,
        k < length groups ->
        String.length (unmark (nth k groups ""))
        = if (2 * k + 1 =? String.length hex_string) then 1 else 2) /\
    dump_bytes (PacketQuiz.format_hex_dump hex_string offset num_bytes) = hex_string.
Proof.
  intros s o n Hhex groups. subst groups.
  split; [apply formatted_lines_length |].
  rewrite rendered_groups_spec, length_map, length_seq.
  split; [reflexivity |].
  split; [| apply dump_bytes_format_hex_dump; exact Hhex].
  intros k Hk. rewrite nth_map_seq by exact Hk.
  rewrite unmark_render, length_byte_at_exact.
  unfold byte_count in Hk. div_facts (String.length s + 1) 2.
  destruct (Nat.eqb_spec (2 * k + 1) (String.length s)); lia.
Qed.

Lemma hex_dump_any_length_witness :
  PacketQuiz.format_hex_dump "abc" None None = "0000  ab c" /\
  dump_bytes (PacketQuiz.format_hex_dump "abc" None None) = "abc".
Proof.
  split; [reflexivity |].
  exact (proj2 (proj2 (proj2 (hex_dump_any_length "abc" None None eq_refl)))).
Defined.

(* ------------------------------------------------------------------ *)
(** ** The dump before and after the answer *)

Lemma hex_char_not_escape (c : ascii) :
  is_hex_char c = true -> (c =? ascii_of_nat 27)%char = false.
Proof. intros H. apply (hex_char_plain c H). Qed.

Lemma lower_hex_is_hex_char (c : ascii) :
  is_lower_hex c = true -> is_hex_char c = true.
Proof.
  destruct c as [[] [] [] [] [] [] [] []]; intros H;
    solve [reflexivity | discriminate H].
Qed.

Lemma all_lower_hex_is_hex (s : string) :
  all_chars is_lower_hex s = true -> all_chars is_hex_char s = true.
Proof.
  induction s as [| c s IH]; intros H; [reflexivity |].
  cbn [all_chars] in H. apply andb_prop in H. destruct H as [Hc Hs].
  cbn [all_chars]. rewrite (lower_hex_is_hex_char c Hc), (IH Hs). reflexivity.
Qed.

Lemma strip_markers_plain (t rest : string) :
  all_chars is_hex_char t = true ->
  strip_markers false (t ++ rest) = t ++ strip_markers false rest.
Proof.
  induction t as [| c t IH]; intros H; [reflexivity |].
  cbn [all_chars] in H. apply andb_prop in H. destruct H as [Hc Ht].
  cbn [append strip_markers]. rewrite (hex_char_not_escape c Hc), (IH Ht).
  reflexivity.
Qed.

Lemma strip_markers_marked (g rest : string) :
  all_chars is_hex_char g = true ->
  strip_markers false (mark g ++ rest) = g ++ strip_markers false rest.
Proof.
  intros H. unfold mark. rewrite !append_assoc.
  change (strip_markers false
            (PacketQuiz.HIGHLIGHT_COLOR ++ g ++ PacketQuiz.RESET_COLOR ++ rest))
    with (strip_markers false (g ++ PacketQuiz.RESET_COLOR ++ rest)).
  rewrite (strip_markers_plain _ _ H). reflexivity.
Qed.

Section Unmarked.

Variable s : string.
Variables offset num_bytes : option Z.
Hypothesis s_hex : all_chars is_hex_char s = true.

Lemma render_unmarked (k : nat) : render s None None k = byte_at s k.
Proof. reflexivity. Qed.

Lemma strip_markers_groups (ks : list nat) (rest : string) :
  strip_markers false (Py.join " " (map (render s offset num_bytes) ks) ++ rest)
  = Py.join " " (map (render s None None) ks) ++ strip_markers false rest.
Proof.
  induction ks as [| k ks IH]; [reflexivity |].
  assert (Hk : forall r, strip_markers false (render s offset num_bytes k ++ r)
                         = byte_at s k ++ strip_markers false r).
  { intros r. pose proof (all_chars_byte_at is_hex_char s k s_hex) as H.
    unfold render. destruct (highlighted offset num_bytes k);
      [apply strip_markers_marked | apply strip_markers_plain]; exact H. }
  destruct ks as [| k' ks].
  - cbn [map Py.join]. rewrite Hk. reflexivity.
  - change (Py.join " " (map (render s offset num_bytes) (k :: k' :: ks)))
      with (render s offset num_bytes k ++ " "
            ++ Py.join " " (map (render s offset num_bytes) (k' :: ks))).
    change (Py.join " " (map (render s None None) (k :: k' :: ks)))
      with (byte_at s k ++ " "
            ++ Py.join " " (map (render s None None) (k' :: ks))).
    rewrite !append_assoc, Hk.
    change (strip_markers false
              (" " ++ Py.join " " (map (render s offset num_bytes) (k' :: ks)) ++ rest))
      with (" " ++ strip_markers false
              (Py.join " " (map (render s offset num_bytes) (k' :: ks)) ++ rest)).
    rewrite IH. reflexivity.
Qed.

Lemma strip_markers_line (m : nat) (rest : string) :
  strip_markers false
    ((Py.format_04x (16 * m) ++ "  "
      ++ Py.join " " (PacketQuiz.formatted_bytes s offset num_bytes (m * 32))) ++ rest)
  = (Py.format_04x (16 * m) ++ "  "
     ++ Py.join " " (PacketQuiz.formatted_bytes s None None (m * 32)))
    ++ strip_markers false rest.
Proof.
  rewrite !append_assoc.
  destruct (format_04x_spec (16 * m)) as [_ [_ [Hlab _]]].
  rewrite (strip_markers_plain _ _ (all_lower_hex_is_hex _ Hlab)).
  change (strip_markers false
            ("  " ++ Py.join " " (PacketQuiz.formatted_bytes s offset num_bytes (m * 32))
             ++ rest))
    with ("  " ++ strip_markers false
            (Py.join " " (PacketQuiz.formatted_bytes s offset num_bytes (m * 32))
             ++ rest)).
  rewrite !formatted_bytes_line, strip_markers_groups. reflexivity.
Qed.

Lemma strip_markers_lines (ms : list nat) :
  strip_markers false
    (Py.join PacketQuiz.newline
       (map (fun m => Py.format_04x (16 * m) ++ "  "
                      ++ Py.join " " (PacketQuiz.formatted_bytes
                                        s offset num_bytes (m * 32))) ms))
  = Py.join PacketQuiz.newline
      (map (fun m => Py.format_04x (16 * m) ++ "  "
                     ++ Py.join " " (PacketQuiz.formatted_bytes
                                       s None None (m * 32))) ms).
Proof.
  induction ms as [| m ms IH]; [reflexivity |].
  destruct ms as [| m' ms].
  - cbn [map Py.join].
    rewrite <- (append_nil_r (Py.format_04x (16 * m) ++ _)) at 1.
    rewrite (strip_markers_line m "").
    apply append_nil_r.
  - cbn [map] in IH |- *.
    match goal with
    | |- strip_markers false (Py.join _ (?a :: ?b :: ?l)) = Py.join _ (?a' :: ?b' :: ?l') =>
        change (Py.join PacketQuiz.newline (a :: b :: l))
          with (a ++ PacketQuiz.newline ++ Py.join PacketQuiz.newline (b :: l));
        change (Py.join PacketQuiz.newline (a' :: b' :: l'))
          with (a' ++ PacketQuiz.newline ++ Py.join PacketQuiz.newline (b' :: l'))
    end.
    rewrite (strip_markers_line m _).
    f_equal.
    match goal with
    | |- strip_markers false (PacketQuiz.newline ++ ?t) = _ =>
        change (strip_markers false (PacketQuiz.newline ++ t))
          with (PacketQuiz.newline ++ strip_markers false t)
    end.
    rewrite IH. reflexivity.
Qed.

End Unmarked.

Lemma strip_markers_format_hex_dump (s : string) (o n : option Z) :
  all_chars is_hex_char s = true ->
  strip_markers false (PacketQuiz.format_hex_dump s o n)
  = PacketQuiz.format_hex_dump s None None.
Proof.
  intros Hhex.
  rewrite (format_hex_dump_lines s o n), (format_hex_dump_lines s None None).
  apply strip_markers_lines. exact Hhex.
Qed.

(** X5: for a text of base-16 digits, the dump with a highlighted range is
    the dump without one once the escape sequences of the markers are
    taken out: highlighting changes nothing else in the output. *)
Theorem highlight_only_adds_markers :
  forall (hex_string : string) (offset num_bytes : option Z),
    all_chars is_hex_char hex_string = true ->
    strip_markers false (PacketQuiz.format_hex_dump hex_string offset num_bytes)
    = PacketQuiz.format_hex_dump hex_string None None.
Proof.
  intros s o n Hhex. apply strip_markers_format_hex_dump. exact Hhex.
Qed.

Lemma highlight_only_adds_markers_witness :
  let arp := "ffffffffffff001a2b3c4d5e08060001080006040001001a2b3c4d5ec0a80102000000000000c0a80101" in
  strip_markers false (PacketQuiz.format_hex_dump arp (Some 12%Z) (Some 2%Z))
  = PacketQuiz.format_hex_dump arp None None.
Proof.
  cbv zeta. apply highlight_only_adds_markers. reflexivity.
Defined.

(* ------------------------------------------------------------------ *)
(** ** The run of a quiz: score, errors and the state it leaves *)

Lemma list_get_raises {A : Type} (l : list A) (i : Z) (e : exn) :
  Py.list_get l i = Raise e -> e = IndexError.
Proof.
  unfold Py.list_get.
  destruct (_ <? 0)%Z; [congruence |].
  destruct (nth_error _ _); congruence.
Qed.

Lemma flags_ask_spec (self : TCPFlagsQuiz.t) (i : nat)
      (q : TCPFlagsQuiz.Question) (typed : string) :
  exists events : list TCPFlagsQuiz.event,
    TCPFlagsQuiz.ask self i q typed
    = Ok (TCPFlagsQuiz.add_score self (flags_verdict q typed), events).
Proof.
  unfold TCPFlagsQuiz.ask, flags_verdict.
  destruct (flags_check_answer_returns
              (letter_to_option (Py.strip typed) (TCPFlagsQuiz.q_options q))
              (TCPFlagsQuiz.q_answer q)) as [b Hb].
  rewrite Hb. eexists. reflexivity.
Qed.

Lemma flags_ask_all_spec (qs : list TCPFlagsQuiz.Question) (answers : nat -> string) :
  forall (self : TCPFlagsQuiz.t) (i : nat),
  exists events : list TCPFlagsQuiz.event,
    TCPFlagsQuiz.ask_all self i qs answers
    = Ok (TCPFlagsQuiz.mkQuiz
            (TCPFlagsQuiz.num_questions self)
            (TCPFlagsQuiz.score self
             + Z.of_nat (count_correct flags_verdict i qs answers))
            (TCPFlagsQuiz.questions self),
          events).
Proof.
  induction qs as [| q qs IH]; intros self i.
  - exists []. destruct self. cbn. rewrite Z.add_0_r. reflexivity.
  - cbn [TCPFlagsQuiz.ask_all count_correct].
    destruct (flags_ask_spec self i q (answers i)) as [ev1 E1]. rewrite E1.
    cbn [bind fst snd].
    destruct (IH (TCPFlagsQuiz.add_score self (flags_verdict q (answers i))) (S i))
      as [ev2 E2].
    rewrite E2. cbn [bind fst snd]. eexists. f_equal. f_equal.
    destruct self, (flags_verdict q (answers i)); cbn; f_equal; lia.
Qed.

Lemma packet_ask_spec (self : PacketQuiz.t) (i : nat)
      (q : PacketQuiz.Question) (typed : string) :
  if packet_loaded (PacketQuiz.packet_data self) q
  then exists events : list PacketQuiz.event,
      PacketQuiz.ask self i q typed
      = Ok (PacketQuiz.add_score self (packet_verdict q typed), events)
  else PacketQuiz.ask self i q typed = Raise IndexError.
Proof.
  unfold PacketQuiz.ask, packet_loaded, packet_verdict.
  destruct (Py.list_get _ _) as [packet | e] eqn:E.
  - destruct (packet_check_answer_returns
                (letter_to_option (Py.strip typed) (PacketQuiz.q_options q))
                (PacketQuiz.q_answer q)) as [b Hb].
    cbn [bind]. rewrite Hb. cbn [bind].
    destruct (PacketQuiz.parse_hex_location _) as [o n]. eexists. reflexivity.
  - rewrite (list_get_raises _ _ _ E). reflexivity.
Qed.

Lemma packet_ask_all_spec (qs : list PacketQuiz.Question) (answers : nat -> string) :
  forall (self : PacketQuiz.t) (i : nat),
    if forallb (packet_loaded (PacketQuiz.packet_data self)) qs
    then exists events : list PacketQuiz.event,
        PacketQuiz.ask_all self i qs answers
        = Ok (PacketQuiz.mkQuiz
                (PacketQuiz.num_questions self)
                (PacketQuiz.start_question_id self)
                (PacketQuiz.score self
                 + Z.of_nat (count_correct packet_verdict i qs answers))
                (PacketQuiz.packet_data self)
                (PacketQuiz.questions self),
              events)
    else PacketQuiz.ask_all self i qs answers = Raise IndexError.
Proof.
  induction qs as [| q qs IH]; intros self i.
  - cbn [forallb]. exists []. destruct self. cbn. rewrite Z.add_0_r. reflexivity.
  - cbn [forallb PacketQuiz.ask_all count_correct].
    pose proof (packet_ask_spec self i q (answers i)) as A.
    destruct (packet_loaded (PacketQuiz.packet_data self) q) eqn:L.
    + destruct A as [ev1 E1]. rewrite E1. cbn [bind fst snd andb].
      specialize (IH (PacketQuiz.add_score self (packet_verdict q (answers i))) (S i)).
      assert (D : PacketQuiz.packet_data
                    (PacketQuiz.add_score self (packet_verdict q (answers i)))
                  = PacketQuiz.packet_data self).
      { destruct (packet_verdict q (answers i)); reflexivity. }
      rewrite D in IH.
      destruct (forallb (packet_loaded (PacketQuiz.packet_data self)) qs).
      * destruct IH as [ev2 E2]. rewrite E2. cbn [bind fst snd].
        eexists. f_equal. f_equal.
        destruct self, (packet_verdict q (answers i)); cbn; f_equal; lia.
      * rewrite IH. reflexivity.
    + rewrite A. reflexivity.
Qed.

(* ------------------------------------------------------------------ *)
(** ** The search for the start question in any bank *)

Lemma find_start_last (sid : Z) (l : list PacketQuiz.Question) :
  forall st,
    fst (fold_left (PacketQuiz.find_start_step sid) l st)
    = match rev (filter (fun q => (PacketQuiz.q_id q =? sid)%Z) l) with
      | q :: _ => Some q
      | [] => fst st
      end.
Proof.
  induction l as [| x l IH]; intros st; [reflexivity |].
  cbn [fold_left filter]. rewrite IH. unfold PacketQuiz.find_start_step.
  destruct (PacketQuiz.q_id x =? sid)%Z.
  - cbn [rev fst].
    destruct (rev (filter (fun q => (PacketQuiz.q_id q =? sid)%Z) l)); reflexivity.
  - reflexivity.
Qed.

(** X6: in any bank, ids repeated or not, the search loop of [run_quiz]
    takes as start question the last question with the start id, and
    leaves in [remaining_questions] the questions of every other id in the
    order of the bank; so the chosen list holds the start id once, at its
    head. *)
Theorem find_start_any_bank :
  forall (shuffle : list PacketQuiz.Question -> list PacketQuiz.Question)
         (sid : Z) (self : PacketQuiz.t),
    (forall l, Permutation l (shuffle l)) ->
    PacketQuiz.find_start sid (PacketQuiz.questions self)
    = (match rev (filter (fun q => (PacketQuiz.q_id q =? sid)%Z)
                         (PacketQuiz.questions self)) with
       | q :: _ => Some q
       | [] => None
       end,
       filter (fun q => negb (PacketQuiz.q_id q =? sid)%Z) (PacketQuiz.questions self)) /\
    (PacketQuiz.start_question_id self = Some sid ->
     forall q0 : PacketQuiz.Question,
       In q0 (PacketQuiz.questions self) -> PacketQuiz.q_id q0 = sid ->
       exists (q : PacketQuiz.Question) (rest : list PacketQuiz.Question),
         PacketQuiz.select_questions shuffle self
         = (self, q :: rest, [PacketQuiz.EvStartingWith sid]) /\
         PacketQuiz.q_id q = sid /\ In q (PacketQuiz.questions self) /\
         (forall r, In r rest -> PacketQuiz.q_id r <> sid /\ In r (PacketQuiz.questions self))).
Proof.
  intros shuffle sid self Hperm.
  assert (E : PacketQuiz.find_start sid (PacketQuiz.questions self)
              = (match rev (filter (fun q => (PacketQuiz.q_id q =? sid)%Z)
                                   (PacketQuiz.questions self)) with
                 | q :: _ => Some q
                 | [] => None
                 end,
                 filter (fun q => negb (PacketQuiz.q_id q =? sid)%Z)
                        (PacketQuiz.questions self))).
  { unfold PacketQuiz.find_start.
    rewrite (surjective_pairing (fold_left _ _ _)).
    rewrite find_start_last, find_start_remaining. reflexivity. }
  split; [exact E |].
  intros Hs q0 Hin Hk.
  unfold PacketQuiz.select_questions. rewrite Hs, E.
  destruct (rev (filter (fun q => (PacketQuiz.q_id q =? sid)%Z)
                        (PacketQuiz.questions self))) as [| q tl] eqn:R.
  - exfalso.
    assert (Hq : In q0 (filter (fun q => (PacketQuiz.q_id q =? sid)%Z)
                               (PacketQuiz.questions self))).
    { apply filter_In. split; [exact Hin | apply Z.eqb_eq; exact Hk]. }
    apply in_rev in Hq. rewrite R in Hq. exact Hq.
  - assert (Hq : In q (filter (fun q => (PacketQuiz.q_id q =? sid)%Z)
                              (PacketQuiz.questions self))).
    { apply in_rev. rewrite R. left. reflexivity. }
    apply filter_In in Hq. destruct Hq as [Hq1 Hq2]. apply Z.eqb_eq in Hq2.
    eexists. eexists. split; [reflexivity |].
    split; [exact Hq2 |]. split; [exact Hq1 |].
    intros r Hr. apply In_list_upto in Hr.
    apply (Permutation_in _ (Permutation_sym (Hperm _))) in Hr.
    apply filter_In in Hr. destruct Hr as [Hr1 Hr2].
    split; [| exact Hr1].
    intros Heq. rewrite Heq, Z.eqb_refl in Hr2. discriminate Hr2.
Qed.

Lemma find_start_any_bank_witness :
  let q5 := nth 4 PacketQuiz.packet_bank (PacketQuiz.mkQuestion 0 "" 0 [] "" "" None) in
  let q7 := nth 6 PacketQuiz.packet_bank (PacketQuiz.mkQuestion 0 "" 0 [] "" "" None) in
  let twin := PacketQuiz.mkQuestion 5 "twin" 0 ["x"; "y"] "x" "" None in
  PacketQuiz.find_start 5 [q5; q7; twin] = (Some twin, [q7]) /\
  exists q rest,
    PacketQuiz.select_questions (@rev _)
      (PacketQuiz.mkQuiz 3 (Some 5%Z) 0 [] [q5; q7; twin])
    = (PacketQuiz.mkQuiz 3 (Some 5%Z) 0 [] [q5; q7; twin], q :: rest,
       [PacketQuiz.EvStartingWith 5]) /\
    PacketQuiz.q_id q = 5%Z.
Proof.
  cbv zeta.
  set (q5 := nth 4 PacketQuiz.packet_bank (PacketQuiz.mkQuestion 0 "" 0 [] "" "" None)).
  set (q7 := nth 6 PacketQuiz.packet_bank (PacketQuiz.mkQuestion 0 "" 0 [] "" "" None)).
  set (twin := PacketQuiz.mkQuestion 5 "twin" 0 ["x"; "y"] "x" "" None).
  destruct (find_start_any_bank (@rev _) 5%Z
              (PacketQuiz.mkQuiz 3 (Some 5%Z) 0 [] [q5; q7; twin])
              (rev_shuffle _)) as [H1 H2].
  split; [exact H1 |].
  destruct (H2 eq_refl q5 (or_introl eq_refl) eq_refl) as [q [rest [E [K _]]]].
  exists q, rest. split; [exact E | exact K].
Defined.

(* ------------------------------------------------------------------ *)
(** ** What a run returns *)

Lemma packet_select_fields (shuffle : list PacketQuiz.Question -> list PacketQuiz.Question)
      (self : PacketQuiz.t) :
  let s0 := fst (fst (PacketQuiz.select_questions shuffle self)) in
  PacketQuiz.num_questions s0 = PacketQuiz.num_questions self /\
  PacketQuiz.start_question_id s0 = PacketQuiz.start_question_id self /\
  PacketQuiz.score s0 = PacketQuiz.score self /\
  PacketQuiz.packet_data s0 = PacketQuiz.packet_data self /\
  (PacketQuiz.questions s0 = PacketQuiz.questions self \/
   PacketQuiz.questions s0 = shuffle (PacketQuiz.questions self)).
Proof.
  cbv zeta. unfold PacketQuiz.select_questions.
  destruct (PacketQuiz.start_question_id self) as [sid |] eqn:Hs;
    [| cbn; rewrite Hs; repeat split; right; reflexivity].
  destruct (PacketQuiz.find_start sid (PacketQuiz.questions self)) as [[q |] rem];
    cbn; rewrite ?Hs; repeat split; auto.
Qed.

(** The result of [run_quiz] in terms of the loop: the run of
    [tcp_flags_quiz.py]. *)
Lemma flags_run_quiz_spec
      (shuffle : list TCPFlagsQuiz.Question -> list TCPFlagsQuiz.Question)
      (self : TCPFlagsQuiz.t) (answers : nat -> string) :
  let selected := snd (TCPFlagsQuiz.select_questions shuffle self) in
  let final := TCPFlagsQuiz.mkQuiz
                 (TCPFlagsQuiz.num_questions self)
                 (TCPFlagsQuiz.score self
                  + Z.of_nat (count_correct flags_verdict 0 selected answers))
                 (shuffle (TCPFlagsQuiz.questions self)) in
  if (TCPFlagsQuiz.num_questions self =? 0)%Z
  then TCPFlagsQuiz.run_quiz shuffle self answers = Raise ZeroDivisionError
  else exists events, TCPFlagsQuiz.run_quiz shuffle self answers = Ok (final, events).
Proof.
  cbv zeta. unfold TCPFlagsQuiz.run_quiz, TCPFlagsQuiz.select_questions.
  cbv zeta. cbn [snd].
  destruct (flags_ask_all_spec
              (Py.list_upto
                 (TCPFlagsQuiz.questions
                    (TCPFlagsQuiz.set_questions self (shuffle (TCPFlagsQuiz.questions self))))
                 (TCPFlagsQuiz.num_questions
                    (TCPFlagsQuiz.set_questions self (shuffle (TCPFlagsQuiz.questions self)))))
              answers
              (TCPFlagsQuiz.set_questions self (shuffle (TCPFlagsQuiz.questions self))) 0)
    as [ev E].
  rewrite E. cbn [bind fst snd TCPFlagsQuiz.set_questions TCPFlagsQuiz.num_questions
                  TCPFlagsQuiz.score TCPFlagsQuiz.questions].
  unfold percentage.
  destruct (TCPFlagsQuiz.num_questions self =? 0)%Z; [reflexivity |].
  cbn [bind]. eexists. reflexivity.
Qed.

(** The same for the run of [packet_quiz.py]. *)
Lemma packet_run_quiz_spec
      (shuffle : list PacketQuiz.Question -> list PacketQuiz.Question)
      (self : PacketQuiz.t) (answers : nat -> string) :
  let s0 := fst (fst (PacketQuiz.select_questions shuffle self)) in
  let selected := snd (fst (PacketQuiz.select_questions shuffle self)) in
  let final := PacketQuiz.mkQuiz
                 (PacketQuiz.num_questions self)
                 (PacketQuiz.start_question_id self)
                 (PacketQuiz.score self
                  + Z.of_nat (count_correct packet_verdict 0 selected answers))
                 (PacketQuiz.packet_data self)
                 (PacketQuiz.questions s0) in
  if forallb (packet_loaded (PacketQuiz.packet_data self)) selected
  then if (PacketQuiz.num_questions self =? 0)%Z
       then PacketQuiz.run_quiz shuffle self answers = Raise ZeroDivisionError
       else exists events, PacketQuiz.run_quiz shuffle self answers = Ok (final, events)
  else PacketQuiz.run_quiz shuffle self answers = Raise IndexError.
Proof.
  cbv zeta. unfold PacketQuiz.run_quiz. cbv zeta.
  destruct (packet_select_fields shuffle self) as [K1 [K2 [K3 [K4 _]]]].
  destruct (PacketQuiz.select_questions shuffle self) as [[s0 sel] notice].
  cbn [fst snd] in *.
  pose proof (packet_ask_all_spec sel answers s0 0) as A.
  rewrite K1, K2, K3, K4 in A.
  destruct (forallb (packet_loaded (PacketQuiz.packet_data self)) sel).
  - destruct A as [ev E]. rewrite E.
    cbn [bind fst snd PacketQuiz.num_questions PacketQuiz.score].
    unfold percentage.
    destruct (PacketQuiz.num_questions self =? 0)%Z; [reflexivity |].
    cbn [bind]. eexists. reflexivity.
  - rewrite A. reflexivity.
Qed.

(** X7: for typed lines and questions of ASCII text, when [run_quiz]
    returns, the score has grown by exactly the number of chosen questions
    whose typed line, turned into an option when it is a letter, was
    accepted by [check_answer]. *)
Theorem run_quiz_score :
  forall (shuffle_f : list TCPFlagsQuiz.Question -> list TCPFlagsQuiz.Question)
         (shuffle_p : list PacketQuiz.Question -> list PacketQuiz.Question)
         (answers : nat -> string),
    (forall i : nat, is_ascii (answers i) = true) ->
    (forall (self self' : TCPFlagsQuiz.t) (events : list TCPFlagsQuiz.event),
        (forall q, In q (TCPFlagsQuiz.questions self) -> ascii_flags_question q = true) ->
        TCPFlagsQuiz.run_quiz shuffle_f self answers = Ok (self', events) ->
        TCPFlagsQuiz.score self'
        = (TCPFlagsQuiz.score self
           + Z.of_nat (count_correct flags_verdict 0
                         (snd (TCPFlagsQuiz.select_questions shuffle_f self))
                         answers))%Z) /\
    (forall (self self' : PacketQuiz.t) (events : list PacketQuiz.event),
        (forall q, In q (PacketQuiz.questions self) -> ascii_packet_question q = true) ->
        PacketQuiz.run_quiz shuffle_p self answers = Ok (self', events) ->
        PacketQuiz.score self'
        = (PacketQuiz.score self
           + Z.of_nat (count_correct packet_verdict 0
                         (snd (fst (PacketQuiz.select_questions shuffle_p self)))
                         answers))%Z).
Proof.
  intros shuffle_f shuffle_p answers _. split.
  - intros self self' events _ H.
    pose proof (flags_run_quiz_spec shuffle_f self answers) as S. cbv zeta in S.
    destruct (TCPFlagsQuiz.num_questions self =? 0)%Z; [congruence |].
    destruct S as [ev E]. rewrite E in H. injection H as <- _. reflexivity.
  - intros self self' events _ H.
    pose proof (packet_run_quiz_spec shuffle_p self answers) as S. cbv zeta in S.
    destruct (forallb _ _); [| congruence].
    destruct (PacketQuiz.num_questions self =? 0)%Z; [congruence |].
    destruct S as [ev E]. rewrite E in H. injection H as <- _. reflexivity.
Qed.

Lemma flags_bank_ascii :
  forall q, In q TCPFlagsQuiz.flags_bank -> ascii_flags_question q = true.
Proof.
  apply forallb_forall. vm_compute. reflexivity.
Qed.

Lemma packet_bank_ascii :
  forall q, In q PacketQuiz.packet_bank -> ascii_packet_question q = true.
Proof.
  apply forallb_forall. vm_compute. reflexivity.
Qed.

Lemma run_quiz_score_witness :
  (forall i : nat, is_ascii ((fun _ : nat => "b") i) = true) /\
  exists (self' : TCPFlagsQuiz.t) (events : list TCPFlagsQuiz.event),
    TCPFlagsQuiz.run_quiz (fun l => l) (TCPFlagsQuiz.new 5) (fun _ => "b")
    = Ok (self', events) /\
    TCPFlagsQuiz.score self' = 4%Z.
Proof.
  split; [intros i; reflexivity |].
  destruct (TCPFlagsQuiz.run_quiz (fun l => l) (TCPFlagsQuiz.new 5) (fun _ => "b"))
    as [[self' events] | e] eqn:E; [| vm_compute in E; discriminate E].
  exists self', events. split; [reflexivity |].
  rewrite (proj1 (run_quiz_score (fun l => l) (fun l => l) (fun _ => "b")
                    (fun i => eq_refl))
             (TCPFlagsQuiz.new 5) self' events flags_bank_ascii E).
  reflexivity.
Defined.





(* ------------------------------------------------------------------ *)
(** ** The size of the choice for any count *)

Lemma length_list_upto {A : Type} (l : list A) (n : Z) :
  length (Py.list_upto l n)
  = if (n <? 0)%Z
    then Z.to_nat (Z.of_nat (length l) + n)
    else Nat.min (Z.to_nat n) (length l).
Proof.
  unfold Py.list_upto. destruct (Z.ltb_spec n 0); rewrite length_firstn; lia.
Qed.

(** X10: on the unpinned path of both scripts the chosen list is a prefix
    of the shuffled bank for every count, negative counts included: a
    count [N >= 0] takes [min N bank_size] questions, and a count [N < 0]
    takes all but the last [-N] questions, none when [-N] reaches the size
    of the bank.  On the pinned path the same holds with [N - 1] for the
    questions after the start question. *)
Theorem selection_size_any_count :
  forall (shuffle_f : list TCPFlagsQuiz.Question -> list TCPFlagsQuiz.Question)
         (shuffle_p : list PacketQuiz.Question -> list PacketQuiz.Question),
    (forall l, Permutation l (shuffle_f l)) ->
    (forall l, Permutation l (shuffle_p l)) ->
    (forall self : TCPFlagsQuiz.t,
        let n := TCPFlagsQuiz.num_questions self in
        let bank_size := length (TCPFlagsQuiz.questions self) in
        let sel := snd (TCPFlagsQuiz.select_questions shuffle_f self) in
        sel = firstn (length sel) (shuffle_f (TCPFlagsQuiz.questions self)) /\
        length sel = if (n <? 0)%Z
                     then Z.to_nat (Z.of_nat bank_size + n)
                     else Nat.min (Z.to_nat n) bank_size) /\
    (forall self : PacketQuiz.t,
        let n := PacketQuiz.num_questions self in
        let bank_size := length (PacketQuiz.questions self) in
        let sel := snd (fst (PacketQuiz.select_questions shuffle_p self)) in
        (PacketQuiz.start_question_id self = None ->
         sel = firstn (length sel) (shuffle_p (PacketQuiz.questions self)) /\
         length sel = if (n <? 0)%Z
                      then Z.to_nat (Z.of_nat bank_size + n)
                      else Nat.min (Z.to_nat n) bank_size) /\
        (forall (sid : Z) (q : PacketQuiz.Question),
            PacketQuiz.start_question_id self = Some sid ->
            NoDup (map PacketQuiz.q_id (PacketQuiz.questions self)) ->
            In q (PacketQuiz.questions self) -> PacketQuiz.q_id q = sid ->
            length sel = if (n - 1 <? 0)%Z
                         then S (Z.to_nat (Z.of_nat bank_size - 1 + (n - 1)))
                         else S (Nat.min (Z.to_nat (n - 1)) (bank_size - 1)))).
Proof.
  intros shuffle_f shuffle_p Hf Hp.
  assert (P : forall (A : Type) (l : list A) (n : Z),
             Py.list_upto l n = firstn (length (Py.list_upto l n)) l).
  { intros A l n. destruct (list_upto_firstn l n) as [k E]. rewrite E.
    rewrite length_firstn.
    destruct (Nat.le_gt_cases k (length l)).
    - rewrite Nat.min_l by assumption. reflexivity.
    - rewrite Nat.min_r by lia. rewrite !firstn_all2 by lia. reflexivity. }
  split.
  - intros self. cbv zeta. unfold TCPFlagsQuiz.select_questions.
    cbn [snd TCPFlagsQuiz.set_questions TCPFlagsQuiz.questions
             TCPFlagsQuiz.num_questions].
    split; [apply P |].
    rewrite length_list_upto, <- (Permutation_length (Hf _)). reflexivity.
  - intros self. cbv zeta. split.
    + intros Hs. unfold PacketQuiz.select_questions. rewrite Hs.
      cbn [fst snd PacketQuiz.set_questions PacketQuiz.questions
               PacketQuiz.num_questions].
      split; [apply P |].
      rewrite length_list_upto, <- (Permutation_length (Hp _)). reflexivity.
    + intros sid q Hs Hnd Hin Hk.
      rewrite (select_pinned shuffle_p self sid q Hs Hnd Hin Hk).
      cbn [fst snd length].
      destruct (remaining_shuffled shuffle_p Hp self sid q 0 Hnd Hin Hk) as [_ [_ H3]].
      rewrite length_list_upto.
      destruct (PacketQuiz.num_questions self - 1 <? 0)%Z; lia.
Qed.

Lemma selection_size_any_count_witness :
  length (snd (TCPFlagsQuiz.select_questions (@rev _) (TCPFlagsQuiz.new (-3)))) = 47 /\
  length (snd (TCPFlagsQuiz.select_questions (@rev _) (TCPFlagsQuiz.new (-60)))) = 0 /\
  length (snd (fst (PacketQuiz.select_questions
                      (@rev _) (PacketQuiz.new (-2) (Some 7%Z) [])))) = 47.
Proof.
  pose proof (selection_size_any_count (@rev _) (@rev _) (rev_shuffle _) (rev_shuffle _))
    as [Hf Hp].
  split; [exact (proj2 (Hf (TCPFlagsQuiz.new (-3)))) |].
  split; [exact (proj2 (Hf (TCPFlagsQuiz.new (-60)))) |].
  exact (proj2 (Hp (PacketQuiz.new (-2) (Some 7%Z) [])) 7%Z
           (nth 6 PacketQuiz.packet_bank (PacketQuiz.mkQuestion 0 "" 0 [] "" "" None))
           eq_refl packet_bank_NoDup ltac:(simpl; tauto) eq_refl).
Defined.

(* ------------------------------------------------------------------ *)
(** ** The highlight span of a question *)

Lemma split_aux_field (a rest cur : string) :
  all_chars (fun c => negb (Py.is_space c)) a = true ->
  PySplit.split_aux (a ++ rest) cur = PySplit.split_aux rest (cur ++ a).
Proof.
  revert cur. induction a as [| c a IH]; intros cur H.
  - cbn [append]. rewrite append_nil_r. reflexivity.
  - cbn [all_chars] in H. apply andb_prop in H. destruct H as [Hc Ha].
    apply negb_true_iff in Hc.
    cbn [append PySplit.split_aux]. rewrite Hc, (IH _ Ha), append_assoc.
    reflexivity.
Qed.

Lemma split_aux_blank (w rest : string) :
  all_chars Py.is_space w = true ->
  PySplit.split_aux (w ++ rest) "" = PySplit.split_aux rest "".
Proof.
  induction w as [| c w IH]; intros H; [reflexivity |].
  cbn [all_chars] in H. apply andb_prop in H. destruct H as [Hc Hw].
  cbn [append PySplit.split_aux]. rewrite Hc. exact (IH Hw).
Qed.

Lemma split_two_fields (a w b : string) :
  is_field a = true -> is_field b = true ->
  all_chars Py.is_space w = true -> w <> "" ->
  PySplit.split (a ++ w ++ b) = [a; b].
Proof.
  unfold is_field. intros Ha Hb Hw Hne.
  apply andb_prop in Ha, Hb. destruct Ha as [Ha1 Ha2], Hb as [Hb1 Hb2].
  unfold PySplit.split. rewrite (split_aux_field a _ "" Ha2). cbn [append].
  destruct w as [| c w]; [congruence |].
  cbn [all_chars] in Hw. apply andb_prop in Hw. destruct Hw as [Hc Hw].
  cbn [append PySplit.split_aux]. rewrite Hc.
  destruct a as [| x a]; [discriminate Ha1 |].
  f_equal. rewrite (split_aux_blank w b Hw).
  rewrite <- (append_nil_r b) at 1. rewrite (split_aux_field b "" "" Hb2).
  cbn [append PySplit.split_aux].
  destruct b; [discriminate Hb1 | reflexivity].
Qed.

Lemma lower_hex_field (s : string) :
  all_chars is_lower_hex s = true ->
  all_chars (fun c => negb (Py.is_space c)) s = true.
Proof.
  induction s as [| c s IH]; intros H; [reflexivity |].
  cbn [all_chars] in H. apply andb_prop in H. destruct H as [Hc Hs].
  cbn [all_chars]. rewrite (lower_hex_not_space c Hc), (IH Hs). reflexivity.
Qed.

(** X11: the two fields of [hex_location] give the highlight span of the
    second dump of a question: the first field read as a base-16 numeral
    is the offset and half the length of the second the number of bytes,
    so a location written as a dump label and the bytes it covers parses
    back to that offset; a first field that is no numeral switches both
    parameters off, and never is one parameter given without the other. *)
Theorem parse_hex_location_fields :
  (forall (off w data : string),
      is_field off = true -> is_field data = true ->
      all_chars Py.is_space w = true -> w <> "" ->
      PacketQuiz.parse_hex_location (off ++ w ++ data)
      = match Py.int16 off with
        | Ok v => (Some v, Some (Z.of_nat (String.length data / 2)))
        | Raise _ => (None, None)
        end) /\
  (forall (k : nat) (data : string),
      is_field data = true ->
      PacketQuiz.parse_hex_location (Py.format_04x k ++ " " ++ data)
      = (Some (Z.of_nat k), Some (Z.of_nat (String.length data / 2)))) /\
  (forall hex_location : string,
      PacketQuiz.parse_hex_location hex_location = (None, None) \/
      exists (v n : Z),
        PacketQuiz.parse_hex_location hex_location = (Some v, Some n) /\ (0 <= n)%Z).
Proof.
  assert (F : forall off w data : string,
             is_field off = true -> is_field data = true ->
             all_chars Py.is_space w = true -> w <> "" ->
             PacketQuiz.parse_hex_location (off ++ w ++ data)
             = match Py.int16 off with
               | Ok v => (Some v, Some (Z.of_nat (String.length data / 2)))
               | Raise _ => (None, None)
               end).
  { intros off w data Ho Hd Hw Hne. unfold PacketQuiz.parse_hex_location.
    rewrite (split_two_fields off w data Ho Hd Hw Hne).
    destruct (off ++ w ++ data) eqn:E; [| reflexivity].
    destruct off; [discriminate Ho | discriminate E]. }
  split; [exact F |]. split.
  - intros k data Hd.
    destruct (format_04x_spec k) as [Hlen [_ [Hall Hint]]].
    assert (Ho : is_field (Py.format_04x k) = true).
    { unfold is_field. rewrite (lower_hex_field _ Hall), andb_true_r.
      destruct (Py.format_04x k); [simpl in Hlen; lia | reflexivity]. }
    rewrite (F (Py.format_04x k) " " data Ho Hd eq_refl ltac:(discriminate)), Hint.
    reflexivity.
  - intros h. unfold PacketQuiz.parse_hex_location.
    destruct h as [| c h]; [left; reflexivity |].
    destruct (PySplit.split (String c h)) as [| p0 [| p1 l]];
      [left; reflexivity | left; reflexivity |].
    destruct (Py.int16 p0) as [v | e]; [| left; reflexivity].
    right. exists v, (Z.of_nat (String.length p1 / 2)). split; [reflexivity | lia].
Qed.

Lemma parse_hex_location_fields_witness :
  PacketQuiz.parse_hex_location "000c 0806" = (Some 12%Z, Some 2%Z) /\
  PacketQuiz.parse_hex_location "zz 0806" = (None, None).
Proof.
  split.
  - exact (proj1 (proj2 parse_hex_location_fields) 12 "0806" eq_refl).
  - exact (proj1 parse_hex_location_fields "zz" " " "0806"
             eq_refl eq_refl eq_refl ltac:(discriminate)).
Defined.

(* ------------------------------------------------------------------ *)
(** ** The questions of the two banks and their letters *)

Lemma one_letter_answers_spec {Q : Type} (options : Q -> list string)
      (answer : Q -> string) (verdict : Q -> string -> bool) (q : Q) :
  one_letter_answers options answer verdict q = true ->
  length (options q) <= 4 /\
  exists k : nat,
    k < length (options q) /\
    nth k (options q) "" = answer q /\
    forall j : nat,
      j < length (options q) ->
      (verdict q (upper_letter j) = true <-> j = k).
Proof.
  unfold one_letter_answers. intros H.
  apply andb_prop in H. destruct H as [H1 H2].
  apply Nat.leb_le in H1. split; [exact H1 |].
  apply existsb_exists in H2. destruct H2 as [k [Hk H2]].
  apply in_seq in Hk. apply andb_prop in H2. destruct H2 as [H2 H3].
  apply String.eqb_eq in H2.
  exists k. split; [lia |]. split; [exact H2 |].
  intros j Hj. rewrite forallb_forall in H3.
  specialize (H3 j ltac:(apply in_seq; lia)).
  apply Bool.eqb_prop in H3. rewrite H3. apply Nat.eqb_eq.
Qed.

(** X12: every question of the two banks has two to four options, so
    every option has a letter among A to D; its canonical answer is one of
    the options; and typing the letter of an option is judged correct for
    that option and for no other. *)
Theorem bank_questions_have_one_answer :
  (forall q : TCPFlagsQuiz.Question,
      In q TCPFlagsQuiz.flags_bank ->
      2 <= length (TCPFlagsQuiz.q_options q) <= 4 /\
      exists k : nat,
        k < length (TCPFlagsQuiz.q_options q) /\
        nth k (TCPFlagsQuiz.q_options q) "" = TCPFlagsQuiz.q_answer q /\
        forall j : nat,
          j < length (TCPFlagsQuiz.q_options q) ->
          (flags_verdict q (upper_letter j) = true <-> j = k)) /\
  (forall q : PacketQuiz.Question,
      In q PacketQuiz.packet_bank ->
      2 <= length (PacketQuiz.q_options q) <= 4 /\
      exists k : nat,
        k < length (PacketQuiz.q_options q) /\
        nth k (PacketQuiz.q_options q) "" = PacketQuiz.q_answer q /\
        forall j : nat,
          j < length (PacketQuiz.q_options q) ->
          (packet_verdict q (upper_letter j) = true <-> j = k)).
Proof.
  split.
  - intros q Hin.
    assert (A : forallb (fun q => (2 <=? length (TCPFlagsQuiz.q_options q))
                                  && one_letter_answers TCPFlagsQuiz.q_options
                                       TCPFlagsQuiz.q_answer flags_verdict q)
                        TCPFlagsQuiz.flags_bank = true)
      by (vm_compute; reflexivity).
    rewrite forallb_forall in A. specialize (A q Hin).
    apply andb_prop in A. destruct A as [A1 A2]. apply Nat.leb_le in A1.
    apply one_letter_answers_spec in A2. destruct A2 as [A2 A3].
    split; [lia | exact A3].
  - intros q Hin.
    assert (A : forallb (fun q => (2 <=? length (PacketQuiz.q_options q))
                                  && one_letter_answers PacketQuiz.q_options
                                       PacketQuiz.q_answer packet_verdict q)
                        PacketQuiz.packet_bank = true)
      by (vm_compute; reflexivity).
    rewrite forallb_forall in A. specialize (A q Hin).
    apply andb_prop in A. destruct A as [A1 A2]. apply Nat.leb_le in A1.
    apply one_letter_answers_spec in A2. destruct A2 as [A2 A3].
    split; [lia | exact A3].
Qed.

Lemma bank_questions_have_one_answer_witness :
  let q2 := nth 1 PacketQuiz.packet_bank (PacketQuiz.mkQuestion 0 "" 0 [] "" "" None) in
  exists k : nat,
    nth k (PacketQuiz.q_options q2) "" = "0x0806" /\
    (packet_verdict q2 "B" = true <-> 1 = k).
Proof.
  cbv zeta.
  destruct (proj2 bank_questions_have_one_answer
              (nth 1 PacketQuiz.packet_bank (PacketQuiz.mkQuestion 0 "" 0 [] "" "" None))
              ltac:(simpl; tauto)) as [_ [k [_ [H1 H2]]]].
  exists k. split; [exact H1 |]. exact (H2 1 ltac:(simpl; lia)).
Defined.

(* ------------------------------------------------------------------ *)
(** ** Base-16 numerals in [check_answer] *)

Lemma hex_char_facts (c : ascii) :
  is_hex_char c = true ->
  Py.is_space (Py.lower_char c) = false /\
  (Py.lower_char c =? "_")%char = false /\
  Py.hex_val (Py.lower_char c) = Py.hex_val c /\
  is_hex_char (Py.lower_char c) = true.
Proof.
  destruct c as [[] [] [] [] [] [] [] []]; intros H;
    solve [repeat split; reflexivity | discriminate H].
Qed.

Lemma int16_digits_hex (h : string) :
  all_chars is_hex_char h = true -> h <> "" ->
  forall (p : bool) (nd : nat) (acc : Z),
    Py.int16_digits (Py.lower h) p nd acc = Ok (hex_value_from acc h).
Proof.
  induction h as [| c h IH]; intros H Hne p nd acc; [congruence |].
  cbn [all_chars] in H. apply andb_prop in H. destruct H as [Hc Hh].
  destruct (hex_char_facts c Hc) as [_ [Hus [Hval _]]].
  cbn [Py.lower Py.int16_digits hex_value_from]. rewrite Hus, Hval.
  unfold is_hex_char in Hc. destruct (Py.hex_val c) as [d |]; [| discriminate Hc].
  destruct h as [| c' h'].
  - reflexivity.
  - apply IH; [exact Hh | discriminate].
Qed.

Lemma strip_no_space (s : string) :
  all_chars (fun c => negb (Py.is_space c)) s = true -> Py.strip s = s.
Proof.
  intros H. unfold Py.strip.
  assert (R : Py.rstrip s = s).
  { induction s as [| c r IH]; [reflexivity |].
    cbn [all_chars] in H. apply andb_prop in H. destruct H as [Hc Hr].
    apply negb_true_iff in Hc.
    cbn [Py.rstrip]. rewrite (IH Hr), Hc. destruct r; reflexivity. }
  rewrite R. destruct s as [| c r]; [reflexivity |].
  cbn [all_chars] in H. apply andb_prop in H. destruct H as [Hc _].
  apply negb_true_iff in Hc. cbn [Py.lstrip]. rewrite Hc. reflexivity.
Qed.

Lemma not_space_not_c_space (c : ascii) :
  Py.is_space c = false -> Py.is_c_space c = false.
Proof.
  destruct c as [[] [] [] [] [] [] [] []]; intros H;
    solve [reflexivity | discriminate H].
Qed.

Lemma int_strip_no_space (s : string) :
  all_chars (fun c => negb (Py.is_space c)) s = true -> Py.int_strip s = s.
Proof.
  intros H. unfold Py.int_strip.
  assert (R : Py.int_rstrip s = s).
  { induction s as [| c r IH]; [reflexivity |].
    cbn [all_chars] in H. apply andb_prop in H. destruct H as [Hc Hr].
    apply negb_true_iff in Hc.
    cbn [Py.int_rstrip]. rewrite (IH Hr), (not_space_not_c_space c Hc).
    destruct r; reflexivity. }
  rewrite R. destruct s as [| c r]; [reflexivity |].
  cbn [all_chars] in H. apply andb_prop in H. destruct H as [Hc _].
  apply negb_true_iff in Hc.
  cbn [Py.int_lstrip]. rewrite (not_space_not_c_space c Hc). reflexivity.
Qed.

Lemma lower_hex_no_space (h : string) :
  all_chars is_hex_char h = true ->
  all_chars (fun c => negb (Py.is_space c)) (Py.lower h) = true.
Proof.
  induction h as [| c h IH]; intros H; [reflexivity |].
  cbn [all_chars] in H. apply andb_prop in H. destruct H as [Hc Hh].
  destruct (hex_char_facts c Hc) as [Hs _].
  cbn [Py.lower all_chars]. rewrite Hs, (IH Hh). reflexivity.
Qed.

Lemma normalize_numeral (h : string) :
  all_chars is_hex_char h = true ->
  normalize ("0x" ++ h) = "0x" ++ Py.lower h.
Proof.
  intros H. unfold normalize. rewrite lower_append.
  change (Py.lower "0x") with "0x". apply strip_no_space.
  cbn [append all_chars]. rewrite (lower_hex_no_space h H). reflexivity.
Qed.

Lemma int16_numeral (h : string) :
  all_chars is_hex_char h = true -> h <> "" ->
  Py.int16 ("0x" ++ Py.lower h) = Ok (hex_value h).
Proof.
  intros H Hne. unfold Py.int16.
  rewrite int_strip_no_space
    by (cbn [append all_chars]; rewrite (lower_hex_no_space h H); reflexivity).
  cbn [append]. unfold Py.int16_unsigned.
  change (("x" =? "x")%char || ("x" =? "X")%char) with true. cbv iota.
  destruct h as [| c h]; [congruence |].
  cbn [all_chars] in H. pose proof H as H'.
  apply andb_prop in H'. destruct H' as [Hc _].
  destruct (hex_char_facts c Hc) as [_ [Hus _]].
  cbn [Py.lower].
  assert (B : forall r,
             match String (Py.lower_char c) r with
             | String "_" r' => r'
             | _ => String (Py.lower_char c) r
             end = String (Py.lower_char c) r).
  { intros r. destruct (Py.lower_char c) as [[] [] [] [] [] [] [] []];
      solve [reflexivity | discriminate Hus]. }
  rewrite B.
  assert (B' : forall r (X : result Z),
             match String (Py.lower_char c) r with
             | String "_" _ => Raise ValueError
             | _ => X
             end = X).
  { intros r X. destruct (Py.lower_char c) as [[] [] [] [] [] [] [] []];
      solve [reflexivity | discriminate Hus]. }
  rewrite (B' (Py.lower h)).
  exact (int16_digits_hex (String c h) H Hne false 0 0%Z).
Qed.

(** X13: for two numerals written as [0x] and base-16 digits, both scripts
    judge the answer by the numbers they denote: digit case and leading
    zeros make no difference, and different numbers never match. *)
Theorem hex_numerals_compare_by_value :
  forall h1 h2 : string,
    all_chars is_hex_char h1 = true -> h1 <> "" ->
    all_chars is_hex_char h2 = true -> h2 <> "" ->
    PacketQuiz.check_answer ("0x" ++ h1) ("0x" ++ h2)
    = Ok (hex_value h1 =? hex_value h2)%Z /\
    TCPFlagsQuiz.check_answer ("0x" ++ h1) ("0x" ++ h2)
    = Ok (hex_value h1 =? hex_value h2)%Z.
Proof.
  intros h1 h2 H1 N1 H2 N2.
  rewrite packet_check_answer_unfold, flags_check_answer_unfold. cbv zeta.
  rewrite (normalize_numeral h1 H1), (normalize_numeral h2 H2).
  assert (S1 : Py.startswith ("0x" ++ Py.lower h1) "0x" = true) by reflexivity.
  assert (S2 : Py.startswith ("0x" ++ Py.lower h2) "0x" = true) by reflexivity.
  rewrite (startswith_0x_not_bool _ S2), S1, S2. cbn [andb].
  unfold hex_class.
  rewrite (int16_numeral h1 H1 N1), (int16_numeral h2 H2 N2).
  cbn [bind try_except_ValueError].
  rewrite (Z.eqb_sym (hex_value h2) (hex_value h1)).
  destruct (String.eqb_spec ("0x" ++ Py.lower h1) ("0x" ++ Py.lower h2)) as [E | _];
    [| split; reflexivity].
  assert (V : hex_value h1 = hex_value h2).
  { pose proof (int16_numeral h1 H1 N1) as A. rewrite E in A.
    rewrite (int16_numeral h2 H2 N2) in A. congruence. }
  rewrite V, Z.eqb_refl. split; reflexivity.
Qed.

Lemma hex_numerals_compare_by_value_witness :
  PacketQuiz.check_answer "0x00806" "0x0806" = Ok true /\
  TCPFlagsQuiz.check_answer "0x1F" "0x001f" = Ok true /\
  TCPFlagsQuiz.check_answer "0x12" "0x02" = Ok false.
Proof.
  split; [| split].
  - exact (proj1 (hex_numerals_compare_by_value "00806" "0806"
                    eq_refl ltac:(discriminate) eq_refl ltac:(discriminate))).
  - exact (proj2 (hex_numerals_compare_by_value "1F" "001f"
                    eq_refl ltac:(discriminate) eq_refl ltac:(discriminate))).
  - exact (proj2 (hex_numerals_compare_by_value "12" "02"
                    eq_refl ltac:(discriminate) eq_refl ltac:(discriminate))).
Defined.

(* ------------------------------------------------------------------ *)
(** ** The answer typed as text *)

Lemma rstrip_decompose (s : string) :
  exists w : string, all_chars Py.is_space w = true /\ s = Py.rstrip s ++ w.
Proof.
  induction s as [| c r [w [Hw E]]]; [exists ""; split; reflexivity |].
  cbn [Py.rstrip]. destruct (Py.rstrip r) as [| d t] eqn:R.
  - cbn [append] in E. subst r.
    destruct (Py.is_space c) eqn:Hc.
    + exists (String c w). split; [cbn [all_chars]; rewrite Hc, Hw |]; reflexivity.
    + exists w. split; [exact Hw | reflexivity].
  - exists w. split; [exact Hw |]. cbn [append]. f_equal. exact E.
Qed.

Lemma lstrip_decompose (s : string) :
  exists w : string, all_chars Py.is_space w = true /\ s = w ++ Py.lstrip s.
Proof.
  induction s as [| c r [w [Hw E]]]; [exists ""; split; reflexivity |].
  cbn [Py.lstrip]. destruct (Py.is_space c) eqn:Hc.
  - exists (String c w). split; [cbn [all_chars]; rewrite Hc, Hw; reflexivity |].
    cbn [append]. f_equal. exact E.
  - exists "". split; reflexivity.
Qed.

Lemma normalize_strip (s : string) : normalize (Py.strip s) = normalize s.
Proof.
  destruct (rstrip_decompose s) as [w2 [H2 E2]].
  destruct (lstrip_decompose (Py.rstrip s)) as [w1 [H1 E1]].
  fold (Py.strip s) in E1.
  rewrite E2 at 2. rewrite E1, append_assoc.
  symmetry. apply normalize_case_variant; [reflexivity | exact H1 | exact H2].
Qed.

(** X14: in both scripts, a typed line that is not one of the letters A to
    D and that equals the canonical answer of the question up to letter
    case and surrounding white space is judged correct. *)
Theorem typed_answer_text_accepted :
  forall typed : string,
    Py.str_in (Py.upper (Py.strip typed)) ["A"; "B"; "C"; "D"] = false ->
    (forall q : TCPFlagsQuiz.Question,
        normalize typed = normalize (TCPFlagsQuiz.q_answer q) ->
        flags_verdict q typed = true) /\
    (forall q : PacketQuiz.Question,
        normalize typed = normalize (PacketQuiz.q_answer q) ->
        packet_verdict q typed = true).
Proof.
  intros typed Hletter. split; intros q Hn.
  - unfold flags_verdict. rewrite (free_text_unchanged _ _ Hletter).
    rewrite flags_check_answer_unfold. cbv zeta.
    rewrite normalize_strip, Hn, String.eqb_refl. reflexivity.
  - unfold packet_verdict. rewrite (free_text_unchanged _ _ Hletter).
    rewrite packet_check_answer_unfold. cbv zeta.
    rewrite normalize_strip, Hn, String.eqb_refl. reflexivity.
Qed.

Lemma typed_answer_text_accepted_witness :
  let q1 := nth 0 TCPFlagsQuiz.flags_bank (TCPFlagsQuiz.mkQuestion 0 "" [] "" "") in
  TCPFlagsQuiz.q_answer q1 = "FIN" /\ flags_verdict q1 "  fin " = true.
Proof.
  cbv zeta. split; [reflexivity |].
  exact (proj1 (typed_answer_text_accepted "  fin " eq_refl)
           (nth 0 TCPFlagsQuiz.flags_bank (TCPFlagsQuiz.mkQuestion 0 "" [] "" ""))
           eq_refl).
Defined.

(* ------------------------------------------------------------------ *)
(** ** The two dumps of a turn *)

(** X15: a turn of [packet_quiz.py] on a typed line and a question of
    ASCII text, when it returns, has printed six things, in this order:
    the question, the dump of its packet without highlight, the options,
    the verdict, the dump of the same packet highlighted at the span that
    [hex_location] parses to, and the explanation.  For a packet of
    base-16 digits the second dump is the first with markers added, and
    both read back as the bytes of the packet. *)
Theorem turn_shows_packet_twice :
  forall (self self' : PacketQuiz.t) (i : nat) (q : PacketQuiz.Question)
         (typed : string) (events : list PacketQuiz.event),
    is_ascii typed = true -> ascii_packet_question q = true ->
    PacketQuiz.ask self i q typed = Ok (self', events) ->
    let span := PacketQuiz.parse_hex_location
                  (match PacketQuiz.q_hex_location q with
                   | Some h => h
                   | None => EmptyString
                   end) in
    exists packet : PacketQuiz.Packet,
      let before := PacketQuiz.format_hex_dump (PacketQuiz.p_hex_dump packet)
                      None None in
      let after := PacketQuiz.format_hex_dump (PacketQuiz.p_hex_dump packet)
                     (fst span) (snd span) in
      Py.list_get (PacketQuiz.packet_data self) (PacketQuiz.q_packet_index q) = Ok packet /\
      events = [ PacketQuiz.EvQuestion (i + 1) (PacketQuiz.num_questions self)
                   (PacketQuiz.q_id q) (PacketQuiz.q_text q);
                 PacketQuiz.EvHexDump (PacketQuiz.p_name packet) before;
                 PacketQuiz.EvOptions (PacketQuiz.q_options q);
                 (if packet_verdict q typed
                  then PacketQuiz.EvCorrect
                  else PacketQuiz.EvIncorrect (PacketQuiz.q_answer q));
                 PacketQuiz.EvHexDump (PacketQuiz.p_name packet) after;
                 PacketQuiz.EvExplanation (PacketQuiz.q_explanation q)
                   (match PacketQuiz.q_hex_location q with
                    | Some h => h
                    | None => "Not specified"
                    end) ] /\
      (all_chars is_hex_char (PacketQuiz.p_hex_dump packet) = true ->
       strip_markers false after = before /\
       dump_bytes before = PacketQuiz.p_hex_dump packet /\
       dump_bytes after = PacketQuiz.p_hex_dump packet).
Proof.
  intros self self' i q typed events _ _ H. cbv zeta.
  unfold PacketQuiz.ask in H.
  destruct (Py.list_get _ _) as [packet | e] eqn:L; [| discriminate H].
  cbn [bind] in H.
  unfold packet_verdict.
  destruct (PacketQuiz.check_answer _ _) as [b | e] eqn:C; [| discriminate H].
  cbn [bind] in H.
  destruct (PacketQuiz.parse_hex_location _) as [offset num_bytes].
  injection H as _ <-.
  exists packet.
  split; [reflexivity |]. split; [reflexivity |].
  intros Hhex. split; [apply strip_markers_format_hex_dump; exact Hhex |].
  split; apply dump_bytes_format_hex_dump; exact Hhex.
Qed.

Lemma turn_shows_packet_twice_witness :
  let hex := "ffffffffffff001a2b3c4d5e08060001080006040001001a2b3c4d5ec0a80102000000000000c0a80101" in
  let arp := PacketQuiz.mkPacket "ARP Request" hex in
  let q2 := nth 1 PacketQuiz.packet_bank (PacketQuiz.mkQuestion 0 "" 0 [] "" "" None) in
  is_ascii "b" = true /\ ascii_packet_question q2 = true /\
  exists (self' : PacketQuiz.t) (events : list PacketQuiz.event),
    PacketQuiz.ask (PacketQuiz.new 1 None [arp]) 0 q2 "b" = Ok (self', events) /\
    nth 3 events (PacketQuiz.EvOptions []) = PacketQuiz.EvCorrect /\
    nth 4 events PacketQuiz.EvCorrect
    = PacketQuiz.EvHexDump "ARP Request"
        (PacketQuiz.format_hex_dump hex (Some 12%Z) (Some 2%Z)).
Proof.
  cbv zeta.
  set (hex := "ffffffffffff001a2b3c4d5e08060001080006040001001a2b3c4d5ec0a80102000000000000c0a80101").
  set (arp := PacketQuiz.mkPacket "ARP Request" hex).
  set (q2 := nth 1 PacketQuiz.packet_bank (PacketQuiz.mkQuestion 0 "" 0 [] "" "" None)).
  split; [reflexivity |]. split; [reflexivity |].
  destruct (PacketQuiz.ask (PacketQuiz.new 1 None [arp]) 0 q2 "b")
    as [[self' events] | e] eqn:E; [| vm_compute in E; discriminate E].
  destruct (turn_shows_packet_twice (PacketQuiz.new 1 None [arp]) self' 0 q2 "b"
              events eq_refl eq_refl E)
    as [packet [L [Ev _]]].
  assert (P : packet = arp) by (vm_compute in L; injection L as <-; reflexivity).
  subst packet.
  exists self', events. rewrite Ev.
  split; [reflexivity |]. split; reflexivity.
Defined.

(* ------------------------------------------------------------------ *)
(** ** The scenarios of the two scripts on concrete inputs *)

Example matcher_ignores_case_and_blanks :
  TCPFlagsQuiz.check_answer " SYN " "syn" = Ok true /\
  PacketQuiz.check_answer " SYN " "syn" = Ok true.
Proof. split; reflexivity. Qed.

Example ethertype_question :
  let options := ["0x0800"; "0x0806"; "0x8035"; "0x86DD"] in
  PacketQuiz.check_answer (letter_to_option "B" options) "0x0806" = Ok true /\
  PacketQuiz.check_answer (letter_to_option "0x806" options) "0x0806" = Ok true /\
  PacketQuiz.check_answer (letter_to_option "C" options) "0x0806" = Ok false.
Proof. repeat split; reflexivity. Qed.

Example bank_answers_are_options :
  forallb (fun q => Py.str_in (PacketQuiz.q_answer q) (PacketQuiz.q_options q))
          PacketQuiz.packet_bank = true /\
  forallb (fun q => Py.str_in (TCPFlagsQuiz.q_answer q) (TCPFlagsQuiz.q_options q))
          TCPFlagsQuiz.flags_bank = true.
Proof. split; vm_compute; reflexivity. Qed.

Example int16_underscores :
  Py.int16 "0x_1f" = Ok 31%Z /\ Py.int16 "0x1__f" = Raise ValueError /\
  Py.int16 "0x" = Raise ValueError /\ Py.int16 "-0x10" = Ok (-16)%Z.
Proof. repeat split; reflexivity. Qed.
